(** * enscons: metadata and wheel-assembly core

    A shallow embedding of [enscons/util.py] and of the metadata, manifest
    and tag functions of [enscons/__init__.py], with the properties of the
    design document proved (or refuted) about them.

    Python [str] values are modelled as [string], [bytes] as [list byte],
    a [dict] as an insertion-ordered association list (iteration order is
    observable in the emitted files), exceptions as a [result] type. *)

From Stdlib Require Import String Ascii List ZArith NArith Lia Bool Arith.
From Stdlib Require Import DecimalString Strings.Byte Permutation Sorted.
Import ListNotations.

Local Open Scope list_scope.
Local Open Scope string_scope.

(* ================================================================== *)
(** * Python string primitives used by the sources *)
(* ================================================================== *)

Module PyStr.

(** [c in 'A'..'Z'], and the like, on character codes. *)
Definition in_range (lo hi c : ascii) : bool :=
  (nat_of_ascii lo <=? nat_of_ascii c)%nat && (nat_of_ascii c <=? nat_of_ascii hi)%nat.

Definition is_upper (c : ascii) : bool := in_range "A" "Z" c.
Definition is_lower (c : ascii) : bool := in_range "a" "z" c.
Definition is_digit (c : ascii) : bool := in_range "0" "9" c.

(** [str.lower()] on one character (A-Z to a-z, everything else kept). *)
Definition lower_char (c : ascii) : ascii :=
  if is_upper c then ascii_of_nat (nat_of_ascii c + 32) else c.

(** A function applied to every character. *)
Fixpoint map_chars (f : ascii -> ascii) (s : string) : string :=
  match s with
  | EmptyString => EmptyString
  | String c s' => String (f c) (map_chars f s')
  end.

(** [s.lower()] *)
Definition lower (s : string) : string := map_chars lower_char s.

(** [re.sub('[^...]+', rep, s)] for a negated character class: [ok] is the
    class between the brackets.  Every maximal run of characters outside
    the class is replaced by one [rep].  [inrun] records that the previous
    character already belonged to the run being replaced. *)
Fixpoint sub_runs (ok : ascii -> bool) (rep : ascii) (inrun : bool) (s : string) : string :=
  match s with
  | EmptyString => EmptyString
  | String c s' =>
      if ok c then String c (sub_runs ok rep false s')
      else if inrun then sub_runs ok rep true s'
      else String rep (sub_runs ok rep true s')
  end.

Definition re_sub_not_in (ok : ascii -> bool) (rep : ascii) (s : string) : string :=
  sub_runs ok rep false s.

(** [s.replace(old, new)] for a one-character [old]. *)
Fixpoint replace_char (old : ascii) (new : string) (s : string) : string :=
  match s with
  | EmptyString => EmptyString
  | String c s' =>
      (if Ascii.eqb c old then new else String c EmptyString) ++ replace_char old new s'
  end.

(** [sep.join(parts)] *)
Fixpoint join (sep : string) (parts : list string) : string :=
  match parts with
  | [] => EmptyString
  | [p] => p
  | p :: rest => p ++ sep ++ join sep rest
  end.

(** [sep in s] for a one-character [sep]. *)
Fixpoint contains_char (sep : ascii) (s : string) : bool :=
  match s with
  | EmptyString => false
  | String c s' => Ascii.eqb c sep || contains_char sep s'
  end.

(** [s.split(sep, 1)] when [sep in s]: the text before the first [sep]
    and the text after it. *)
Fixpoint split_first (sep : ascii) (s : string) : string * string :=
  match s with
  | EmptyString => (EmptyString, EmptyString)
  | String c s' =>
      if Ascii.eqb c sep then (EmptyString, s')
      else let (a, b) := split_first sep s' in (String c a, b)
  end.

(** [s.startswith(p)] *)
Definition startswith (s p : string) : bool := String.prefix p s.

(** [s.endswith(suf)]: [s] from some position on is [suf]. *)
Fixpoint endswith (s suf : string) : bool :=
  String.eqb s suf ||
  match s with
  | EmptyString => false
  | String _ s' => endswith s' suf
  end.

(** [sub in s] *)
Fixpoint contains (sub s : string) : bool :=
  String.prefix sub s ||
  match s with
  | EmptyString => false
  | String _ s' => contains sub s'
  end.

(** [s.rstrip(c)] for a one-character argument. *)
Fixpoint rstrip_char (c : ascii) (s : string) : string :=
  match s with
  | EmptyString => EmptyString
  | String a s' =>
      match rstrip_char c s' with
      | EmptyString => if Ascii.eqb a c then EmptyString else String a EmptyString
      | r => String a r
      end
  end.

(** [str(n)] for an [int]. *)
Definition str_of_Z (z : Z) : string := NilZero.string_of_int (Z.to_int z).

(** [str(n)] for a length. *)
Definition str_of_nat (n : nat) : string := NilZero.string_of_uint (Nat.to_uint n).

(** Truth value of a [str]: non-empty. *)
Definition truthy (s : string) : bool :=
  match s with EmptyString => false | _ => true end.

End PyStr.

(* ================================================================== *)
(** * enscons/util.py: identifier normalisation *)
(* ================================================================== *)

Module Util.
Import PyStr.

(** The class [A-Za-z0-9.] *)
Definition name_char (c : ascii) : bool :=
  is_upper c || is_lower c || is_digit c || Ascii.eqb c ".".

(** The class [A-Za-z0-9.-] *)
Definition extra_char (c : ascii) : bool :=
  name_char c || Ascii.eqb c "-".

(** [re.sub('[^A-Za-z0-9.]+', '-', name)] *)
Definition safe_name (name : string) : string :=
  re_sub_not_in name_char "-" name.

(** [re.sub('[^A-Za-z0-9.-]+', '_', extra).lower()] *)
Definition safe_extra (extra : string) : string :=
  lower (re_sub_not_in extra_char "_" extra).

(** [name.replace('-', '_')] *)
Definition to_filename (name : string) : string :=
  replace_char "-" "_" name.

End Util.


(* ================================================================== *)
(** * Exceptions *)
(* ================================================================== *)

(** The exceptions the modelled code can raise. *)
Inductive exn : Type :=
| KeyError (key : string)
| InvalidRequirement (text : string)
| Exception (msg : string).

Inductive result (A : Type) : Type :=
| Ok (a : A)
| Raise (e : exn).

Arguments Ok {A} a.
Arguments Raise {A} e.

Definition bind {A B : Type} (m : result A) (k : A -> result B) : result B :=
  match m with
  | Ok a => k a
  | Raise e => Raise e
  end.

Declare Scope result_scope.
Delimit Scope result_scope with result.
Notation "x <- m ;; k" := (bind m (fun x => k))
  (at level 61, m at next level, right associativity) : result_scope.

(* ================================================================== *)
(** * Python dicts with [str] keys *)
(* ================================================================== *)

(** A dict keeps its keys in insertion order and the code iterates over
    [items()], so a dict is the list of its items in that order.  Keys are
    unique in the dicts built by the operations below from [empty]. *)
Module Dict.

Definition t (V : Type) : Type := list (string * V).

Definition empty {V : Type} : t V := [].

Definition keys {V : Type} (d : t V) : list string := map fst d.

(** The keys of a dict are distinct. *)
Definition wf {V : Type} (d : t V) : Prop := NoDup (keys d).

(** [d.get(k)] *)
Fixpoint get {V : Type} (k : string) (d : t V) : option V :=
  match d with
  | [] => None
  | (k', v) :: d' => if String.eqb k k' then Some v else get k d'
  end.

(** [k in d] *)
Definition mem {V : Type} (k : string) (d : t V) : bool :=
  match get k d with Some _ => true | None => false end.

(** [d[k] = v]: an existing key keeps its place, a new key goes last. *)
Fixpoint setitem {V : Type} (k : string) (v : V) (d : t V) : t V :=
  match d with
  | [] => [(k, v)]
  | (k', v') :: d' =>
      if String.eqb k k' then (k', v) :: d' else (k', v') :: setitem k v d'
  end.

(** [d.update(other)] *)
Definition update {V : Type} (d other : t V) : t V :=
  fold_left (fun acc kv => setitem (fst kv) (snd kv) acc) other d.

(** [d.pop(k, None)], used to state what a dict is without one key. *)
Fixpoint remove {V : Type} (k : string) (d : t V) : t V :=
  match d with
  | [] => []
  | (k', v) :: d' => if String.eqb k k' then remove k d' else (k', v) :: remove k d'
  end.

(** [sorted(d.items())]: keys are unique, so the tuples are ordered by
    their keys alone, compared as [str] (by code point). *)
Fixpoint insert_sorted {V : Type} (kv : string * V) (l : list (string * V)) : list (string * V) :=
  match l with
  | [] => [kv]
  | kv' :: l' =>
      if String.leb (fst kv) (fst kv') then kv :: l else kv' :: insert_sorted kv l'
  end.

Definition sorted_items {V : Type} (d : t V) : list (string * V) :=
  fold_right insert_sorted [] d.

End Dict.

(* ================================================================== *)
(** * enscons/util.py: the requirement expander *)
(* ================================================================== *)

(** A [packaging.requirements.Requirement] object: the attributes the
    library exposes.  [marker] is what [str(req.marker)] gives when a marker
    is set, [None] otherwise; the specifier set is kept in its rendered
    form. *)
Record requirement : Type := mkRequirement {
  req_name : string;
  req_extras : list string;
  req_specifier : string;
  req_url : option string;
  req_marker : option string
}.

Definition set_marker (r : requirement) (m : string) : requirement :=
  {| req_name := req_name r;
     req_extras := req_extras r;
     req_specifier := req_specifier r;
     req_url := req_url r;
     req_marker := Some m |}.

(** One yielded tuple [(header, value)]. *)
Definition record : Type := (string * string)%type.

Module Requirements.
Import PyStr.
Local Open Scope result_scope.

Section Expander.

(** The [packaging] library: [Requirement(text)] parses a PEP 508
    requirement ([None] stands for the [InvalidRequirement] it raises)
    and [str(req)] renders one. *)
Variable Requirement : string -> option requirement.
Variable str_Requirement : requirement -> string.

(** Lines 75-79: the group key split into [(extra, condition)]. *)
Definition split_key (key : string) : string * string :=
  if contains_char ":" key then split_first ":" key else (key, "").

(** Line 85: ["extra == '%s'" % extra] *)
Definition extra_clause (extra : string) : string :=
  "extra == '" ++ extra ++ "'".

(** Lines 75-85 of the loop body: the normalised extra and the condition
    that its requirements receive. *)
Definition extra_and_condition (key : string) : string * string :=
  let (extra, condition) := split_key key in
  let extra := Util.safe_extra extra in
  if truthy extra then
    let condition :=
      if truthy condition then "(" ++ condition ++ ") and " else condition in
    (extra, condition ++ extra_clause extra)
  else (extra, condition).

(** Lines 89-93: the condition merged into the marker of a parsed
    requirement. *)
Definition merge_marker (condition : string) (new_req : requirement) : requirement :=
  if truthy condition then
    match req_marker new_req with
    | Some marker => set_marker new_req ("(" ++ marker ++ ") and " ++ condition)
    | None => set_marker new_req condition
    end
  else new_req.

(** Lines 88-93: the requirement parsed and its marker merged. *)
Definition convert (condition dependency : string) : result requirement :=
  match Requirement dependency with
  | None => Raise (InvalidRequirement dependency)
  | Some new_req => Ok (merge_marker condition new_req)
  end.

(** Lines 87-94: the inner loop. *)
Fixpoint requires_dist (condition : string) (depends : list string) : result (list record) :=
  match depends with
  | [] => Ok []
  | dependency :: rest =>
      new_req <- convert condition dependency ;;
      more <- requires_dist condition rest ;;
      Ok (("Requires-Dist", str_Requirement new_req) :: more)
  end.

(** One turn of the outer loop: what a group yields. *)
Definition group_records (key : string) (depends : list string) : result (list record) :=
  let (extra, condition) := extra_and_condition key in
  reqs <- requires_dist condition depends ;;
  Ok ((if truthy extra then [("Provides-Extra", extra)] else []) ++ reqs)%list.

(** [generate_requirements(extras_require)]: everything the generator
    yields, or the exception that ends it. *)
Fixpoint generate_requirements (extras_require : Dict.t (list string)) : result (list record) :=
  match extras_require with
  | [] => Ok []
  | (extra, depends) :: rest =>
      here <- group_records extra depends ;;
      more <- generate_requirements rest ;;
      Ok (here ++ more)%list
  end.

End Expander.

(** Line 94 for a parsed requirement: the yielded record, its marker
    merged with the condition of its group. *)
Definition requires_dist_record
    (str_Requirement : requirement -> string)
    (condition : string) (r : requirement) : record :=
  ("Requires-Dist", str_Requirement (merge_marker condition r)).

(** The extra a group key stands for, normalised (lines 77-80). *)
Definition normalized_extra (key : string) : string :=
  Util.safe_extra (fst (split_key key)).

(** The values of the [Provides-Extra] records, in the order emitted. *)
Definition provided_extras (records : list record) : list string :=
  map snd (filter (fun r => String.eqb (fst r) "Provides-Extra") records).

(** The design document's account of the groups: visited in name-sorted
    order. *)
Definition generate_requirements_sorted
    (Requirement : string -> option requirement)
    (str_Requirement : requirement -> string)
    (extras_require : Dict.t (list string)) : result (list record) :=
  generate_requirements Requirement str_Requirement (Dict.sorted_items extras_require).

(** The design document's account of [Provides-Extra]: the set of
    non-empty normalised names of the groups that have at least one
    requirement, each once. *)
Definition nonempty_groups (extras_require : Dict.t (list string)) : Dict.t (list string) :=
  filter (fun kv => match snd kv with [] => false | _ => true end) extras_require.

Definition provides_extra_set (extras_require : Dict.t (list string)) : list string :=
  nodup string_dec
    (filter truthy (map (fun kv => normalized_extra (fst kv)) (nonempty_groups extras_require))).

(** What is asked of one [Requires-Dist] record of the group of [extra]:
    it renders a requirement whose marker ends with, and so contains, the
    clause [extra == '<extra>']. *)
Definition carries_extra (str_Requirement : requirement -> string) (extra : string)
    (r : record) : Prop :=
  fst r = "Requires-Dist" ->
  exists req pre,
    snd r = str_Requirement req
    /\ req_marker req = Some (pre ++ extra_clause extra)
    /\ contains (extra_clause extra) (pre ++ extra_clause extra) = true.

End Requirements.

(* ================================================================== *)
(** * enscons/__init__.py: dependency and entry-point files *)
(* ================================================================== *)

(** The value of an entry-point group: a table, or (a non-PEP 621
    extension) a list of raw lines. *)
Inductive ep_items : Type :=
| EPList (lines : list string)
| EPTable (table : Dict.t string).

(** The keys of [env["PACKAGE_METADATA"]] that the dependency and
    entry-point builders read; [None] is an absent key. *)
Record Metadata : Type := mkMetadata {
  extras_require : option (Dict.t (list string));
  optional_dependencies : option (Dict.t (list string));
  install_requires : option (list string);
  dependencies : option (list string);
  entry_points : option (Dict.t ep_items);
  scripts : option ep_items;
  gui_scripts : option ep_items
}.

Module Builders.
Import PyStr.
Local Open Scope result_scope.

(** [metadata.get(key, {})] *)
Definition get_or_empty {V : Type} (o : option (Dict.t V)) : Dict.t V :=
  match o with Some d => d | None => Dict.empty end.

(** Lines 323-325 of [metadata_builder], repeated at lines 161-163 of
    [requires_txt_builder]: the two tables of extras, merged. *)
Definition merged_extras (metadata : Metadata) : Dict.t (list string) :=
  let full := Dict.empty in
  let full := Dict.update full (get_or_empty (extras_require metadata)) in
  Dict.update full (get_or_empty (optional_dependencies metadata)).

(** Lines 323-330 of [metadata_builder], repeated at lines 161-168 of
    [requires_txt_builder]. *)
Definition full_requires (metadata : Metadata) : Dict.t (list string) :=
  let full := merged_extras metadata in
  let full :=
    match install_requires metadata with
    | Some reqs => Dict.setitem "" reqs full
    | None => full
    end in
  match dependencies metadata with
  | Some reqs => Dict.setitem "" reqs full
  | None => full
  end.

(** Lines 331-332 of [metadata_builder]: the text written for the
    dependency records. *)
Definition write_record (r : record) : string := fst r ++ ": " ++ snd r ++ String "010" "".

Definition metadata_builder_requires
    (Requirement : string -> option requirement)
    (str_Requirement : requirement -> string)
    (metadata : Metadata) : result string :=
  records <- Requirements.generate_requirements Requirement str_Requirement
               (full_requires metadata) ;;
  Ok (String.concat "" (map write_record records)).

(** Lines 170-174: one group of requires.txt. *)
Definition requires_txt_group (item : string * list string) : string :=
  let (group, deps) := item in
  (if truthy group then String "010" "" ++ "[" ++ group ++ "]" ++ String "010" "" else "")
  ++ String.concat "" (map (fun dep => dep ++ String "010" "") deps).

(** [requires_txt_builder]: the content of requires.txt. *)
Definition requires_txt_builder (metadata : Metadata) : string :=
  String.concat "" (map requires_txt_group (Dict.sorted_items (full_requires metadata))).

(** Lines 182-188 of [entry_points_builder]. *)
Definition collect_entry_points (metadata : Metadata) : Dict.t ep_items :=
  let eps := Dict.empty in
  let eps :=
    match entry_points metadata with
    | Some given => Dict.update eps given
    | None => eps
    end in
  let eps :=
    match scripts metadata with
    | Some s => Dict.setitem "console_scripts" s eps
    | None => eps
    end in
  match gui_scripts metadata with
  | Some s => Dict.setitem "gui_scripts" s eps
  | None => eps
  end.

(** Lines 191-198: one section of entry_points.txt. *)
Definition entry_points_section (item : string * ep_items) : string :=
  let (group, items) := item in
  "[" ++ group ++ "]" ++ String "010" "" ++
  match items with
  | EPList lines => String.concat "" (map (fun item => item ++ String "010" "") lines)
  | EPTable table =>
      String.concat ""
        (map (fun kv => fst kv ++ " = " ++ snd kv ++ String "010" "") (Dict.sorted_items table))
  end.

(** [entry_points_builder]: the content of entry_points.txt. *)
Definition entry_points_builder (metadata : Metadata) : string :=
  String.concat ""
    (map entry_points_section (Dict.sorted_items (collect_entry_points metadata))).


(** The two metadata keys that stand for an entry-point group, each with
    the name of its group. *)
Definition script_keys : list ((Metadata -> option ep_items) * string) :=
  [(scripts, "console_scripts"); (gui_scripts, "gui_scripts")].

(** entry_points.txt has one section for [group], made of [items] alone. *)
Definition section_emitted (metadata : Metadata) (group : string) (items : ep_items) : Prop :=
  exists before after,
    Dict.sorted_items (collect_entry_points metadata)
    = (before ++ (group, items) :: after)%list
    /\ ~ In group (Dict.keys (before ++ after)%list)
    /\ entry_points_builder metadata
       = String.concat "" (map entry_points_section before)
         ++ entry_points_section (group, items)
         ++ String.concat "" (map entry_points_section after).

End Builders.

(* ================================================================== *)
(** * enscons/__init__.py: the wheel manifest *)
(* ================================================================== *)

(** A zip archive as [zipfile.ZipFile] shows it: the members in the order
    of the central directory, each with its name and bytes. *)
Definition ZipFile : Type := list (string * list byte).

Module Zip.

(** [archive.namelist()] *)
Definition namelist (archive : ZipFile) : list string := map fst archive.

(** [archive.read(name)]: [NameToInfo] is filled in directory order, so
    the last member of that name is the one read.  A member that is listed
    is taken to read back. *)
Definition read (archive : ZipFile) (name : string) : result (list byte) :=
  match find (fun m => String.eqb (fst m) name) (rev archive) with
  | Some m => Ok (snd m)
  | None => Raise (KeyError name)
  end.

(** [archive.writestr(ZipInfo(name, ...), data)] *)
Definition writestr (archive : ZipFile) (name : string) (data : list byte) : ZipFile :=
  (archive ++ [(name, data)])%list.

End Zip.

Module Base64.

(** The URL-safe alphabet of [base64.urlsafe_b64encode]. *)
Definition alphabet : string :=
  "ABCDEFGHIJKLMNOPQRSTUVWXYZabcdefghijklmnopqrstuvwxyz0123456789-_".

Definition digit (n : N) : ascii :=
  match String.get (N.to_nat (n mod 64)) alphabet with
  | Some c => c
  | None => "="%char
  end.

(** [base64.urlsafe_b64encode(data)], as text. *)
Fixpoint b64encode (data : list byte) : string :=
  match data with
  | [] => ""
  | [a] =>
      let n := (Byte.to_N a * 65536)%N in
      String (digit (n / 262144)) (String (digit (n / 4096)) "==")
  | [a; b] =>
      let n := (Byte.to_N a * 65536 + Byte.to_N b * 256)%N in
      String (digit (n / 262144)) (String (digit (n / 4096)) (String (digit (n / 64)) "="))
  | a :: b :: c :: rest =>
      let n := (Byte.to_N a * 65536 + Byte.to_N b * 256 + Byte.to_N c)%N in
      String (digit (n / 262144)) (String (digit (n / 4096))
        (String (digit (n / 64)) (String (digit n) (b64encode rest))))
  end.

End Base64.

Module Manifest.
Import PyStr.
Local Open Scope result_scope.

(** [urlsafe_b64encode(data)]: urlsafe_b64encode without padding. *)
Definition urlsafe_b64encode (data : list byte) : string :=
  rstrip_char "=" (Base64.b64encode data).

Section AddManifest.

(** [hashlib.sha256(data).digest()] *)
Variable sha256 : list byte -> list byte.

(** Lines 412-416: the line of one member. *)
Definition record_line (f : string) (data : list byte) : string :=
  let size := List.length data in
  let digest := sha256 data in
  let digest := "sha256=" ++ urlsafe_b64encode digest in
  replace_char "," ",," f ++ "," ++ digest ++ "," ++ str_of_nat size.

(** Lines 410-416: the loop over [archive.namelist()]. *)
Fixpoint content_lines (archive : ZipFile) (names : list string) : result (list string) :=
  match names with
  | [] => Ok []
  | f :: rest =>
      data <- Zip.read archive f ;;
      more <- content_lines archive rest ;;
      Ok (record_line f data :: more)
  end.

(** Lines 410-419: [lines] when the loop and the append are done. *)
Definition manifest_lines (archive : ZipFile) (record_path : string) : result (list string) :=
  lines <- content_lines archive (Zip.namelist archive) ;;
  Ok (lines ++ [(record_path ++ ",,")%string])%list.

(** [add_manifest]: the archive with RECORD appended.  [record_path] is
    [env["DIST_INFO_PATH"].get_path(dir=env["WHEEL_PATH"]) + "/RECORD"]. *)
Definition add_manifest (archive : ZipFile) (dist_info_path : string) : result ZipFile :=
  let record_path := dist_info_path ++ "/RECORD" in
  lines <- manifest_lines archive record_path ;;
  let RECORD := join (String "010" "") lines in
  Ok (Zip.writestr archive record_path (list_byte_of_string RECORD)).

End AddManifest.

End Manifest.

(* ================================================================== *)
(** * enscons/__init__.py: the compatibility tag *)
(* ================================================================== *)

(** The values [env["LIMITED_API_TARGET"]] can hold; the members of a
    list or a tuple are taken to be integers. *)
Inductive pyobj : Type :=
| PyInt (n : Z)
| PyStr (s : string)
| PyList (items : list Z)
| PyTuple (items : list Z).

(** A [packaging.tags.Tag]. *)
Record Tag : Type := mkTag {
  tag_interpreter : string;
  tag_abi : string;
  tag_platform : string
}.

(** What the interpreter and the platform answer to the probes of the tag
    code: [tags.sys_tags()], [get_platform(path)],
    [tags.interpreter_name()], [tags.interpreter_version()] and
    [str(get_abi_tag())]. *)
Record Host : Type := mkHost {
  sys_tags : list Tag;
  get_platform : string -> string;
  interpreter_name : string;
  interpreter_version : string;
  get_abi_tag : string
}.

(** The keys of the SCons environment that the tag code reads and writes;
    [None] is an absent key ([LIMITED_API_TARGET] absent or [None]).
    [WHEEL_PATH] and [PACKAGE_NAMEVER] are taken to be set. *)
Record Env : Type := mkEnv {
  _ENSCONS_DEFAULTS : bool;
  ROOT_IS_PURELIB : option bool;
  WHEEL_TAG : option string;
  LIMITED_API_TARGET : option pyobj;
  WHEEL_PATH : string;
  PACKAGE_NAMEVER : string
}.

Module PosixPath.
Import PyStr.

(** Index after the last ['/'] of [p] ([p.rfind('/') + 1]). *)
Fixpoint after_last_slash (p : string) : nat :=
  match p with
  | EmptyString => 0
  | String c p' =>
      if contains_char "/" p' then S (after_last_slash p')
      else if Ascii.eqb c "/" then 1 else 0
  end.

Fixpoint all_slashes (p : string) : bool :=
  match p with
  | EmptyString => true
  | String c p' => Ascii.eqb c "/" && all_slashes p'
  end.

(** [os.path.split(p)] *)
Definition split (p : string) : string * string :=
  let i := after_last_slash p in
  let head := substring 0 i p in
  let tail := substring i (String.length p - i) p in
  let head := if truthy head && negb (all_slashes head) then rstrip_char "/" head else head in
  (head, tail).

(** [os.path.join(a, b)] *)
Definition join (a b : string) : string :=
  if startswith b "/" then b
  else if negb (truthy a) || endswith a "/" then a ++ b
  else a ++ "/" ++ b.

End PosixPath.

Module Tags.
Import PyStr.
Local Open Scope result_scope.

(** [str(tag)] *)
Definition str_Tag (t : Tag) : string :=
  join "-" [tag_interpreter t; tag_abi t; tag_platform t].

(** [get_binary_tag()]: the first tag whose platform is not a manylinux
    one; [next] raises when there is none. *)
Definition get_binary_tag (h : Host) : result string :=
  match find (fun tag => negb (contains "manylinux" (tag_platform tag))) (sys_tags h) with
  | Some tag => Ok (str_Tag tag)
  | None => Raise (Exception "StopIteration")
  end.

(** The targets the design document calls unsupported: not a pair, or a
    major version other than 3, or a minor version below 2. *)
Definition unsupported_target (target : pyobj) : Prop :=
  match target with
  | PyTuple [major; minor] => major <> 3%Z \/ (minor < 2)%Z
  | _ => True
  end.

(** [get_universal_tag()] *)
Definition get_universal_tag : string := "py2.py3-none-any".

Definition set_WHEEL_TAG (env : Env) (tag : string) : Env :=
  {| _ENSCONS_DEFAULTS := _ENSCONS_DEFAULTS env;
     ROOT_IS_PURELIB := ROOT_IS_PURELIB env;
     WHEEL_TAG := Some tag;
     LIMITED_API_TARGET := LIMITED_API_TARGET env;
     WHEEL_PATH := WHEEL_PATH env;
     PACKAGE_NAMEVER := PACKAGE_NAMEVER env |}.

Definition set_ROOT_IS_PURELIB (env : Env) (b : bool) : Env :=
  {| _ENSCONS_DEFAULTS := _ENSCONS_DEFAULTS env;
     ROOT_IS_PURELIB := Some b;
     WHEEL_TAG := WHEEL_TAG env;
     LIMITED_API_TARGET := LIMITED_API_TARGET env;
     WHEEL_PATH := WHEEL_PATH env;
     PACKAGE_NAMEVER := PACKAGE_NAMEVER env |}.

Definition set_once (env : Env) : Env :=
  {| _ENSCONS_DEFAULTS := true;
     ROOT_IS_PURELIB := ROOT_IS_PURELIB env;
     WHEEL_TAG := WHEEL_TAG env;
     LIMITED_API_TARGET := LIMITED_API_TARGET env;
     WHEEL_PATH := WHEEL_PATH env;
     PACKAGE_NAMEVER := PACKAGE_NAMEVER env |}.

(** [env[key]] *)
Definition getitem {A : Type} (key : string) (v : option A) : result A :=
  match v with
  | Some a => Ok a
  | None => Raise (KeyError key)
  end.

(** Lines 438-447 of [get_tag]: the interpreter part for a limited-API
    target. *)
Definition abi3_impl (target : pyobj) : result string :=
  match target with
  | PyTuple [major; minor] =>
      if negb (major =? 3)%Z || (minor <? 2)%Z
      then Raise (Exception "cannot target abi below 3.2")
      else Ok ("cp" ++ join "" (map str_of_Z [major; minor]))
  | _ => Raise (Exception "target is not a 2-tuple")
  end.

(** [get_tag(env)]: the tag and the environment with [WHEEL_TAG] set. *)
Definition get_tag (h : Host) (env : Env) : result (string * Env) :=
  purelib <- getitem "ROOT_IS_PURELIB" (ROOT_IS_PURELIB env) ;;
  tag <-
    (if negb purelib then
       let plat := get_platform h (WHEEL_PATH env) in
       parts <-
         match LIMITED_API_TARGET env with
         | Some target =>
             impl <- abi3_impl target ;;
             Ok (impl, "abi3")
         | None =>
             let impl := interpreter_name h ++ interpreter_version h in
             Ok (impl, lower (get_abi_tag h))
         end ;;
       Ok (join "-" [fst parts; snd parts; plat])
     else Ok "py3-none-any") ;;
  Ok (tag, set_WHEEL_TAG env tag).

(** [correct_wheel_tags]: the rename it performs, as [(file, to_file)],
    and the environment [get_tag] leaves. *)
Definition correct_wheel_tags (h : Host) (source : string) (env : Env)
  : result (string * string * Env) :=
  let file := source in
  let (dir, name) := PosixPath.split file in
  r <- get_tag h env ;;
  let (tag, env) := r in
  let file_name := join "-" [PACKAGE_NAMEVER env; tag] ++ ".whl" in
  let to_file := PosixPath.join dir file_name in
  Ok (file, to_file, env).

(** Lines 710-723 of [enscons_defaults]: the defaults of the two tag
    keys.  The rest of the function sets directories and the package
    identity; it touches neither key, and can raise on its own. *)
Definition enscons_defaults (h : Host) (env : Env) : result Env :=
  if _ENSCONS_DEFAULTS env then Ok env
  else
    let env := set_once env in
    env <-
      match ROOT_IS_PURELIB env with
      | Some _ => Ok env
      | None =>
          tag <- getitem "WHEEL_TAG" (WHEEL_TAG env) ;;
          Ok (set_ROOT_IS_PURELIB env (endswith tag "none-any"))
      end ;;
    match WHEEL_TAG env with
    | Some _ => Ok env
    | None =>
        tag <- get_binary_tag h ;;
        Ok (set_WHEEL_TAG env tag)
    end.

(** [normalize_package(name)] *)
Definition normalize_package (name : string) : string :=
  Util.to_filename (Util.safe_name name).

(** Lines 518-522 of [init_wheel]: [PACKAGE_NAMEVER] and the first wheel
    file name. *)
Definition init_wheel_namever (name_safe version : string) : string :=
  join "-" [name_safe; version].

Definition init_wheel_filename (namever wheel_tag : string) : string :=
  join "-" [namever; wheel_tag] ++ ".whl".

End Tags.

(* ================================================================== *)
(** * SHA-256 (FIPS 180-4), to run [add_manifest] on concrete archives *)
(* ================================================================== *)

Module SHA256.
Local Open Scope Z_scope.

Definition w32 (x : Z) : Z := x mod 4294967296.

Definition rotr (n x : Z) : Z :=
  w32 (Z.lor (Z.shiftr x n) (Z.shiftl x (32 - n))).

Definition ch (x y z : Z) : Z := Z.lxor (Z.land x y) (Z.land (w32 (Z.lnot x)) z).
Definition maj (x y z : Z) : Z := Z.lxor (Z.lxor (Z.land x y) (Z.land x z)) (Z.land y z).
Definition bsig0 (x : Z) : Z := Z.lxor (Z.lxor (rotr 2 x) (rotr 13 x)) (rotr 22 x).
Definition bsig1 (x : Z) : Z := Z.lxor (Z.lxor (rotr 6 x) (rotr 11 x)) (rotr 25 x).
Definition ssig0 (x : Z) : Z := Z.lxor (Z.lxor (rotr 7 x) (rotr 18 x)) (Z.shiftr x 3).
Definition ssig1 (x : Z) : Z := Z.lxor (Z.lxor (rotr 17 x) (rotr 19 x)) (Z.shiftr x 10).

(** The first 64 primes. *)
Definition primes : list Z :=
  [2; 3; 5; 7; 11; 13; 17; 19; 23; 29; 31; 37; 41; 43; 47; 53;
   59; 61; 67; 71; 73; 79; 83; 89; 97; 101; 103; 107; 109; 113; 127; 131;
   137; 139; 149; 151; 157; 163; 167; 173; 179; 181; 191; 193; 197; 199; 211; 223;
   227; 229; 233; 239; 241; 251; 257; 263; 269; 271; 277; 281; 283; 293; 307; 311].

(** The integer cube root, one bit at a time from bit [n] down. *)
Fixpoint cbrt_bits (n : nat) (x r : Z) : Z :=
  match n with
  | O => r
  | S n' =>
      let r' := r + Z.shiftl 1 (Z.of_nat n') in
      cbrt_bits n' x (if r' * r' * r' <=? x then r' else r)
  end.

(** The round constants: the first 32 bits of the fractional parts of the
    cube roots of the primes. *)
Definition K : list Z :=
  map (fun p => w32 (cbrt_bits 40 (Z.shiftl p 96) 0)) primes.

(** The initial hash value: the first 32 bits of the fractional parts of
    the square roots of the first eight primes. *)
Definition H0 : list Z :=
  map (fun p => w32 (Z.sqrt (Z.shiftl p 64))) (firstn 8 primes).

(** The message followed by the bit 1, zeros, and its length in bits on
    eight bytes. *)
Definition pad (msg : list Z) : list Z :=
  let len := Z.of_nat (List.length msg) in
  let zeros := Z.to_nat ((55 - len) mod 64) in
  let bits := 8 * len in
  (msg ++ [128] ++ repeat 0 zeros
     ++ map (fun i => Z.shiftr bits (8 * (7 - Z.of_nat i)) mod 256) (seq 0 8))%list.

(** Big-endian words of a block. *)
Fixpoint words (n : nat) (bytes : list Z) : list Z :=
  match n, bytes with
  | S n', a :: b :: c :: d :: rest =>
      (a * 16777216 + b * 65536 + c * 256 + d) :: words n' rest
  | _, _ => []
  end.

(** The message schedule, most recent word first. *)
Fixpoint schedule (n : nat) (ws : list Z) : list Z :=
  match n with
  | O => ws
  | S n' =>
      let w := w32 (ssig1 (nth 1 ws 0) + nth 6 ws 0 + ssig0 (nth 14 ws 0) + nth 15 ws 0) in
      schedule n' (w :: ws)
  end.

Definition round (st : list Z) (kw : Z * Z) : list Z :=
  match st with
  | [a; b; c; d; e; f; g; h] =>
      let t1 := h + bsig1 e + ch e f g + fst kw + snd kw in
      let t2 := bsig0 a + maj a b c in
      [w32 (t1 + t2); a; b; c; w32 (d + t1); e; f; g]
  | _ => st
  end.

Definition compress (hs : list Z) (block : list Z) : list Z :=
  let ws := rev (schedule 48 (rev (words 16 block))) in
  let st := fold_left round (combine K ws) hs in
  map (fun p => w32 (fst p + snd p)) (combine hs st).

Fixpoint blocks (n : nat) (hs : list Z) (bytes : list Z) : list Z :=
  match n with
  | O => hs
  | S n' => blocks n' (compress hs (firstn 64 bytes)) (skipn 64 bytes)
  end.

Definition word_bytes (w : Z) : list Z :=
  [Z.shiftr w 24 mod 256; Z.shiftr w 16 mod 256; Z.shiftr w 8 mod 256; w mod 256].

Definition byte_of_Z (z : Z) : byte :=
  match Byte.of_N (Z.to_N z) with
  | Some b => b
  | None => Byte.x00
  end.

(** [hashlib.sha256(data).digest()] *)
Definition sha256 (data : list byte) : list byte :=
  let padded := pad (map (fun b => Z.of_N (Byte.to_N b)) data) in
  let hs := blocks (List.length padded / 64) H0 padded in
  map byte_of_Z (flat_map word_bytes hs).

End SHA256.

(* ================================================================== *)
(** * A concrete [packaging] for examples *)
(* ================================================================== *)

Module Packaging.
Import PyStr.

(** The requirement [Requirement(name)] gives for a bare project name. *)
Definition bare (name : string) : requirement :=
  mkRequirement name [] "" None None.

(** A parser given by the table of its answers; any other text is
    refused. *)
Definition Requirement_of (answers : list (string * requirement)) (text : string)
  : option requirement :=
  Dict.get text answers.

(** [Requirement.__str__]: name, extras, specifier, url, marker. *)
Definition str_Requirement (r : requirement) : string :=
  req_name r
  ++ match req_extras r with
     | [] => ""
     | extras => "[" ++ join "," extras ++ "]"
     end
  ++ req_specifier r
  ++ match req_url r with
     | Some url => " @ " ++ url ++ match req_marker r with Some _ => " " | None => "" end
     | None => ""
     end
  ++ match req_marker r with
     | Some marker => "; " ++ marker
     | None => ""
     end.

(** A double quote, which is how the library quotes marker values. *)
Definition dq : string := String "034" "".

(** A requirement that comes with a marker of its own. *)
Definition pywin32 : requirement :=
  mkRequirement "pywin32" [] "" None (Some ("os_name == " ++ dq ++ "nt" ++ dq)).

Definition windows : string -> option requirement :=
  Requirement_of [("pywin32; os_name == 'nt'", pywin32); ("colorama", bare "colorama")].

(** The two requirements of the sample project. *)
Definition sample : string -> option requirement :=
  Requirement_of [("six", bare "six"); ("pytest", bare "pytest")].

End Packaging.

(* ================================================================== *)
(** * Character classes of the normalised names *)
(* ================================================================== *)

Module Charset.
Import PyStr.

(** Every character of [s] satisfies [p]. *)
Fixpoint all_chars (p : ascii -> bool) (s : string) : bool :=
  match s with
  | EmptyString => true
  | String c s' => p c && all_chars p s'
  end.

(** Letters, digits, '.', and '-': what a distribution name is made of. *)
Definition dist_name_char (c : ascii) : bool :=
  Util.name_char c || Ascii.eqb c "-".

(** Letters, digits, '.', and '_': what a file-name component is made of. *)
Definition file_name_char (c : ascii) : bool :=
  Util.name_char c || Ascii.eqb c "_".

(** Lower-case letters, digits, '.', '-' and '_': what an extra is made
    of. *)
Definition extra_name_char (c : ascii) : bool :=
  is_lower c || is_digit c || Ascii.eqb c "." || Ascii.eqb c "-" || Ascii.eqb c "_".

End Charset.

(* ================================================================== *)
(** * The requirements of a mapping, in the order they are visited *)
(* ================================================================== *)

Module Visit.
Import PyStr.

(** Every requirement string of the mapping, group after group. *)
Definition requirements (extras_require : Dict.t (list string)) : list string :=
  concat (map snd extras_require).

(** Every requirement string with the condition its group gives it. *)
Definition conditioned (extras_require : Dict.t (list string)) : list (string * string) :=
  flat_map
    (fun kv => map (fun d => (snd (Requirements.extra_and_condition (fst kv)), d)) (snd kv))
    extras_require.

(** [Requirement(text)] raises. *)
Definition invalid (Requirement : string -> option requirement) (text : string) : bool :=
  match Requirement text with
  | Some _ => false
  | None => true
  end.

(** The [Requires-Dist] records among the yielded ones. *)
Definition requires_dist_records (records : list record) : list record :=
  filter (fun r => String.eqb (fst r) "Requires-Dist") records.

End Visit.

(* ================================================================== *)
(** * The layout of requires.txt *)
(* ================================================================== *)

Module Layout.

(** The order of [sorted] on items: by key. *)
Definition key_le {V : Type} (x y : string * V) : Prop :=
  String.leb (fst x) (fst y) = true.

(** The lines of the requirements of one group (lines 173-174 of
    [requires_txt_builder]). *)
Definition requirement_lines (deps : list string) : string :=
  String.concat "" (map (fun dep => dep ++ String "010" "") deps).

(** The section of a named group (lines 171-174): an empty line, the name
    in brackets, the requirements. *)
Definition named_section (item : string * list string) : string :=
  String "010" "" ++ "[" ++ fst item ++ "]" ++ String "010" ""
  ++ requirement_lines (snd item).

(** The unbracketed lines at the head of the file: those of the group of
    the empty name, when there is one. *)
Definition base_lines (full : Dict.t (list string)) : string :=
  match Dict.get "" full with
  | Some deps => requirement_lines deps
  | None => ""
  end.

End Layout.

(* ================================================================== *)
(** * enscons/__init__.py: the editable stubs *)
(* ================================================================== *)

Module Editable.

(** [add_editable]: the archive with the stub modules appended.
    [project_files] is what [project.files()] of the [editables] library
    yields for the project: the name and the text of each stub. *)
Definition add_editable (project_files : list (string * list byte)) (archive : ZipFile)
  : ZipFile :=
  fold_left (fun archive file => Zip.writestr archive (fst file) (snd file))
    project_files archive.

End Editable.

(* ================================================================== *)
(** * The alphabet of the hash column *)
(* ================================================================== *)

Module B64.
Import PyStr.

(** Letters, digits, '-' and '_': the URL-safe base64 alphabet. *)
Definition b64_char (c : ascii) : bool :=
  is_upper c || is_lower c || is_digit c || Ascii.eqb c "-" || Ascii.eqb c "_".

(** The place of a character in the alphabet (64 when it has none). *)
Definition value (c : ascii) : N :=
  match String.index 0 (String c "") Base64.alphabet with
  | Some k => N.of_nat k
  | None => 64
  end.

(** The 24 bits of three bytes. *)
Definition group24 (a b c : byte) : N :=
  (Byte.to_N a * 65536 + Byte.to_N b * 256 + Byte.to_N c)%N.

End B64.

(* ================================================================== *)
(** * enscons/__init__.py: the WHEEL file and the abi3 tag *)
(* ================================================================== *)

Module Wheel.
Import PyStr.
Local Open Scope result_scope.

(** The tags of the interpreter that can be used: not for manylinux. *)
Definition usable (tag : Tag) : bool :=
  negb (contains "manylinux" (tag_platform tag)).

(** [get_abi3_tag()]: the first abi3 tag, or the first binary tag if abi3
    is not supported. *)
Definition get_abi3_tag (h : Host) : result string :=
  match find (fun tag => contains "abi3" (tag_abi tag) && usable tag) (sys_tags h) with
  | Some tag => Ok (Tags.str_Tag tag)
  | None => Tags.get_binary_tag h
  end.

(** [str(b).lower()] for a [bool]. *)
Definition str_lower_bool (b : bool) : string :=
  if b then "true" else "false".

(** [wheelmeta_builder]: the text of the WHEEL file, and the environment
    [get_tag] leaves. *)
Definition wheelmeta_builder (h : Host) (env : Env) : result (string * Env) :=
  purelib <- Tags.getitem "ROOT_IS_PURELIB" (ROOT_IS_PURELIB env) ;;
  r <- Tags.get_tag h env ;;
  let (tag, env) := r in
  Ok ("Wheel-Version: 1.0" ++ String "010" ""
      ++ "Generator: enscons (0.0.1)" ++ String "010" ""
      ++ "Root-Is-Purelib: " ++ str_lower_bool purelib ++ String "010" ""
      ++ "Tag: " ++ tag ++ String "010" "",
      env).

(** [env] is raised by nothing but an unsupported limited-API target or a
    missing [ROOT_IS_PURELIB]. *)
Definition get_tag_fails (env : Env) : Prop :=
  ROOT_IS_PURELIB env = None
  \/ (ROOT_IS_PURELIB env = Some false
      /\ exists target, LIMITED_API_TARGET env = Some target
                        /\ Tags.unsupported_target target).

End Wheel.

(* ================================================================== *)
(** * enscons/__init__.py: the METADATA file *)
(* ================================================================== *)

(** A contact of "authors" or "maintainers": a table with an optional
    "name" and an optional "email". *)
Record contact : Type := mkContact {
  contact_name : option string;
  contact_email : option string
}.

(** The value of "license": a string, or a table with "text" or "file". *)
Inductive license_value : Type :=
| LicenseStr (text : string)
| LicenseTable (text file : option string).

(** The value of "readme": a file name, or a table with "file" or "text"
    and optionally "content-type" and "encoding". *)
Inductive readme_value : Type :=
| ReadmeStr (filename : string)
| ReadmeTable (file text content_type encoding : option string).

(** The value of "keywords": a string or a list of strings. *)
Inductive keywords_value : Type :=
| KeywordsStr (s : string)
| KeywordsList (l : list string).

(** The keys of [env["PACKAGE_METADATA"]] that [metadata_builder] reads;
    [None] is an absent key.  [md_requires] holds the keys of the
    dependencies. *)
Record Project : Type := mkProject {
  md_name : option string;
  md_version : option string;
  md_description : option string;
  md_requires_python : option string;
  md_license : option license_value;
  md_authors : option (list contact);
  md_author : option string;
  md_author_email : option string;
  md_maintainers : option (list contact);
  md_keywords : option keywords_value;
  md_classifiers : option (list string);
  md_url : option string;
  md_urls : option (Dict.t string);
  md_platform : option string;
  md_requires : Metadata;
  md_readme : option readme_value;
  md_description_file : option string
}.

Module Meta.
Import PyStr.
Local Open Scope result_scope.

(** The line boundaries of [str.splitlines] among the 8-bit characters:
    LF, VT, FF, CR, FS, GS, RS and NEL. *)
Definition is_break (c : ascii) : bool :=
  existsb (Nat.eqb (nat_of_ascii c)) [10; 11; 12; 13; 28; 29; 30; 133]%nat.

(** [s.splitlines()], [line] being the part of the current line already
    read.  CR LF is one boundary; a boundary at the very end opens no
    line. *)
Fixpoint splitlines_from (line s : string) : list string :=
  match s with
  | EmptyString => if truthy line then [line] else []
  | String c s' =>
      if is_break c then
        line ::
        match s' with
        | String c' s'' =>
            if Ascii.eqb c "013" && Ascii.eqb c' "010"
            then splitlines_from "" s''
            else splitlines_from "" s'
        | EmptyString => []
        end
      else splitlines_from (line ++ String c "") s'
  end.

Definition splitlines (s : string) : list string := splitlines_from "" s.

(** [value.splitlines() or [""]] *)
Definition header_lines (value : string) : list string :=
  match splitlines value with
  | [] => [""]
  | lines => lines
  end.

(** [_write_header(f, name, value)]: what it writes. *)
Definition _write_header (name value : string) : string :=
  let lines := header_lines value in
  name ++ ": " ++ hd "" lines ++ String "010" ""
  ++ String.concat "" (map (fun line => "  " ++ line ++ String "010" "") (tl lines)).

(** A list of computations run in order, up to the first that raises. *)
Fixpoint sequence {A : Type} (l : list (result A)) : result (list A) :=
  match l with
  | [] => Ok []
  | m :: rest =>
      a <- m ;;
      more <- sequence rest ;;
      Ok (a :: more)
  end.

(** Lines 239-243: the text of one contact of several. *)
Definition contact_text (c : contact) : result string :=
  match contact_name c with
  | None => Tags.getitem "email" (contact_email c)
  | Some name =>
      match contact_email c with
      | None => Ok name
      | Some email => Ok (name ++ " <" ++ email ++ ">")
      end
  end.

Definition has_email (c : contact) : bool :=
  match contact_email c with Some _ => true | None => false end.

(** [_write_contacts(f, header_name, header_email, contacts)]: what it
    writes. *)
Definition _write_contacts (header_name header_email : string) (contacts : list contact)
  : result string :=
  match contacts with
  | [c] =>
      Ok ((match contact_name c with
           | Some name => _write_header header_name name
           | None => ""
           end)
          ++ (match contact_email c with
              | Some email => _write_header header_email email
              | None => ""
              end))
  | _ =>
      texts <- sequence (map contact_text contacts) ;;
      let value := join ", " texts in
      let emails := existsb has_email contacts in
      Ok (_write_header (if emails then header_email else header_name) value)
  end.

(** Lines 255-258 of [metadata_source]: the license file, when the license
    is a table without "text". *)
Definition license_source (license : option license_value) : result (list string) :=
  match license with
  | Some (LicenseTable None file) =>
      f <- Tags.getitem "file" file ;;
      Ok [f]
  | _ => Ok []
  end.

(** Lines 259-266 of [metadata_source]: the readme file, or else the
    description file. *)
Definition readme_source (metadata : Project) : list string :=
  match md_readme metadata with
  | Some (ReadmeStr filename) => [filename]
  | Some (ReadmeTable (Some filename) _ _ _) => [filename]
  | Some (ReadmeTable None _ _ _) => []
  | None =>
      match md_description_file metadata with
      | Some filename => [filename]
      | None => []
      end
  end.

(** Lines 252-266 of [metadata_source]: the list [source]. *)
Definition metadata_source_names (metadata : Project) : result (list string) :=
  license <- license_source (md_license metadata) ;;
  Ok ("pyproject.toml" :: license ++ readme_source metadata)%list.

(** [metadata_source(env)], [pyproject_dir] being [get_pyproject_dir(env)]. *)
Definition metadata_source (pyproject_dir : string) (metadata : Project)
  : result (list string) :=
  source <- metadata_source_names metadata ;;
  Ok (map (PosixPath.join pyproject_dir) source).

(** Lines 349-358: the content type a file name stands for. *)
Definition infer_content_type (filename : string) : option string :=
  let lowername := lower filename in
  if endswith lowername ".rst" then Some "text/x-rst"
  else if endswith lowername ".md" then Some "text/markdown"
  else if endswith lowername ".txt" then Some "text/plain"
  else None.

(** An optional header. *)
Definition optional_header (name : string) (value : option string) : string :=
  match value with
  | Some v => _write_header name v
  | None => ""
  end.

Section Builder.

(** [packaging], and the files: [read filename encoding] is the text
    [codecs.open(filename, mode="r", encoding=encoding).read()] returns,
    [None] when the file cannot be read. *)
Variable Requirement : string -> option requirement.
Variable str_Requirement : requirement -> string.
Variable read : string -> string -> option string.

(** [_read_file(filename, encoding)] *)
Definition _read_file (filename encoding : string) : result string :=
  match read filename encoding with
  | Some text => Ok text
  | None => Raise (Exception filename)
  end.

(** Lines 283-292: the License header. *)
Definition license_header (license : option license_value) : result string :=
  match license with
  | None => Ok ""
  | Some (LicenseStr text) => Ok (_write_header "License" text)
  | Some (LicenseTable (Some text) _) => Ok (_write_header "License" text)
  | Some (LicenseTable None file) =>
      filename <- Tags.getitem "file" file ;;
      text <- _read_file filename "utf-8" ;;
      Ok (_write_header "License" text)
  end.

(** Lines 293-300: the authors, or else the keys "author" and
    "author_email". *)
Definition author_headers (metadata : Project) : result string :=
  match md_authors metadata with
  | Some contacts => _write_contacts "Author" "Author-email" contacts
  | None =>
      Ok (optional_header "Author" (md_author metadata)
          ++ optional_header "Author-email" (md_author_email metadata))
  end.

(** Lines 301-304. *)
Definition maintainer_headers (metadata : Project) : result string :=
  match md_maintainers metadata with
  | Some contacts => _write_contacts "Maintainer" "Maintainer-email" contacts
  | None => Ok ""
  end.

(** Lines 305-312. *)
Definition keywords_header (keywords : option keywords_value) : string :=
  match keywords with
  | None => ""
  | Some (KeywordsStr s) => _write_header "Keywords" s
  | Some (KeywordsList l) => _write_header "Keywords" (join "," l)
  end.

(** Lines 313-314. *)
Definition classifier_headers (classifiers : option (list string)) : string :=
  String.concat ""
    (map (_write_header "Classifier") (match classifiers with Some l => l | None => [] end)).

(** Lines 318-319. *)
Definition url_headers (urls : option (Dict.t string)) : string :=
  String.concat ""
    (map (fun item => _write_header "Project-URL" (fst item ++ ", " ++ snd item))
       (Builders.get_or_empty urls)).

(** Lines 348-362: the content type header, the empty lines and the
    text. *)
Definition description (filename contenttype : option string) (content : string) : string :=
  let contenttype :=
    match contenttype, filename with
    | None, Some name => if truthy name then infer_content_type name else None
    | _, _ => contenttype
    end in
  (match contenttype with
   | Some t => if truthy t then _write_header "Description-Content-Type" t else ""
   | None => ""
   end)
  ++ String "010" "" ++ String "010" "" ++ content.

(** Lines 333-366: the long description. *)
Definition description_part (metadata : Project) : result string :=
  match md_readme metadata with
  | Some (ReadmeStr filename) =>
      content <- _read_file filename "utf-8" ;;
      Ok (description (Some filename) None content)
  | Some (ReadmeTable (Some filename) _ contenttype encoding) =>
      content <- _read_file filename
                   (match encoding with Some e => e | None => "utf-8" end) ;;
      Ok (description (Some filename) contenttype content)
  | Some (ReadmeTable None text contenttype _) =>
      content <- Tags.getitem "text" text ;;
      Ok (description None contenttype content)
  | None =>
      match md_description_file metadata with
      | Some filename =>
          content <- _read_file filename "utf-8" ;;
          Ok (String "010" "" ++ String "010" "" ++ content)
      | None => Ok ""
      end
  end.

(** [metadata_builder]: the text of METADATA, written piece after piece
    up to the first piece that raises. *)
Definition metadata_builder (metadata : Project) : result string :=
  pieces <-
    sequence
      [ Ok ("Metadata-Version: 2.1" ++ String "010" "");
        (name <- Tags.getitem "name" (md_name metadata) ;;
         Ok ("Name: " ++ name ++ String "010" ""));
        (version <- Tags.getitem "version" (md_version metadata) ;;
         Ok ("Version: " ++ version ++ String "010" ""));
        Ok (optional_header "Summary" (md_description metadata));
        Ok (optional_header "Requires-Python" (md_requires_python metadata));
        license_header (md_license metadata);
        author_headers metadata;
        maintainer_headers metadata;
        Ok (keywords_header (md_keywords metadata));
        Ok (classifier_headers (md_classifiers metadata));
        Ok (optional_header "Home-Page" (md_url metadata));
        Ok (url_headers (md_urls metadata));
        Ok (optional_header "Platform" (md_platform metadata));
        Builders.metadata_builder_requires Requirement str_Requirement
          (md_requires metadata);
        description_part metadata ] ;;
  Ok (String.concat "" pieces).

End Builder.

(** The metadata without the keys "author" and "author_email". *)
Definition without_legacy_author (metadata : Project) : Project :=
  mkProject (md_name metadata) (md_version metadata) (md_description metadata)
    (md_requires_python metadata) (md_license metadata) (md_authors metadata)
    None None
    (md_maintainers metadata) (md_keywords metadata) (md_classifiers metadata)
    (md_url metadata) (md_urls metadata) (md_platform metadata) (md_requires metadata)
    (md_readme metadata) (md_description_file metadata).

(** The metadata without the key "description_file". *)
Definition without_description_file (metadata : Project) : Project :=
  mkProject (md_name metadata) (md_version metadata) (md_description metadata)
    (md_requires_python metadata) (md_license metadata) (md_authors metadata)
    (md_author metadata) (md_author_email metadata)
    (md_maintainers metadata) (md_keywords metadata) (md_classifiers metadata)
    (md_url metadata) (md_urls metadata) (md_platform metadata) (md_requires metadata)
    (md_readme metadata) None.

(** A contact with neither a name nor an email. *)
Definition anonymous (c : contact) : bool :=
  match contact_name c, contact_email c with
  | None, None => true
  | _, _ => false
  end.

(** A project with a name and a version and nothing else. *)
Definition minimal (name version : string) : Project :=
  mkProject (Some name) (Some version) None None None None None None None None None None
    None None (mkMetadata None None None None None None None) None None.

End Meta.

(* ================================================================== *)
(** * Lines without line boundaries *)
(* ================================================================== *)

Module Lines.

(** No character of [s] is a line boundary. *)
Definition one_line (s : string) : bool :=
  Charset.all_chars (fun c => negb (Meta.is_break c)) s.

End Lines.

(* ================================================================== *)
(** * enscons/util.py: the legacy version specifier *)
(* ================================================================== *)

(** A requirement object of the older library: the attribute [url], when
    it has one, and [specs], the pairs of an operator and a version. *)
Record legacy_requirement : Type := mkLegacy {
  legacy_url : option string;
  legacy_specs : list (string * string)
}.

Module Legacy.
Import PyStr.

(** [sorted(l)] for a list of [str]. *)
Fixpoint insert_string (x : string) (l : list string) : list string :=
  match l with
  | [] => [x]
  | y :: l' => if String.leb x y then x :: l else y :: insert_string x l'
  end.

Definition sorted_strings (l : list string) : list string :=
  fold_right insert_string [] l.

(** [getattr(requirement, "url", None)] taken as a condition. *)
Definition url_given (requirement : legacy_requirement) : option string :=
  match legacy_url requirement with
  | Some url => if truthy url then Some url else None
  | None => None
  end.

(** [requires_to_requires_dist(requirement)] *)
Definition requires_to_requires_dist (requirement : legacy_requirement) : string :=
  match url_given requirement with
  | Some url => " @ " ++ url
  | None =>
      let requires_dist := map (fun spec => fst spec ++ snd spec) (legacy_specs requirement) in
      match requires_dist with
      | [] => ""
      | _ => " (" ++ join "," (sorted_strings requires_dist) ++ ")"
      end
  end.

End Legacy.

(* ================================================================== *)
(** * enscons/__init__.py: the names [init_wheel] makes *)
(* ================================================================== *)

Module InitWheel.
Import PyStr.

(** Lines 547-549: the file name of the editable wheel. *)
Definition editable_filename (namever wheel_tag : string) : string :=
  join "-" [namever; "ed." ++ wheel_tag] ++ ".whl".

(** Line 527: [DIST_INFO_NAME]. *)
Definition DIST_INFO_NAME (namever : string) : string := namever ++ ".dist-info".

(** Lines 529-531: the name of the directory [DIST_INFO_PATH]. *)
Definition dist_info_dir (name_safe version : string) : string :=
  name_safe ++ "-" ++ version ++ ".dist-info".

(** Lines 532-534: the name of the directory [WHEEL_DATA_PATH]. *)
Definition data_dir (name_safe version : string) : string :=
  name_safe ++ "-" ++ version ++ ".data".

End InitWheel.

(* ================================================================== *)
(** * Examples *)
(* ================================================================== *)

Example safe_name_ex : Util.safe_name "Foo_Bar  baz" = "Foo-Bar-baz".
Proof. reflexivity. Qed.

Example safe_extra_ex : Util.safe_extra "Test Me!!x" = "test_me_x".
Proof. reflexivity. Qed.

Example normalize_package_ex : Tags.normalize_package "Foo_Bar" = "Foo_Bar".
Proof. reflexivity. Qed.

Example wheel_filename_ex :
  Tags.init_wheel_filename
    (Tags.init_wheel_namever (Tags.normalize_package "Foo_Bar") "1.0") "py3-none-any"
  = "Foo_Bar-1.0-py3-none-any.whl".
Proof. reflexivity. Qed.

Example endswith_ex : PyStr.endswith "py2.py3-none-any" "none-any" = true.
Proof. reflexivity. Qed.

Example str_of_Z_ex : PyStr.str_of_Z 310 = "310" /\ PyStr.str_of_nat 0 = "0".
Proof. split; reflexivity. Qed.

Example rstrip_ex : PyStr.rstrip_char "=" "ab=c==" = "ab=c".
Proof. reflexivity. Qed.

Example split_key_ex :
  Requirements.split_key "test:python_version<'3':x" = ("test", "python_version<'3':x").
Proof. reflexivity. Qed.

Example posix_split_ex :
  PosixPath.split "dist/sample-0.1.whl" = ("dist", "sample-0.1.whl")
  /\ PosixPath.split "sample-0.1.whl" = ("", "sample-0.1.whl")
  /\ PosixPath.split "/x.whl" = ("/", "x.whl").
Proof. repeat split; reflexivity. Qed.

Example requires_txt_ex :
  Builders.requires_txt_builder
    (mkMetadata None (Some [("test", ["pytest"])]) None (Some ["six"]) None None None)
  = "six" ++ String "010" "" ++ String "010" "" ++ "[test]" ++ String "010" ""
    ++ "pytest" ++ String "010" "".
Proof. reflexivity. Qed.

Example entry_points_ex :
  Builders.entry_points_builder
    (mkMetadata None None None None None (Some (EPTable [("mytool", "pkg.mod:main")])) None)
  = "[console_scripts]" ++ String "010" "" ++ "mytool = pkg.mod:main" ++ String "010" "".
Proof. reflexivity. Qed.

Example metadata_requires_ex :
  Builders.metadata_builder_requires Packaging.sample Packaging.str_Requirement
    (mkMetadata None (Some [("test", ["pytest"])]) None (Some ["six"]) None None None)
  = Ok ("Provides-Extra: test" ++ String "010" ""
        ++ "Requires-Dist: pytest; extra == 'test'" ++ String "010" ""
        ++ "Requires-Dist: six" ++ String "010" "").
Proof. reflexivity. Qed.

(** With neither key preset the default of [ROOT_IS_PURELIB] has no tag to
    look at. *)
Example enscons_defaults_no_tag :
  Tags.enscons_defaults (mkHost [] (fun _ => "linux_x86_64") "cp" "311" "cp311")
    (mkEnv false None None None "build/wheel" "sample-0.1")
  = Raise (KeyError "WHEEL_TAG").
Proof. reflexivity. Qed.

(** The hash column of RECORD for an empty file. *)
Example sha256_empty :
  Manifest.urlsafe_b64encode (SHA256.sha256 []) = "47DEQpj8HBSa-_TImW-5JCeuQeRkm5NMpJWZG3hSuFU".
Proof. vm_compute. reflexivity. Qed.

(** The FIPS 180-4 test vector for "abc", in base64. *)
Example sha256_abc :
  Base64.b64encode (SHA256.sha256 (list_byte_of_string "abc"))
  = "ungWv48Bz-pBQUDeXa4iI7ADYaOWF3qctBD_YfIAFa0=".
Proof. vm_compute. reflexivity. Qed.

(* ================================================================== *)
(** * The identifier normaliser *)
(* ================================================================== *)

Section SubRuns.
Import PyStr.

Variable ok : ascii -> bool.
Variable rep : ascii.
Variable f : ascii -> ascii.

Hypothesis ok_rep : ok rep = false.
Hypothesis f_rep : f rep = rep.
Hypothesis f_ok : forall c, ok c = true -> ok (f c) = true.

(** A substituted string, mapped through a function that keeps the class
    and the replacement character, has only runs of length one left:
    substituting again changes nothing. *)
Lemma sub_runs_fixed (s : string) :
  (forall b, sub_runs ok rep false (map_chars f (sub_runs ok rep b s))
             = map_chars f (sub_runs ok rep b s))
  /\ sub_runs ok rep true (map_chars f (sub_runs ok rep true s))
     = map_chars f (sub_runs ok rep true s).
Proof.
  induction s as [|c s [IHany IHrun]]; simpl; [split; auto|].
  destruct (ok c) eqn:Hc; simpl.
  - rewrite (f_ok c Hc). split; [intros b|]; now rewrite (IHany false).
  - split; [|exact IHrun].
    intros []; [apply IHany|].
    simpl. rewrite f_rep, ok_rep. now rewrite IHrun.
Qed.

Lemma re_sub_fixed (s : string) :
  re_sub_not_in ok rep (map_chars f (re_sub_not_in ok rep s))
  = map_chars f (re_sub_not_in ok rep s).
Proof. unfold re_sub_not_in. apply sub_runs_fixed. Qed.

End SubRuns.

Lemma map_chars_id (s : string) : PyStr.map_chars (fun c => c) s = s.
Proof. induction s; simpl; congruence. Qed.

Lemma lower_char_idem (c : ascii) : PyStr.lower_char (PyStr.lower_char c) = PyStr.lower_char c.
Proof. destruct c as [[] [] [] [] [] [] [] []]; reflexivity. Qed.

Lemma lower_idem (s : string) : PyStr.lower (PyStr.lower s) = PyStr.lower s.
Proof.
  unfold PyStr.lower. induction s as [|c s IH]; simpl; [reflexivity|].
  now rewrite lower_char_idem, IH.
Qed.

Lemma extra_char_lower (c : ascii) :
  Util.extra_char c = true -> Util.extra_char (PyStr.lower_char c) = true.
Proof. destruct c as [[] [] [] [] [] [] [] []]; intros H; solve [reflexivity | discriminate H]. Qed.

Lemma append_assoc (a b c : string) : (a ++ b) ++ c = a ++ (b ++ c).
Proof. induction a as [|x a IH]; simpl; congruence. Qed.

Lemma append_empty_r (a : string) : a ++ "" = a.
Proof. induction a as [|x a IH]; simpl; congruence. Qed.

Lemma replace_char_app (old : ascii) (new a b : string) :
  PyStr.replace_char old new (a ++ b)
  = PyStr.replace_char old new a ++ PyStr.replace_char old new b.
Proof.
  induction a as [|c a IH]; simpl; [reflexivity|].
  now rewrite IH, append_assoc.
Qed.

Lemma safe_name_idempotent (name : string) :
  Util.safe_name (Util.safe_name name) = Util.safe_name name.
Proof.
  unfold Util.safe_name.
  pose proof (re_sub_fixed Util.name_char "-" (fun c => c) eq_refl eq_refl (fun c H => H) name) as H.
  now rewrite !map_chars_id in H.
Qed.

Lemma safe_extra_idempotent (extra : string) :
  Util.safe_extra (Util.safe_extra extra) = Util.safe_extra extra.
Proof.
  unfold Util.safe_extra, PyStr.lower.
  rewrite (re_sub_fixed Util.extra_char "_" PyStr.lower_char eq_refl eq_refl extra_char_lower).
  apply lower_idem.
Qed.

Lemma to_filename_idempotent (name : string) :
  Util.to_filename (Util.to_filename name) = Util.to_filename name.
Proof.
  unfold Util.to_filename. induction name as [|c name IH]; simpl; [reflexivity|].
  rewrite replace_char_app, IH. f_equal.
  destruct (Ascii.eqb c "-") eqn:E; simpl; [reflexivity|now rewrite E].
Qed.

(** C8. [safe_name], [to_filename] and [safe_extra] are idempotent:
    applying one of them twice to any string gives what applying it once
    gives.  Each is a function of its argument alone, defined on every
    string. *)
Theorem normalizers_idempotent (s : string) :
  Util.safe_name (Util.safe_name s) = Util.safe_name s
  /\ Util.to_filename (Util.to_filename s) = Util.to_filename s
  /\ Util.safe_extra (Util.safe_extra s) = Util.safe_extra s.
Proof.
  split; [apply safe_name_idempotent|].
  split; [apply to_filename_idempotent | apply safe_extra_idempotent].
Qed.

(* ================================================================== *)
(** * Dicts *)
(* ================================================================== *)

Section DictFacts.

Context {V : Type}.
Implicit Types (d o : Dict.t V) (k : string) (v : V).


Lemma get_In k v d : Dict.get k d = Some v -> In (k, v) d.
Proof.
  induction d as [|[k' v'] d IH]; simpl; [discriminate|].
  destruct (String.eqb_spec k k') as [-> | _].
  - intros H. inversion H. now left.
  - intros H. right. now apply IH.
Qed.

Lemma get_setitem_same k v d : Dict.get k (Dict.setitem k v d) = Some v.
Proof.
  induction d as [|[k' v'] d IH]; simpl.
  - now rewrite String.eqb_refl.
  - destruct (String.eqb k k') eqn:E; simpl; rewrite E; [reflexivity | exact IH].
Qed.

Lemma get_setitem_other k k' v d :
  k <> k' -> Dict.get k (Dict.setitem k' v d) = Dict.get k d.
Proof.
  intros Hne. induction d as [|[k'' v''] d IH]; simpl.
  - now destruct (String.eqb_spec k k').
  - destruct (String.eqb_spec k' k'') as [<- | _]; simpl.
    + now destruct (String.eqb_spec k k').
    + now rewrite IH.
Qed.

Lemma keys_setitem k v d :
  Dict.keys (Dict.setitem k v d)
  = if Dict.mem k d then Dict.keys d else (Dict.keys d ++ [k])%list.
Proof.
  unfold Dict.mem. induction d as [|[k' w] d IH]; simpl; [reflexivity|].
  destruct (String.eqb k k') eqn:E; simpl; [reflexivity|].
  rewrite IH. now destruct (Dict.get k d).
Qed.

Lemma mem_In k d : Dict.mem k d = false -> ~ In k (Dict.keys d).
Proof.
  unfold Dict.mem. induction d as [|[k' w] d IH]; simpl; [tauto|].
  destruct (String.eqb_spec k k') as [-> | Hne]; [discriminate|].
  intros H [Heq | Hin]; [congruence | now apply IH].
Qed.

Lemma wf_setitem k v d : Dict.wf d -> Dict.wf (Dict.setitem k v d).
Proof.
  unfold Dict.wf. intros H. rewrite keys_setitem.
  destruct (Dict.mem k d) eqn:E; [exact H|].
  apply NoDup_app; [exact H | repeat constructor; simpl; tauto |].
  intros x Hx [<- | []]. now apply mem_In in E.
Qed.

Lemma wf_update d o : Dict.wf d -> Dict.wf (Dict.update d o).
Proof.
  unfold Dict.update. revert d. induction o as [|[k v] o IH]; simpl; intros d H.
  - exact H.
  - apply IH. now apply wf_setitem.
Qed.


Lemma remove_absent k d : ~ In k (Dict.keys d) -> Dict.remove k d = d.
Proof.
  induction d as [|[k' v'] d IH]; simpl; intros H; [reflexivity|].
  destruct (String.eqb_spec k k') as [-> | _]; [exfalso; apply H; now left|].
  rewrite IH; [reflexivity|]. intros Hin. apply H. now right.
Qed.

Lemma insert_sorted_perm (kv : string * V) (l : list (string * V)) :
  Permutation (kv :: l) (Dict.insert_sorted kv l).
Proof.
  induction l as [|kv' l IH]; simpl; [apply Permutation_refl|].
  destruct (String.leb (fst kv) (fst kv')); [apply Permutation_refl|].
  eapply perm_trans; [apply perm_swap|]. now apply perm_skip.
Qed.

(** [sorted] only reorders the items. *)
Lemma sorted_items_perm d : Permutation d (Dict.sorted_items d).
Proof.
  unfold Dict.sorted_items. induction d as [|kv d IH]; simpl; [constructor|].
  eapply perm_trans; [apply perm_skip, IH | apply insert_sorted_perm].
Qed.

(** The item of a key has one place among the sorted items. *)
Lemma sorted_items_split k v d :
  Dict.wf d -> Dict.get k d = Some v ->
  exists before after,
    Dict.sorted_items d = (before ++ (k, v) :: after)%list
    /\ ~ In k (Dict.keys (before ++ after)%list).
Proof.
  intros Hwf Hget.
  assert (Hin : In (k, v) (Dict.sorted_items d)).
  { eapply Permutation_in; [apply sorted_items_perm | now apply get_In]. }
  destruct (in_split _ _ Hin) as [before [after Hsplit]].
  exists before, after. split; [exact Hsplit|].
  assert (Hnd : NoDup (Dict.keys (Dict.sorted_items d))).
  { eapply Permutation_NoDup; [apply Permutation_map, sorted_items_perm | exact Hwf]. }
  rewrite Hsplit in Hnd. unfold Dict.keys in *.
  rewrite map_app in *. simpl in Hnd. now apply NoDup_remove_2 in Hnd.
Qed.

(** The base group, whose name is the empty string, is sorted first. *)
Lemma sorted_items_base v d :
  Dict.wf d -> Dict.get "" d = Some v ->
  Dict.sorted_items d = ("", v) :: Dict.sorted_items (Dict.remove "" d).
Proof.
  unfold Dict.sorted_items.
  induction d as [|[k' v'] d IH]; simpl; intros Hwf Hget; [discriminate|].
  inversion Hwf as [|? ? Hnotin Hwf']; subst.
  destruct k' as [|c k']; simpl in Hget |- *.
  - inversion Hget; subst v'. rewrite (remove_absent _ _ Hnotin).
    now destruct (fold_right Dict.insert_sorted [] d) as [|[[|c k] w] l].
  - rewrite (IH Hwf' Hget). reflexivity.
Qed.

End DictFacts.

Lemma setitem_absent {V : Type} (k : string) (v : V) (d : Dict.t V) :
  Dict.mem k d = false -> Dict.setitem k v d = (d ++ [(k, v)])%list.
Proof.
  unfold Dict.mem. induction d as [|[k' w] d IH]; simpl; [reflexivity|].
  destruct (String.eqb k k'); [discriminate|].
  intros H. now rewrite IH.
Qed.

Lemma setitem_twice {V : Type} (k : string) (v v' : V) (d : Dict.t V) :
  Dict.setitem k v' (Dict.setitem k v d) = Dict.setitem k v' d.
Proof.
  induction d as [|[k' w] d IH]; simpl.
  - now rewrite String.eqb_refl.
  - destruct (String.eqb k k') eqn:E; simpl; rewrite E; [reflexivity | now rewrite IH].
Qed.

Lemma concat_cons (x : string) (l : list string) :
  String.concat "" (x :: l) = x ++ String.concat "" l.
Proof. destruct l; simpl; [now rewrite append_empty_r | reflexivity]. Qed.

Lemma concat_app (l1 l2 : list string) :
  String.concat "" (l1 ++ l2) = String.concat "" l1 ++ String.concat "" l2.
Proof.
  induction l1 as [|x l1 IH]; [reflexivity|].
  change ((x :: l1) ++ l2)%list with (x :: (l1 ++ l2))%list.
  now rewrite !concat_cons, IH, append_assoc.
Qed.

(* ================================================================== *)
(** * The requirement expander *)
(* ================================================================== *)

Lemma bind_ok {A B : Type} (m : result A) (k : A -> result B) (b : B) :
  bind m k = Ok b -> exists a, m = Ok a /\ k a = Ok b.
Proof. destruct m as [a|e]; simpl; [eauto | discriminate]. Qed.

Ltac bind_inv H :=
  let a := fresh "x" in
  let Ha := fresh "E" in
  apply bind_ok in H; destruct H as [a [Ha H]].

Lemma prefix_app (p s : string) : String.prefix p (p ++ s) = true.
Proof.
  induction p as [|c p IH]; simpl; [now destruct s|].
  destruct (ascii_dec c c); [exact IH | congruence].
Qed.

Lemma contains_app (sub pre post : string) :
  PyStr.contains sub (pre ++ sub ++ post) = true.
Proof.
  induction pre as [|c pre IH]; simpl.
  - assert (H : forall s, String.prefix sub s = true -> PyStr.contains sub s = true)
      by (intros [|? ?] H; cbn [PyStr.contains]; now rewrite H).
    apply H, prefix_app.
  - rewrite IH. apply orb_true_r.
Qed.

Lemma contains_suffix (sub pre : string) : PyStr.contains sub (pre ++ sub) = true.
Proof. pose proof (contains_app sub pre "") as H. now rewrite append_empty_r in H. Qed.

Section ExpanderFacts.
Import PyStr Requirements.

Variable Requirement : string -> option requirement.
Variable str_Requirement : requirement -> string.

Local Abbreviation gen := (generate_requirements Requirement str_Requirement).
Local Abbreviation group := (group_records Requirement str_Requirement).
Local Abbreviation inner := (requires_dist Requirement str_Requirement).
Local Abbreviation emitted := (requires_dist_record str_Requirement).

Lemma extra_and_condition_fst (key : string) :
  fst (extra_and_condition key) = normalized_extra key.
Proof.
  unfold extra_and_condition, normalized_extra.
  destruct (split_key key) as [extra condition]; simpl.
  now destruct (truthy (Util.safe_extra extra)).
Qed.

(** The inner loop succeeds exactly when every requirement parses, and
    then emits one record per requirement, in order. *)
Lemma requires_dist_parsed (condition : string) (depends : list string) (reqs : list requirement) :
  Forall2 (fun d r => Requirement d = Some r) depends reqs ->
  inner condition depends = Ok (map (emitted condition) reqs).
Proof.
  induction 1 as [|d r depends reqs Hd _ IH]; simpl; [reflexivity|].
  unfold convert. rewrite Hd. simpl. now rewrite IH.
Qed.

Lemma requires_dist_inv (condition : string) (depends : list string) (recs : list record) :
  inner condition depends = Ok recs ->
  exists reqs, Forall2 (fun d r => Requirement d = Some r) depends reqs
               /\ recs = map (emitted condition) reqs.
Proof.
  revert recs. induction depends as [|d depends IH]; simpl; intros recs H.
  - exists []. inversion H. split; constructor.
  - bind_inv H. bind_inv H. inversion H; subst recs.
    unfold convert in E. destruct (Requirement d) as [r|] eqn:Hd; [|discriminate].
    inversion E; subst x.
    destruct (IH _ E0) as [reqs [Hreqs ->]].
    exists (r :: reqs). split; [constructor; assumption | reflexivity].
Qed.

Lemma group_records_inv (key : string) (depends : list string) (recs : list record) :
  group key depends = Ok recs ->
  exists reqs, Forall2 (fun d r => Requirement d = Some r) depends reqs
    /\ recs = ((if truthy (normalized_extra key)
                then [("Provides-Extra", normalized_extra key)] else [])
               ++ map (emitted (snd (extra_and_condition key))) reqs)%list.
Proof.
  unfold group_records. rewrite <- extra_and_condition_fst.
  destruct (extra_and_condition key) as [extra condition]; simpl.
  intros H. bind_inv H. inversion H; subst recs.
  destruct (requires_dist_inv _ _ _ E) as [reqs [Hreqs ->]].
  exists reqs. split; [assumption | reflexivity].
Qed.

(** The generator runs through the groups in the order of the mapping. *)
Lemma generate_requirements_app (m1 m2 : Dict.t (list string)) :
  gen (m1 ++ m2)%list
  = bind (gen m1) (fun r1 => bind (gen m2) (fun r2 => Ok (r1 ++ r2)%list)).
Proof.
  induction m1 as [|[key depends] m1 IH]; simpl.
  - destruct (generate_requirements _ _ m2); reflexivity.
  - destruct (group_records _ _ key depends) as [here|e]; simpl; [|reflexivity].
    rewrite IH.
    destruct (generate_requirements _ _ m1) as [r1|e]; simpl; [|reflexivity].
    destruct (generate_requirements _ _ m2) as [r2|e]; simpl; [|reflexivity].
    now rewrite app_assoc.
Qed.

(** The generator returns when every requirement of every group parses. *)
Lemma generate_requirements_returns (m : Dict.t (list string)) :
  Forall (fun kv => Forall (fun d => Requirement d <> None) (snd kv)) m ->
  exists recs, gen m = Ok recs.
Proof.
  induction 1 as [|[key depends] m Hgroup _ [more IH]]; simpl; [eauto|].
  assert (Hreqs : exists reqs, Forall2 (fun d r => Requirement d = Some r) depends reqs).
  { simpl in Hgroup. clear -Hgroup.
    induction Hgroup as [|d depends Hd _ [reqs IH]]; [exists []; constructor|].
    destruct (Requirement d) as [r|] eqn:E; [|congruence].
    exists (r :: reqs). now constructor. }
  destruct Hreqs as [reqs Hreqs].
  unfold group_records. destruct (extra_and_condition key) as [extra condition].
  rewrite (requires_dist_parsed condition _ _ Hreqs), IH. simpl. eauto.
Qed.

Lemma provided_extras_app (a b : list record) :
  provided_extras (a ++ b) = (provided_extras a ++ provided_extras b)%list.
Proof. unfold provided_extras. now rewrite filter_app, map_app. Qed.

Lemma provided_extras_emitted (condition : string) (reqs : list requirement) :
  provided_extras (map (emitted condition) reqs) = [].
Proof. induction reqs as [|r reqs IH]; [reflexivity | exact IH]. Qed.

Lemma provided_extras_generated (m : Dict.t (list string)) (recs : list record) :
  gen m = Ok recs ->
  provided_extras recs = filter truthy (map (fun kv => normalized_extra (fst kv)) m).
Proof.
  revert recs. induction m as [|[key depends] m IH]; intros recs H.
  - inversion H. reflexivity.
  - simpl in H. bind_inv H. bind_inv H. inversion H; subst recs.
    apply group_records_inv in E. destruct E as [reqs [_ ->]].
    rewrite !provided_extras_app, provided_extras_emitted, (IH _ E0). simpl.
    destruct (truthy (normalized_extra key)); reflexivity.
Qed.

End ExpanderFacts.

(** The metadata of the sample project of the design document. *)
Lemma sample_full_requires :
  Builders.full_requires
    (mkMetadata None (Some [("test", ["pytest"])]) None (Some ["six"]) None None None)
  = [("test", ["pytest"]); ("", ["six"])].
Proof. reflexivity. Qed.

(** C1, as stated, fails: for the sample project [metadata_builder] hands
    [generate_requirements] the mapping with "test" first and the base
    group last, and the records come out in that order, not in the
    name-sorted one. *)
Lemma generate_requirements_not_sorted :
  let m := [("test", ["pytest"]); ("", ["six"])] in
  Requirements.generate_requirements Packaging.sample Packaging.str_Requirement m
  = Ok [("Provides-Extra", "test");
        ("Requires-Dist", "pytest; extra == 'test'");
        ("Requires-Dist", "six")]
  /\ Requirements.generate_requirements_sorted Packaging.sample Packaging.str_Requirement m
     = Ok [("Requires-Dist", "six");
           ("Provides-Extra", "test");
           ("Requires-Dist", "pytest; extra == 'test'")]
  /\ Requirements.generate_requirements Packaging.sample Packaging.str_Requirement m
     <> Requirements.generate_requirements_sorted Packaging.sample Packaging.str_Requirement m
  /\ Requirements.generate_requirements Packaging.sample Packaging.str_Requirement m
     <> Requirements.generate_requirements Packaging.sample Packaging.str_Requirement
          [("", ["six"]); ("test", ["pytest"])].
Proof.
  cbv zeta. split; [reflexivity|]. split; [reflexivity|]. split; discriminate.
Qed.

(** In [metadata_builder] the base group goes last when the extras have no
    group of the empty name. *)
Lemma full_requires_base_last (metadata : Metadata) (deps : list string) :
  dependencies metadata = Some deps ->
  Dict.mem "" (Builders.merged_extras metadata) = false ->
  Builders.full_requires metadata = (Builders.merged_extras metadata ++ [("", deps)])%list.
Proof.
  intros Hdeps Hmem. unfold Builders.full_requires. rewrite Hdeps.
  destruct (install_requires metadata); [rewrite setitem_twice|]; now apply setitem_absent.
Qed.

(** The base group yields its requirements as they are: no
    [Provides-Extra], no condition. *)
Lemma group_records_base
    (Requirement : string -> option requirement)
    (str_Requirement : requirement -> string) (depends : list string) :
  Requirements.group_records Requirement str_Requirement "" depends
  = Requirements.requires_dist Requirement str_Requirement "" depends.
Proof.
  unfold Requirements.group_records. cbn.
  now destruct (Requirements.requires_dist Requirement str_Requirement "" depends).
Qed.

(** The records of a group lie between those of the groups before it and
    those of the groups after it. *)
Lemma generate_requirements_split
    (Requirement : string -> option requirement)
    (str_Requirement : requirement -> string)
    (before after : Dict.t (list string)) (key : string) (depends : list string)
    (recs : list record) :
  Requirements.generate_requirements Requirement str_Requirement
    (before ++ (key, depends) :: after)%list = Ok recs ->
  exists r_before r_group r_after,
    Requirements.generate_requirements Requirement str_Requirement before = Ok r_before
    /\ Requirements.group_records Requirement str_Requirement key depends = Ok r_group
    /\ Requirements.generate_requirements Requirement str_Requirement after = Ok r_after
    /\ recs = (r_before ++ r_group ++ r_after)%list.
Proof.
  intros H. rewrite generate_requirements_app in H.
  bind_inv H. bind_inv H. inversion H; subst recs.
  simpl in E0. bind_inv E0. bind_inv E0. inversion E0; subst x0.
  exists x, x1, x2. repeat split; assumption.
Qed.

(** C1, amended.  [generate_requirements] visits the groups in the
    iteration (insertion) order of the mapping it is given, without sorting:
    the records of a group follow those of all groups before it in the
    mapping and precede those of all groups after it.  [metadata_builder]
    inserts the base group of "dependencies" after the extras (unless these
    came with a group of the empty name), so that its records are the last
    ones.  The generator returns whenever all requirements parse. *)
Theorem generate_requirements_insertion_order
    (Requirement : string -> option requirement)
    (str_Requirement : requirement -> string) :
  (forall (before after : Dict.t (list string)) (key : string) (depends : list string)
          (recs : list record),
      Requirements.generate_requirements Requirement str_Requirement
        (before ++ (key, depends) :: after)%list = Ok recs ->
      exists r_before r_group r_after,
        Requirements.generate_requirements Requirement str_Requirement before = Ok r_before
        /\ Requirements.group_records Requirement str_Requirement key depends = Ok r_group
        /\ Requirements.generate_requirements Requirement str_Requirement after = Ok r_after
        /\ recs = (r_before ++ r_group ++ r_after)%list)
  /\ (forall (metadata : Metadata) (deps : list string) (recs : list record),
        dependencies metadata = Some deps ->
        Dict.mem "" (Builders.merged_extras metadata) = false ->
        Requirements.generate_requirements Requirement str_Requirement
          (Builders.full_requires metadata) = Ok recs ->
        exists r_extras r_base,
          Builders.full_requires metadata
          = (Builders.merged_extras metadata ++ [("", deps)])%list
          /\ Requirements.generate_requirements Requirement str_Requirement
               (Builders.merged_extras metadata) = Ok r_extras
          /\ Requirements.requires_dist Requirement str_Requirement "" deps = Ok r_base
          /\ recs = (r_extras ++ r_base)%list)
  /\ (forall m : Dict.t (list string),
        Forall (fun kv => Forall (fun d => Requirement d <> None) (snd kv)) m ->
        exists recs,
          Requirements.generate_requirements Requirement str_Requirement m = Ok recs).
Proof.
  split; [apply generate_requirements_split|].
  split; [|apply generate_requirements_returns].
  intros metadata deps recs Hdeps Hmem Hrecs.
  rewrite (full_requires_base_last metadata deps Hdeps Hmem) in Hrecs |- *.
  destruct (generate_requirements_split _ _ _ _ _ _ _ Hrecs)
    as [r1 [base [r2 [H1 [Hgroup [H2 ->]]]]]].
  rewrite group_records_base in Hgroup. inversion H2; subst r2.
  exists r1, base. rewrite app_nil_r. repeat split; assumption.
Qed.

Lemma generate_requirements_insertion_order_witness :
  let metadata :=
    mkMetadata None (Some [("test", ["pytest"])]) None (Some ["six"]) None None None in
  exists r_extras r_base,
    Builders.full_requires metadata = ([("test", ["pytest"])] ++ [("", ["six"])])%list
    /\ Requirements.generate_requirements Packaging.sample Packaging.str_Requirement
         [("test", ["pytest"])] = Ok r_extras
    /\ Requirements.requires_dist Packaging.sample Packaging.str_Requirement "" ["six"]
       = Ok r_base
    /\ [("Provides-Extra", "test");
        ("Requires-Dist", "pytest; extra == 'test'");
        ("Requires-Dist", "six")] = (r_extras ++ r_base)%list.
Proof.
  intros metadata.
  apply (proj1 (proj2 (generate_requirements_insertion_order
                         Packaging.sample Packaging.str_Requirement))
           metadata ["six"]); reflexivity.
Defined.

Lemma extra_and_condition_snd (key : string) :
  PyStr.truthy (Requirements.normalized_extra key) = true ->
  exists pre,
    snd (Requirements.extra_and_condition key)
    = pre ++ Requirements.extra_clause (Requirements.normalized_extra key).
Proof.
  unfold Requirements.extra_and_condition, Requirements.normalized_extra.
  destruct (Requirements.split_key key) as [extra condition]; simpl.
  intros ->. simpl. eauto.
Qed.

Lemma truthy_clause (pre extra : string) :
  PyStr.truthy (pre ++ Requirements.extra_clause extra) = true.
Proof. destruct pre; reflexivity. Qed.

Lemma merge_marker_clause (pre extra : string) (r : requirement) :
  exists pre',
    req_marker (Requirements.merge_marker (pre ++ Requirements.extra_clause extra) r)
    = Some (pre' ++ Requirements.extra_clause extra).
Proof.
  unfold Requirements.merge_marker. rewrite truthy_clause.
  destruct (req_marker r) as [marker|]; simpl.
  - exists ("(" ++ marker ++ ") and " ++ pre).
    now rewrite !append_assoc.
  - eauto.
Qed.

Lemma group_records_carry
    (Requirement : string -> option requirement)
    (str_Requirement : requirement -> string)
    (key : string) (depends : list string) (recs : list record) :
  Requirements.group_records Requirement str_Requirement key depends = Ok recs ->
  PyStr.truthy (Requirements.normalized_extra key) = true ->
  Forall (Requirements.carries_extra str_Requirement (Requirements.normalized_extra key)) recs.
Proof.
  intros H Hextra.
  destruct (group_records_inv _ _ _ _ _ H) as [reqs [_ ->]]. rewrite Hextra.
  destruct (extra_and_condition_snd key Hextra) as [pre ->].
  constructor; [intros Hfst; discriminate Hfst|].
  apply Forall_forall. intros r Hr _.
  apply in_map_iff in Hr. destruct Hr as [req [<- _]].
  destruct (merge_marker_clause pre (Requirements.normalized_extra key) req) as [pre' Hm].
  exists (Requirements.merge_marker
            (pre ++ Requirements.extra_clause (Requirements.normalized_extra key)) req), pre'.
  split; [reflexivity|]. split; [exact Hm | apply contains_suffix].
Qed.

(** C3, as stated, fails twice: a group without requirements still gets its
    [Provides-Extra] record, and two group keys with the same normalised
    name get one record each. *)
Lemma provides_extra_not_the_set :
  let empty_group := [("test", [])] in
  let same_extra := [("test", ["six"]); ("test:os_name == 'nt'", ["pytest"])] in
  Requirements.generate_requirements Packaging.sample Packaging.str_Requirement empty_group
  = Ok [("Provides-Extra", "test")]
  /\ Requirements.provides_extra_set empty_group = []
  /\ Requirements.generate_requirements Packaging.sample Packaging.str_Requirement same_extra
     = Ok [("Provides-Extra", "test");
           ("Requires-Dist", "six; extra == 'test'");
           ("Provides-Extra", "test");
           ("Requires-Dist", "pytest; (os_name == 'nt') and extra == 'test'")]
  /\ Requirements.provides_extra_set same_extra = ["test"]
  /\ ~ (forall m recs,
          Requirements.generate_requirements Packaging.sample Packaging.str_Requirement m
          = Ok recs ->
          Permutation (Requirements.provided_extras recs) (Requirements.provides_extra_set m)).
Proof.
  cbv zeta. repeat (split; [reflexivity|]).
  intros H. specialize (H [("test", [])] _ eq_refl).
  apply Permutation_length in H. discriminate H.
Qed.

(** C3, amended.  The [Provides-Extra] records are, in the order of the
    mapping, the non-empty normalised extra names of the group keys: one
    record per key whose normalised name is non-empty, whether or not the
    group has requirements, and so repeated when several keys share a
    normalised name.  Every [Requires-Dist] record of such a group renders a
    requirement whose marker contains [extra == '<that normalised name>']. *)
Theorem provides_extra_per_group_key
    (Requirement : string -> option requirement)
    (str_Requirement : requirement -> string)
    (m : Dict.t (list string)) (recs : list record) :
  Requirements.generate_requirements Requirement str_Requirement m = Ok recs ->
  Requirements.provided_extras recs
  = filter PyStr.truthy (map Requirements.normalized_extra (Dict.keys m))
  /\ exists per_group,
       recs = concat per_group
       /\ Forall2
            (fun kv group =>
               Requirements.group_records Requirement str_Requirement (fst kv) (snd kv)
               = Ok group
               /\ (PyStr.truthy (Requirements.normalized_extra (fst kv)) = true ->
                   Forall (Requirements.carries_extra str_Requirement
                             (Requirements.normalized_extra (fst kv))) group))
            m per_group.
Proof.
  intros H. split.
  - rewrite (provided_extras_generated _ _ _ _ H). unfold Dict.keys. now rewrite map_map.
  - revert recs H. induction m as [|[key depends] m IH]; intros recs H.
    + inversion H. exists []. split; constructor.
    + simpl in H. bind_inv H. bind_inv H. inversion H; subst recs.
      destruct (IH _ E0) as [per_group [-> Hall]].
      exists (x :: per_group). split; [reflexivity|].
      constructor; [|exact Hall]. split; [exact E|].
      now apply group_records_carry with (Requirement := Requirement) (depends := depends).
Qed.

Lemma provides_extra_per_group_key_witness :
  Requirements.provided_extras
    [("Provides-Extra", "test");
     ("Requires-Dist", "six; extra == 'test'");
     ("Provides-Extra", "test");
     ("Requires-Dist", "pytest; (os_name == 'nt') and extra == 'test'")]
  = ["test"; "test"].
Proof.
  exact (proj1 (provides_extra_per_group_key Packaging.sample Packaging.str_Requirement
                  [("test", ["six"]); ("test:os_name == 'nt'", ["pytest"])] _ eq_refl)).
Defined.

(** C5.  For a group key whose normalised extra is non-empty, the combined
    condition is [(<condition>) and extra == '<extra>'] when the key carries
    a literal condition after the colon and [extra == '<extra>'] when it
    does not; each requirement of the group is emitted with the marker
    [(<its own marker>) and <combined condition>] when it has a marker of
    its own and with the combined condition as marker otherwise. *)
Theorem marker_merge
    (Requirement : string -> option requirement)
    (str_Requirement : requirement -> string)
    (key extra condition : string) (depends : list string) (reqs : list requirement) :
  Requirements.split_key key = (extra, condition) ->
  PyStr.truthy (Util.safe_extra extra) = true ->
  Forall2 (fun d r => Requirement d = Some r) depends reqs ->
  let combined :=
    if PyStr.truthy condition
    then "(" ++ condition ++ ") and extra == '" ++ Util.safe_extra extra ++ "'"
    else "extra == '" ++ Util.safe_extra extra ++ "'" in
  Requirements.extra_and_condition key = (Util.safe_extra extra, combined)
  /\ Requirements.group_records Requirement str_Requirement key depends
     = Ok (("Provides-Extra", Util.safe_extra extra)
           :: map (fun r =>
                     ("Requires-Dist",
                      str_Requirement
                        (set_marker r
                           match req_marker r with
                           | Some marker => "(" ++ marker ++ ") and " ++ combined
                           | None => combined
                           end)))
                reqs).
Proof.
  intros Hkey Hextra Hreqs combined.
  assert (Hec : Requirements.extra_and_condition key = (Util.safe_extra extra, combined)).
  { unfold Requirements.extra_and_condition. rewrite Hkey, Hextra.
    unfold combined, Requirements.extra_clause.
    destruct condition as [|c condition]; [reflexivity|].
    cbn [PyStr.truthy]. now rewrite !append_assoc. }
  split; [exact Hec|].
  unfold Requirements.group_records. rewrite Hec, Hextra.
  rewrite (requires_dist_parsed _ str_Requirement combined _ _ Hreqs). simpl.
  do 2 f_equal. apply map_ext. intros r.
  unfold Requirements.requires_dist_record, Requirements.merge_marker.
  assert (Ht : PyStr.truthy combined = true)
    by (unfold combined; destruct (PyStr.truthy condition); reflexivity).
  rewrite Ht. now destruct (req_marker r).
Qed.

Lemma marker_merge_witness :
  Requirements.group_records Packaging.windows Packaging.str_Requirement
    "Win Extra:python_version < '3'" ["pywin32; os_name == 'nt'"; "colorama"]
  = Ok [("Provides-Extra", "win_extra");
        ("Requires-Dist",
         "pywin32; (os_name == " ++ Packaging.dq ++ "nt" ++ Packaging.dq
         ++ ") and (python_version < '3') and extra == 'win_extra'");
        ("Requires-Dist", "colorama; (python_version < '3') and extra == 'win_extra'")].
Proof.
  refine (proj2 (marker_merge Packaging.windows Packaging.str_Requirement
                   "Win Extra:python_version < '3'" "Win Extra" "python_version < '3'"
                   ["pywin32; os_name == 'nt'"; "colorama"]
                   [Packaging.pywin32; Packaging.bare "colorama"] _ _ _)).
  - reflexivity.
  - reflexivity.
  - repeat constructor.
Defined.

(* ================================================================== *)
(** * Dependency and entry-point files *)
(* ================================================================== *)

Lemma wf_full_requires (metadata : Metadata) : Dict.wf (Builders.full_requires metadata).
Proof.
  unfold Builders.full_requires.
  assert (H : Dict.wf (Builders.merged_extras metadata))
    by (do 2 apply wf_update; constructor).
  destruct (install_requires metadata), (dependencies metadata);
    repeat apply wf_setitem; exact H.
Qed.

Lemma wf_collect_entry_points (metadata : Metadata) :
  Dict.wf (Builders.collect_entry_points metadata).
Proof.
  unfold Builders.collect_entry_points.
  assert (H : Dict.wf
                match entry_points metadata with
                | Some given => Dict.update Dict.empty given
                | None => Dict.empty
                end)
    by (destruct (entry_points metadata); [apply wf_update|]; constructor).
  destruct (scripts metadata), (gui_scripts metadata);
    repeat apply wf_setitem; exact H.
Qed.





(** C10.  A "scripts" key is the whole "console_scripts" group of
    entry_points.txt and a "gui-scripts" key the whole "gui_scripts" group:
    the file has one section of that name, made of the entries of the key
    alone, whatever the "entry_points" table holds under that name. *)
Theorem scripts_replace_entry_points
    (metadata : Metadata) (field : Metadata -> option ep_items)
    (group : string) (items : ep_items) :
  In (field, group) Builders.script_keys ->
  field metadata = Some items ->
  Dict.get group (Builders.collect_entry_points metadata) = Some items
  /\ Builders.section_emitted metadata group items.
Proof.
  intros Hkey Hfield.
  assert (Hget : Dict.get group (Builders.collect_entry_points metadata) = Some items).
  { unfold Builders.collect_entry_points.
    destruct Hkey as [Hkey | [Hkey | []]]; inversion Hkey; subst field group; rewrite Hfield.
    - destruct (gui_scripts metadata);
        [rewrite get_setitem_other by discriminate|]; apply get_setitem_same.
    - apply get_setitem_same. }
  split; [exact Hget|].
  destruct (sorted_items_split _ _ _ (wf_collect_entry_points metadata) Hget)
    as [before [after [Hsplit Hnotin]]].
  exists before, after. split; [exact Hsplit|]. split; [exact Hnotin|].
  unfold Builders.entry_points_builder. rewrite Hsplit, map_app, concat_app.
  cbn [map]. now rewrite concat_cons.
Qed.

Lemma scripts_replace_entry_points_witness :
  let metadata :=
    mkMetadata None None None None
      (Some [("console_scripts", EPList ["old = pkg.old:main"; "mytool = pkg.old:run"]);
             ("pkg.plugins", EPTable [("a", "pkg.a")])])
      (Some (EPTable [("mytool", "pkg.mod:main")])) None in
  Dict.get "console_scripts" (Builders.collect_entry_points metadata)
  = Some (EPTable [("mytool", "pkg.mod:main")])
  /\ Builders.entry_points_builder metadata
     = "[console_scripts]" ++ String "010" "" ++ "mytool = pkg.mod:main" ++ String "010" ""
       ++ "[pkg.plugins]" ++ String "010" "" ++ "a = pkg.a" ++ String "010" "".
Proof.
  intros metadata. split; [|reflexivity].
  apply (scripts_replace_entry_points metadata scripts "console_scripts"
           (EPTable [("mytool", "pkg.mod:main")])).
  - left. reflexivity.
  - reflexivity.
Defined.

(* ================================================================== *)
(** * The wheel manifest *)
(* ================================================================== *)

Lemma find_unique_name (l : ZipFile) (name : string) (data : list byte) :
  NoDup (map fst l) -> In (name, data) l ->
  find (fun m => String.eqb (fst m) name) l = Some (name, data).
Proof.
  induction l as [|[n d] l IH]; simpl; intros Hnd Hin; [contradiction|].
  inversion Hnd as [|? ? Hnotin Hnd']; subst.
  destruct Hin as [Heq | Hin].
  - inversion Heq; subst. now rewrite String.eqb_refl.
  - destruct (String.eqb_spec n name) as [-> | _]; [|now apply IH].
    exfalso. apply Hnotin. apply in_map_iff. now exists (name, data).
Qed.

(** With unique member names, reading a name gives the bytes of the member
    listed under it. *)
Lemma read_member (archive : ZipFile) (name : string) (data : list byte) :
  NoDup (Zip.namelist archive) -> In (name, data) archive ->
  Zip.read archive name = Ok data.
Proof.
  intros Hnd Hin. unfold Zip.read.
  rewrite (find_unique_name (rev archive) name data); [reflexivity | | now apply in_rev in Hin].
  rewrite map_rev. apply NoDup_rev. exact Hnd.
Qed.

Lemma content_lines_members
    (sha256 : list byte -> list byte) (archive members : ZipFile) :
  NoDup (Zip.namelist archive) -> incl members archive ->
  Manifest.content_lines sha256 archive (Zip.namelist members)
  = Ok (map (fun m => Manifest.record_line sha256 (fst m) (snd m)) members).
Proof.
  intros Hnd. induction members as [|[name data] members IH]; intros Hincl.
  - reflexivity.
  - change (bind (Zip.read archive name)
              (fun data =>
                 bind (Manifest.content_lines sha256 archive (Zip.namelist members))
                   (fun more => Ok (Manifest.record_line sha256 name data :: more)))
            = Ok (Manifest.record_line sha256 name data
                  :: map (fun m => Manifest.record_line sha256 (fst m) (snd m)) members)).
    rewrite (read_member archive name data Hnd); [|apply Hincl; now left].
    rewrite IH; [reflexivity|].
    intros m Hm. apply Hincl. now right.
Qed.

(** C2.  For an archive with unique member names, [add_manifest] appends a
    RECORD whose lines are, in the order of the archive, one line per member
    that was there (the path with its commas doubled, ["sha256="] and the
    unpadded URL-safe base64 of the SHA-256 digest of the member's bytes,
    the number of its bytes) and then one line for RECORD itself with the
    hash and the size left empty: one line more than there were members. *)
Theorem add_manifest_record
    (sha256 : list byte -> list byte) (archive : ZipFile) (dist_info_path : string) :
  NoDup (Zip.namelist archive) ->
  let record_path := dist_info_path ++ "/RECORD" in
  let lines :=
    (map (fun m : string * list byte =>
            (PyStr.replace_char "," ",," (fst m)
             ++ "," ++ ("sha256=" ++ Manifest.urlsafe_b64encode (sha256 (snd m)))
             ++ "," ++ PyStr.str_of_nat (List.length (snd m)))%string)
         archive
     ++ [(record_path ++ ",,")%string])%list in
  Manifest.manifest_lines sha256 archive record_path = Ok lines
  /\ List.length lines = List.length archive + 1
  /\ Manifest.add_manifest sha256 archive dist_info_path
     = Ok (archive ++ [(record_path,
                        list_byte_of_string (PyStr.join (String "010" "") lines))])%list.
Proof.
  intros Hnd record_path lines.
  assert (Hlines : Manifest.manifest_lines sha256 archive record_path = Ok lines).
  { unfold Manifest.manifest_lines.
    rewrite (content_lines_members sha256 archive archive Hnd (incl_refl _)).
    reflexivity. }
  split; [exact Hlines|]. split.
  - unfold lines. now rewrite length_app, length_map.
  - unfold Manifest.add_manifest. fold record_path. rewrite Hlines. reflexivity.
Qed.

Lemma add_manifest_record_witness :
  let archive :=
    [("pkg/__init__.py", []); ("pkg/a,b.txt", list_byte_of_string "abc")] in
  Manifest.add_manifest SHA256.sha256 archive "sample-0.1.dist-info"
  = Ok (archive
        ++ [("sample-0.1.dist-info/RECORD",
             list_byte_of_string
               ("pkg/__init__.py,sha256=47DEQpj8HBSa-_TImW-5JCeuQeRkm5NMpJWZG3hSuFU,0"
                ++ String "010" ""
                ++ "pkg/a,,b.txt,sha256=ungWv48Bz-pBQUDeXa4iI7ADYaOWF3qctBD_YfIAFa0,3"
                ++ String "010" ""
                ++ "sample-0.1.dist-info/RECORD,,"))])%list.
Proof.
  intros archive.
  assert (Hnd : NoDup (Zip.namelist archive)).
  { repeat constructor; simpl; intuition discriminate. }
  refine (eq_trans (proj2 (proj2 (add_manifest_record SHA256.sha256 archive
                                    "sample-0.1.dist-info" Hnd))) _).
  vm_compute. reflexivity.
Defined.

(* ================================================================== *)
(** * The compatibility tag *)
(* ================================================================== *)

Lemma endswith_refl (s : string) : PyStr.endswith s s = true.
Proof. destruct s; cbn [PyStr.endswith]; now rewrite String.eqb_refl. Qed.

Lemma endswith_app (pre suf : string) : PyStr.endswith (pre ++ suf) suf = true.
Proof.
  induction pre as [|c pre IH]; [apply endswith_refl|].
  cbn [append PyStr.endswith]. rewrite IH. apply orb_true_r.
Qed.

Lemma endswith_inv (s suf : string) :
  PyStr.endswith s suf = true -> exists pre, s = pre ++ suf.
Proof.
  induction s as [|c s IH]; cbn [PyStr.endswith]; intros H;
    apply orb_true_iff in H; destruct H as [H | H].
  - apply String.eqb_eq in H. subst. now exists "".
  - discriminate.
  - apply String.eqb_eq in H. subst. now exists "".
  - destruct (IH H) as [pre ->]. now exists (String c pre).
Qed.

(** A string that ends with [a ++ b] ends with [b]. *)
Lemma endswith_shorter (s a b : string) :
  PyStr.endswith s (a ++ b) = true -> PyStr.endswith s b = true.
Proof.
  intros H. destruct (endswith_inv _ _ H) as [pre ->].
  rewrite <- append_assoc. apply endswith_app.
Qed.

Lemma dash_in_none_any (x plat : string) :
  x ++ "-" ++ plat = "none-any" -> plat = "any".
Proof.
  destruct x as [|c0 [|c1 [|c2 [|c3 [|c4 [|c5 [|c6 [|c7 x]]]]]]]];
    simpl; intros H; inversion H; try reflexivity.
  destruct x; discriminate.
Qed.

(** A tag whose platform part does not end with "any" does not end with
    "none-any". *)
Lemma platform_tag_not_none_any (x plat : string) :
  PyStr.endswith plat "any" = false ->
  PyStr.endswith (x ++ "-" ++ plat) "none-any" = false.
Proof.
  intros Hplat. destruct (PyStr.endswith (x ++ "-" ++ plat) "none-any") eqn:H; [|reflexivity].
  exfalso. revert H. induction x as [|c x IH]; intros H.
  - cbn in H.
    apply (endswith_shorter plat "none-" "any") in H. congruence.
  - cbn [append PyStr.endswith] in H. apply orb_true_iff in H. destruct H as [H | H].
    + apply String.eqb_eq in H.
      apply (dash_in_none_any (String c x) plat) in H. subst plat. discriminate Hplat.
    + now apply IH.
Qed.

Lemma join3 (a b c : string) : PyStr.join "-" [a; b; c] = (a ++ "-" ++ b) ++ "-" ++ c.
Proof. cbn [PyStr.join]. now rewrite !append_assoc. Qed.

(** A tag made for a platform build ends with the platform. *)
Lemma get_tag_platlib (h : Host) (env : Env) (tag : string) (env' : Env) :
  ROOT_IS_PURELIB env = Some false ->
  Tags.get_tag h env = Ok (tag, env') ->
  exists x, tag = x ++ "-" ++ get_platform h (WHEEL_PATH env).
Proof.
  unfold Tags.get_tag. intros ->. cbn [Tags.getitem bind negb].
  intros H. bind_inv H. inversion H; subst tag env'. clear H.
  bind_inv E. rewrite join3 in E. inversion E. eauto.
Qed.

(** What [enscons_defaults] leaves of the tag keys. *)
Lemma enscons_defaults_inv (h : Host) (env0 env1 : Env) :
  Tags.enscons_defaults h env0 = Ok env1 ->
  WHEEL_PATH env1 = WHEEL_PATH env0
  /\ (ROOT_IS_PURELIB env0 = None ->
      forall purelib, ROOT_IS_PURELIB env1 = Some purelib ->
      exists preset, WHEEL_TAG env0 = Some preset
                     /\ purelib = PyStr.endswith preset "none-any").
Proof.
  destruct env0 as [once rip tag target path namever].
  unfold Tags.enscons_defaults. cbn.
  destruct once; [intros H; inversion H; cbn; split; [reflexivity | congruence]|].
  destruct rip as [b|]; cbn.
  - destruct tag as [t|]; cbn.
    + intros H; inversion H; cbn. split; [reflexivity | discriminate].
    + destruct (Tags.get_binary_tag h); cbn; intros H; inversion H; cbn.
      split; [reflexivity | discriminate].
  - destruct tag as [t|]; cbn; [|discriminate].
    intros H; inversion H; cbn. split; [reflexivity|].
    intros _ purelib Hp. inversion Hp. now exists t.
Qed.

(** C4.  [ROOT_IS_PURELIB] is true if and only if the resolved tag ends
    with "none-any".  When [enscons_defaults] runs on an environment
    without [ROOT_IS_PURELIB], it sets the key to whether the preset
    [WHEEL_TAG] ends with "none-any", and changes nothing else but its own
    once key.  [get_tag] gives a purelib build exactly "py3-none-any".  And
    in a build whose platform name does not end with "any" (no platform
    name does), when [enscons_defaults] has run and [get_tag] returns,
    [ROOT_IS_PURELIB] is true if and only if the tag ends with "none-any",
    and a [ROOT_IS_PURELIB] that was not preset holds the default. *)
Theorem purelib_iff_tag_none_any (h : Host) (env0 : Env) :
  (_ENSCONS_DEFAULTS env0 = false ->
   ROOT_IS_PURELIB env0 = None ->
   forall preset, WHEEL_TAG env0 = Some preset ->
     Tags.enscons_defaults h env0
     = Ok (Tags.set_ROOT_IS_PURELIB (Tags.set_once env0)
             (PyStr.endswith preset "none-any")))
  /\ (forall env, ROOT_IS_PURELIB env = Some true ->
        Tags.get_tag h env = Ok ("py3-none-any", Tags.set_WHEEL_TAG env "py3-none-any"))
  /\ (PyStr.endswith (get_platform h (WHEEL_PATH env0)) "any" = false ->
      forall (env1 : Env) (tag : string) (env2 : Env),
        Tags.enscons_defaults h env0 = Ok env1 ->
        Tags.get_tag h env1 = Ok (tag, env2) ->
        exists purelib : bool,
          ROOT_IS_PURELIB env1 = Some purelib
          /\ ROOT_IS_PURELIB env2 = Some purelib
          /\ WHEEL_TAG env2 = Some tag
          /\ (purelib = true <-> PyStr.endswith tag "none-any" = true)
          /\ (purelib = true -> tag = "py3-none-any")
          /\ (ROOT_IS_PURELIB env0 = None ->
              exists preset, WHEEL_TAG env0 = Some preset
                             /\ purelib = PyStr.endswith preset "none-any")).
Proof.
  split; [|split].
  - intros Honce Hnone preset Hpreset.
    destruct env0 as [once rip wheel_tag target path namever].
    cbn in Honce, Hnone, Hpreset. subst once rip wheel_tag. reflexivity.
  - intros env Hpure. unfold Tags.get_tag. rewrite Hpure. reflexivity.
  - intros Hplat env1 tag env2 Hdef Htag.
    destruct (enscons_defaults_inv h env0 env1 Hdef) as [Hpath Hpreset].
    destruct (ROOT_IS_PURELIB env1) as [purelib|] eqn:Hpure;
      [|unfold Tags.get_tag in Htag; rewrite Hpure in Htag; discriminate].
    exists purelib.
    assert (Henv2 : env2 = Tags.set_WHEEL_TAG env1 tag).
    { unfold Tags.get_tag in Htag. bind_inv Htag. bind_inv Htag. now inversion Htag. }
    assert (Hiff : (purelib = true <-> PyStr.endswith tag "none-any" = true)
                   /\ (purelib = true -> tag = "py3-none-any")).
    { destruct purelib.
      - unfold Tags.get_tag in Htag. rewrite Hpure in Htag. cbn in Htag.
        inversion Htag. split; [split|]; reflexivity.
      - destruct (get_tag_platlib h env1 tag env2 Hpure Htag) as [x ->].
        rewrite Hpath, (platform_tag_not_none_any x _ Hplat).
        split; [split|]; discriminate. }
    destruct Hiff as [Hiff Hpy3].
    split; [reflexivity|]. split; [now subst env2|]. split; [now subst env2|].
    split; [exact Hiff|]. split; [exact Hpy3|].
    intros Hnone. destruct (Hpreset Hnone purelib eq_refl) as [preset [Hp1 Hp2]].
    exists preset. split; [exact Hp1 | exact Hp2].
Qed.

Lemma purelib_iff_tag_none_any_witness :
  let h := mkHost [] (fun _ => "linux_x86_64") "cp" "311" "cp311" in
  let env0 := mkEnv false None (Some "py2.py3-none-any") None "build/wheel" "sample-0.1" in
  let env1 := mkEnv true (Some true) (Some "py2.py3-none-any") None "build/wheel" "sample-0.1" in
  Tags.enscons_defaults h env0 = Ok env1
  /\ Tags.get_tag h env1 = Ok ("py3-none-any", Tags.set_WHEEL_TAG env1 "py3-none-any")
  /\ exists purelib : bool,
       ROOT_IS_PURELIB env1 = Some purelib
       /\ Some true = Some purelib
       /\ Some "py3-none-any" = Some "py3-none-any"
       /\ (purelib = true <-> PyStr.endswith "py3-none-any" "none-any" = true)
       /\ (purelib = true -> "py3-none-any" = "py3-none-any")
       /\ (ROOT_IS_PURELIB env0 = None ->
           exists preset, WHEEL_TAG env0 = Some preset
                          /\ purelib = PyStr.endswith preset "none-any").
Proof.
  intros h env0 env1.
  destruct (purelib_iff_tag_none_any h env0) as [Hdefault [Hpure Hiff]].
  split; [exact (Hdefault eq_refl eq_refl _ eq_refl)|].
  split; [exact (Hpure env1 eq_refl)|].
  exact (Hiff eq_refl env1 "py3-none-any" (Tags.set_WHEEL_TAG env1 "py3-none-any")
           eq_refl eq_refl).
Defined.

(** C6.  For a platform build with a limited-API target, [get_tag] raises
    exactly when the target is not a pair, or its major version is not 3,
    or its minor version is below 2; for every other target it returns the
    abi3 tag of that version. *)
Theorem get_tag_unsupported_target (h : Host) (env : Env) (target : pyobj) :
  ROOT_IS_PURELIB env = Some false ->
  LIMITED_API_TARGET env = Some target ->
  ((exists e, Tags.get_tag h env = Raise e) <-> Tags.unsupported_target target)
  /\ (~ Tags.unsupported_target target ->
      exists minor tag,
        target = PyTuple [3%Z; minor]
        /\ tag = "cp3" ++ PyStr.str_of_Z minor ++ "-abi3-" ++ get_platform h (WHEEL_PATH env)
        /\ Tags.get_tag h env = Ok (tag, Tags.set_WHEEL_TAG env tag)).
Proof.
  intros Hpure Htarget. unfold Tags.get_tag. rewrite Hpure, Htarget.
  cbn [Tags.getitem bind negb].
  destruct target as [n | s | items | [|major [|minor [|third items]]]];
    cbn [Tags.abi3_impl bind Tags.unsupported_target];
    try (split; [split; [intros _; exact I | intros _; eexists; reflexivity]
                |intros H; exfalso; apply H; exact I]).
  destruct (Z.eqb_spec major 3) as [-> | Hmajor]; cbn [negb orb].
  - destruct (Z.ltb_spec minor 2) as [Hminor | Hminor]; cbn [bind].
    + split; [split; [intros _; now right | intros _; eexists; reflexivity]|].
      intros H. exfalso. apply H. now right.
    + split.
      * split; [intros [e He]; discriminate He | intros [H | H]; [congruence | lia]].
      * intros _. exists minor. eexists. split; [reflexivity|]. split; [reflexivity|].
        cbn. reflexivity.
  - split; [split; [intros _; now left | intros _; eexists; reflexivity]|].
    intros H. exfalso. apply H. now left.
Qed.

Lemma get_tag_unsupported_target_witness :
  let h := mkHost [] (fun _ => "win_amd64") "cp" "311" "cp311" in
  let env := mkEnv true (Some false) (Some "cp311-cp311-win_amd64")
               (Some (PyTuple [3; 1]%Z)) "build/wheel" "sample-0.1" in
  (exists e, Tags.get_tag h env = Raise e)
  /\ Tags.get_tag h env = Raise (Exception "cannot target abi below 3.2").
Proof.
  intros h env. split; [|reflexivity].
  apply (proj1 (get_tag_unsupported_target h env (PyTuple [3; 1]%Z) eq_refl eq_refl)).
  right. reflexivity.
Defined.

(** C7.  A platform build with target (3, 8) on linux_x86_64 gets the tag
    "cp38-abi3-linux_x86_64", and for the name and version "sample-0.1"
    [correct_wheel_tags] renames the wheel, in its directory, to
    "sample-0.1-cp38-abi3-linux_x86_64.whl". *)
Theorem abi3_wheel_renamed (h : Host) (env : Env) (source : string) :
  ROOT_IS_PURELIB env = Some false ->
  LIMITED_API_TARGET env = Some (PyTuple [3; 8]%Z) ->
  get_platform h (WHEEL_PATH env) = "linux_x86_64" ->
  PACKAGE_NAMEVER env = "sample-0.1" ->
  Tags.get_tag h env
  = Ok ("cp38-abi3-linux_x86_64", Tags.set_WHEEL_TAG env "cp38-abi3-linux_x86_64")
  /\ Tags.correct_wheel_tags h source env
     = Ok (source,
           PosixPath.join (fst (PosixPath.split source))
             "sample-0.1-cp38-abi3-linux_x86_64.whl",
           Tags.set_WHEEL_TAG env "cp38-abi3-linux_x86_64").
Proof.
  intros Hpure Htarget Hplat Hnamever.
  assert (Htag : Tags.get_tag h env
                 = Ok ("cp38-abi3-linux_x86_64",
                       Tags.set_WHEEL_TAG env "cp38-abi3-linux_x86_64")).
  { unfold Tags.get_tag. rewrite Hpure, Htarget, Hplat. reflexivity. }
  split; [exact Htag|].
  unfold Tags.correct_wheel_tags.
  destruct (PosixPath.split source) as [dir name]. rewrite Htag.
  cbn [bind Tags.set_WHEEL_TAG PACKAGE_NAMEVER fst]. rewrite Hnamever. reflexivity.
Qed.

Lemma abi3_wheel_renamed_witness :
  let h := mkHost [] (fun _ => "linux_x86_64") "cp" "311" "cp311" in
  let env := mkEnv true (Some false) (Some "cp311-cp311-linux_x86_64")
               (Some (PyTuple [3; 8]%Z)) "build/wheel"
               (Tags.init_wheel_namever (Tags.normalize_package "sample") "0.1") in
  Tags.correct_wheel_tags h "dist/sample-0.1.whl" env
  = Ok ("dist/sample-0.1.whl",
        "dist/sample-0.1-cp38-abi3-linux_x86_64.whl",
        Tags.set_WHEEL_TAG env "cp38-abi3-linux_x86_64").
Proof.
  intros h env.
  exact (proj2 (abi3_wheel_renamed h env "dist/sample-0.1.whl"
                  eq_refl eq_refl eq_refl eq_refl)).
Defined.

(* ================================================================== *)
(** * More on the identifier normaliser *)
(* ================================================================== *)

Section SubRunsShape.
Import PyStr.

Variable ok : ascii -> bool.
Variable rep : ascii.

(** What [re.sub] leaves is made of characters of the class and of the
    replacement character. *)
Lemma sub_runs_chars (b : bool) (s : string) :
  Charset.all_chars (fun c => ok c || Ascii.eqb c rep) (sub_runs ok rep b s) = true.
Proof.
  revert b. induction s as [|c s IH]; intros b; simpl; [reflexivity|].
  destruct (ok c) eqn:Hc; simpl.
  - now rewrite Hc, IH.
  - destruct b; [apply IH|]. simpl.
    now rewrite Ascii.eqb_refl, orb_true_r, IH.
Qed.

Lemma sub_runs_length (b : bool) (s : string) :
  String.length (sub_runs ok rep b s) <= String.length s.
Proof.
  revert b. induction s as [|c s IH]; intros b; simpl; [lia|].
  destruct (ok c); simpl; [specialize (IH false); lia|].
  destruct b; simpl; specialize (IH true); lia.
Qed.

Lemma sub_runs_empty (s : string) : sub_runs ok rep false s = "" -> s = "".
Proof. destruct s as [|c s]; simpl; [reflexivity|]. now destruct (ok c). Qed.

(** Mapping the replacement character to another character outside the
    class, and nothing else, is undone by substituting again. *)
Lemma sub_runs_undo (g : ascii -> ascii) (s : string) :
  ok rep = false -> ok (g rep) = false -> (forall c, ok c = true -> g c = c) ->
  (forall b, sub_runs ok rep false (map_chars g (sub_runs ok rep b s)) = sub_runs ok rep b s)
  /\ sub_runs ok rep true (map_chars g (sub_runs ok rep true s)) = sub_runs ok rep true s.
Proof.
  intros Hrep Hg Hid. induction s as [|c s [IHany IHrun]]; simpl; [split; auto|].
  destruct (ok c) eqn:Hc; simpl.
  - rewrite (Hid c Hc), Hc. split; [intros b|]; now rewrite (IHany false).
  - split; [|exact IHrun].
    intros []; [apply IHany|]. simpl. now rewrite Hg, IHrun.
Qed.

End SubRunsShape.

Lemma all_chars_weaken (p q : ascii -> bool) (s : string) :
  (forall c, p c = true -> q c = true) ->
  Charset.all_chars p s = true -> Charset.all_chars q s = true.
Proof.
  intros Hpq. induction s as [|c s IH]; simpl; [reflexivity|].
  intros H. apply andb_true_iff in H. destruct H as [Hc Hs].
  now rewrite (Hpq c Hc), IH.
Qed.

Lemma all_chars_map (p : ascii -> bool) (f : ascii -> ascii) (s : string) :
  Charset.all_chars p (PyStr.map_chars f s) = Charset.all_chars (fun c => p (f c)) s.
Proof. induction s as [|c s IH]; simpl; [reflexivity | now rewrite IH]. Qed.

(** Replacing a character by a one-character string is a map. *)
Lemma replace_char_map (old new : ascii) (s : string) :
  PyStr.replace_char old (String new "") s
  = PyStr.map_chars (fun c => if Ascii.eqb c old then new else c) s.
Proof.
  induction s as [|c s IH]; simpl; [reflexivity|].
  rewrite IH. now destruct (Ascii.eqb c old).
Qed.

(** X1.  [safe_name] gives a string of letters, digits, '.' and '-' that
    is not longer than its argument and is empty for the empty argument
    only. *)
Theorem safe_name_shape (name : string) :
  Charset.all_chars Charset.dist_name_char (Util.safe_name name) = true
  /\ String.length (Util.safe_name name) <= String.length name
  /\ (Util.safe_name name = "" <-> name = "").
Proof.
  unfold Util.safe_name, PyStr.re_sub_not_in. split; [|split].
  - apply sub_runs_chars.
  - apply sub_runs_length.
  - split; [apply sub_runs_empty | now intros ->].
Qed.

Lemma lowered_extra_char (c : ascii) :
  (Util.extra_char c || Ascii.eqb c "_") = true ->
  Charset.extra_name_char (PyStr.lower_char c) = true.
Proof. destruct c as [[] [] [] [] [] [] [] []]; intros H; solve [reflexivity | discriminate H]. Qed.

Lemma safe_extra_empty (extra : string) : Util.safe_extra extra = "" -> extra = "".
Proof.
  unfold Util.safe_extra, PyStr.re_sub_not_in, PyStr.lower. intros H.
  apply (sub_runs_empty Util.extra_char "_").
  destruct (PyStr.sub_runs Util.extra_char "_" false extra); [reflexivity | discriminate H].
Qed.

Lemma length_map_chars (f : ascii -> ascii) (s : string) :
  String.length (PyStr.map_chars f s) = String.length s.
Proof. induction s as [|c s IH]; simpl; [reflexivity | now rewrite IH]. Qed.

(** X2.  [safe_extra] gives a string of lower-case letters, digits, '.',
    '-' and '_' that is not longer than its argument and is empty for the
    empty argument only. *)
Theorem safe_extra_shape (extra : string) :
  Charset.all_chars Charset.extra_name_char (Util.safe_extra extra) = true
  /\ String.length (Util.safe_extra extra) <= String.length extra
  /\ (Util.safe_extra extra = "" <-> extra = "").
Proof.
  unfold Util.safe_extra, PyStr.re_sub_not_in, PyStr.lower. split; [|split].
  - rewrite all_chars_map.
    eapply all_chars_weaken; [|apply (sub_runs_chars Util.extra_char "_")].
    intros c H. now apply lowered_extra_char.
  - rewrite length_map_chars. apply sub_runs_length.
  - split; [apply safe_extra_empty | now intros ->].
Qed.

Lemma file_name_char_of_dist (c : ascii) :
  Charset.dist_name_char c = true ->
  Charset.file_name_char (if Ascii.eqb c "-" then "_"%char else c) = true
  /\ Ascii.eqb (if Ascii.eqb c "-" then "_"%char else c) "-" = false.
Proof. destruct c as [[] [] [] [] [] [] [] []]; intros H; solve [split; reflexivity | discriminate H]. Qed.

Lemma name_char_not_dash (c : ascii) :
  Util.name_char c = true -> (if Ascii.eqb c "-" then "_"%char else c) = c.
Proof. destruct c as [[] [] [] [] [] [] [] []]; intros H; solve [reflexivity | discriminate H]. Qed.

(** X3.  [normalize_package] gives a string of letters, digits, '.' and
    '_', so without any '-', and normalising a normalised name changes
    nothing. *)
Theorem normalize_package_shape (name : string) :
  Charset.all_chars Charset.file_name_char (Tags.normalize_package name) = true
  /\ PyStr.contains_char "-" (Tags.normalize_package name) = false
  /\ Tags.normalize_package (Tags.normalize_package name) = Tags.normalize_package name.
Proof.
  unfold Tags.normalize_package, Util.to_filename. rewrite !replace_char_map.
  pose proof (sub_runs_chars Util.name_char "-" false name) as Hchars.
  fold (PyStr.re_sub_not_in Util.name_char "-" name) in Hchars.
  fold (Util.safe_name name) in Hchars.
  split; [|split].
  - rewrite all_chars_map. eapply all_chars_weaken; [|exact Hchars].
    intros c H. now apply file_name_char_of_dist.
  - induction (Util.safe_name name) as [|c s IH]; [reflexivity|].
    simpl in Hchars |- *. apply andb_true_iff in Hchars. destruct Hchars as [Hc Hs].
    destruct (file_name_char_of_dist c Hc) as [_ ->]. now apply IH.
  - f_equal. unfold Util.safe_name at 1 3, PyStr.re_sub_not_in.
    apply (sub_runs_undo Util.name_char "-"
             (fun c => if Ascii.eqb c "-" then "_"%char else c) name
             eq_refl eq_refl name_char_not_dash).
Qed.

(* ================================================================== *)
(** * More on the requirement expander *)
(* ================================================================== *)

Lemma find_app {A : Type} (f : A -> bool) (a b : list A) :
  find f (a ++ b) = match find f a with Some x => Some x | None => find f b end.
Proof. induction a as [|x a IH]; simpl; [reflexivity|]. now destruct (f x). Qed.

Section ExpanderErrors.
Import PyStr Requirements.

Variable Requirement : string -> option requirement.
Variable str_Requirement : requirement -> string.

Local Abbreviation gen := (generate_requirements Requirement str_Requirement).
Local Abbreviation group := (group_records Requirement str_Requirement).
Local Abbreviation inner := (requires_dist Requirement str_Requirement).

Lemma requires_dist_outcome (condition : string) (depends : list string) :
  match find (Visit.invalid Requirement) depends with
  | Some d => inner condition depends = Raise (InvalidRequirement d)
  | None => exists recs, inner condition depends = Ok recs
  end.
Proof.
  induction depends as [|d depends IH]; simpl; [eauto|].
  unfold Visit.invalid at 1, convert.
  destruct (Requirement d) as [r|]; simpl; [|reflexivity].
  destruct (find (Visit.invalid Requirement) depends) as [bad|].
  - now rewrite IH.
  - destruct IH as [recs ->]. simpl. eauto.
Qed.

Lemma group_records_outcome (key : string) (depends : list string) :
  match find (Visit.invalid Requirement) depends with
  | Some d => group key depends = Raise (InvalidRequirement d)
  | None => exists recs, group key depends = Ok recs
  end.
Proof.
  unfold group_records. destruct (extra_and_condition key) as [extra condition].
  pose proof (requires_dist_outcome condition depends) as H.
  destruct (find (Visit.invalid Requirement) depends) as [bad|].
  - now rewrite H.
  - destruct H as [recs ->]. simpl. eauto.
Qed.

Lemma requires_dist_records_app (a b : list record) :
  Visit.requires_dist_records (a ++ b)
  = (Visit.requires_dist_records a ++ Visit.requires_dist_records b)%list.
Proof. unfold Visit.requires_dist_records. apply filter_app. Qed.

Lemma requires_dist_records_emitted (condition : string) (reqs : list requirement) :
  Visit.requires_dist_records (map (requires_dist_record str_Requirement condition) reqs)
  = map (requires_dist_record str_Requirement condition) reqs.
Proof. induction reqs as [|r reqs IH]; simpl; [reflexivity | now rewrite IH]. Qed.

Lemma generate_requirements_faithful (m : Dict.t (list string)) (recs : list record) :
  gen m = Ok recs ->
  Forall2
    (fun cd rec =>
       exists r, Requirement (snd cd) = Some r
                 /\ rec = requires_dist_record str_Requirement (fst cd) r)
    (Visit.conditioned m) (Visit.requires_dist_records recs).
Proof.
  revert recs. induction m as [|[key depends] m IH]; intros recs H.
  - inversion H. constructor.
  - simpl in H. bind_inv H. bind_inv H. inversion H; subst recs.
    rewrite requires_dist_records_app. cbn [Visit.conditioned flat_map].
    apply Forall2_app; [|now apply IH].
    destruct (group_records_inv _ _ _ _ _ E) as [reqs [Hreqs ->]].
    rewrite requires_dist_records_app, requires_dist_records_emitted.
    assert (Hpe : forall tail : list record,
               (Visit.requires_dist_records
                  (if truthy (normalized_extra key)
                   then [("Provides-Extra", normalized_extra key)] else []) ++ tail)%list
               = tail)
      by (now destruct (truthy (normalized_extra key))).
    rewrite Hpe. cbn [app fst snd]. clear -Hreqs.
    induction Hreqs as [|d r depends reqs Hd _ IH']; simpl; constructor; eauto.
Qed.

End ExpanderErrors.

(** X4.  [generate_requirements] raises exactly when some requirement
    string does not parse, and the [InvalidRequirement] it raises is for the
    first such string in the order the groups and their requirements are
    visited; otherwise it returns. *)
Theorem generate_requirements_first_invalid
    (Requirement : string -> option requirement)
    (str_Requirement : requirement -> string)
    (m : Dict.t (list string)) :
  match find (Visit.invalid Requirement) (Visit.requirements m) with
  | Some d =>
      Requirements.generate_requirements Requirement str_Requirement m
      = Raise (InvalidRequirement d)
  | None =>
      exists recs, Requirements.generate_requirements Requirement str_Requirement m = Ok recs
  end.
Proof.
  unfold Visit.requirements.
  induction m as [|[key depends] m IH]; simpl; [eauto|].
  rewrite find_app.
  pose proof (group_records_outcome Requirement str_Requirement key depends) as H.
  destruct (find (Visit.invalid Requirement) depends) as [bad|].
  - now rewrite H.
  - destruct H as [here ->]. simpl.
    destruct (find (Visit.invalid Requirement) (concat (map snd m))) as [bad|].
    + now rewrite IH.
    + destruct IH as [more ->]. simpl. eauto.
Qed.

(** X5.  When [generate_requirements] returns, its [Requires-Dist] records
    are, in the order of the mapping, one per requirement string: each
    renders the parse of its own string with the condition of its own
    group.  Nothing is dropped, repeated or reordered, and the number of all
    records is the number of requirement strings plus that of the
    [Provides-Extra] records. *)
Theorem generate_requirements_one_per_requirement
    (Requirement : string -> option requirement)
    (str_Requirement : requirement -> string)
    (m : Dict.t (list string)) (recs : list record) :
  Requirements.generate_requirements Requirement str_Requirement m = Ok recs ->
  Forall2
    (fun cd rec =>
       exists r, Requirement (snd cd) = Some r
                 /\ rec = Requirements.requires_dist_record str_Requirement (fst cd) r)
    (Visit.conditioned m) (Visit.requires_dist_records recs)
  /\ List.length (Visit.requires_dist_records recs) = List.length (Visit.requirements m)
  /\ List.length recs
     = List.length (Requirements.provided_extras recs) + List.length (Visit.requirements m).
Proof.
  intros H.
  pose proof (generate_requirements_faithful _ _ _ _ H) as Hall.
  assert (Hlen : List.length (Visit.conditioned m) = List.length (Visit.requirements m)).
  { unfold Visit.conditioned, Visit.requirements. clear.
    induction m as [|[key depends] m IH]; simpl; [reflexivity|].
    now rewrite !length_app, length_map, IH. }
  assert (Hrd : List.length (Visit.requires_dist_records recs)
                = List.length (Visit.requirements m)).
  { rewrite <- Hlen. symmetry. eapply Forall2_length. exact Hall. }
  split; [exact Hall|]. split; [exact Hrd|].
  rewrite <- Hrd. clear -H.
  revert recs H. induction m as [|[key depends] m IH]; intros recs H.
  - inversion H. reflexivity.
  - simpl in H. bind_inv H. bind_inv H. inversion H; subst recs.
    rewrite length_app, provided_extras_app, requires_dist_records_app, !length_app.
    rewrite (IH _ E0).
    destruct (group_records_inv _ _ _ _ _ E) as [reqs [_ ->]].
    rewrite provided_extras_app, requires_dist_records_app, !length_app.
    rewrite provided_extras_emitted, requires_dist_records_emitted.
    destruct (PyStr.truthy (Requirements.normalized_extra key)); simpl;
      rewrite !length_map; lia.
Qed.

Lemma generate_requirements_one_per_requirement_witness :
  List.length
    (Visit.requires_dist_records
       [("Provides-Extra", "test");
        ("Requires-Dist", "pytest; extra == 'test'");
        ("Requires-Dist", "six")])
  = List.length (Visit.requirements [("test", ["pytest"]); ("", ["six"])]).
Proof.
  exact (proj1 (proj2 (generate_requirements_one_per_requirement
                         Packaging.sample Packaging.str_Requirement
                         [("test", ["pytest"]); ("", ["six"])] _ eq_refl))).
Defined.

Lemma split_first_colon (s : string) :
  PyStr.contains_char ":" s = true -> fst (PyStr.split_first ":" s) = "" ->
  exists rest, s = String ":" rest.
Proof.
  destruct s as [|c s]; simpl; [discriminate|].
  destruct (Ascii.eqb_spec c ":") as [-> | _]; [eauto|].
  destruct (PyStr.split_first ":" s). discriminate.
Qed.

(** X6.  The groups without a [Provides-Extra] record are those of the key
    "" and of the keys that begin with ':'.  The requirements of the key ""
    are emitted as parsed, and those of a key ":<condition>" with the
    condition as it stands, without parentheses and without an [extra]
    clause. *)
Theorem base_group_records
    (Requirement : string -> option requirement)
    (str_Requirement : requirement -> string)
    (depends : list string) (reqs : list requirement) :
  Forall2 (fun d r => Requirement d = Some r) depends reqs ->
  Requirements.group_records Requirement str_Requirement "" depends
  = Ok (map (fun r => ("Requires-Dist", str_Requirement r)) reqs)
  /\ (forall condition,
        Requirements.group_records Requirement str_Requirement (String ":" condition) depends
        = Ok (map (Requirements.requires_dist_record str_Requirement condition) reqs))
  /\ (forall key,
        Requirements.normalized_extra key = "" <->
        key = "" \/ exists condition, key = String ":" condition).
Proof.
  intros Hreqs. split; [|split].
  - rewrite group_records_base.
    now rewrite (requires_dist_parsed _ str_Requirement "" _ _ Hreqs).
  - intros condition. unfold Requirements.group_records, Requirements.extra_and_condition.
    unfold Requirements.split_key. cbn.
    now rewrite (requires_dist_parsed _ str_Requirement condition _ _ Hreqs).
  - intros key. unfold Requirements.normalized_extra. split.
    + intros H. apply safe_extra_empty in H.
      unfold Requirements.split_key in H.
      destruct (PyStr.contains_char ":" key) eqn:Hc; [|now left].
      right. destruct (split_first_colon key Hc H) as [rest ->]. eauto.
    + intros [-> | [condition ->]]; reflexivity.
Qed.

Lemma base_group_records_witness :
  Requirements.group_records Packaging.windows Packaging.str_Requirement
    ":python_version < '3'" ["colorama"]
  = Ok [("Requires-Dist", "colorama; python_version < '3'")].
Proof.
  apply (proj1 (proj2 (base_group_records Packaging.windows Packaging.str_Requirement
                         ["colorama"] [Packaging.bare "colorama"]
                         ltac:(repeat constructor)))).
Defined.

(* ================================================================== *)
(** * Sorted output *)
(* ================================================================== *)

Lemma ascii_compare_refl (a : ascii) : Ascii.compare a a = Eq.
Proof. unfold Ascii.compare. apply N.compare_refl. Qed.

Lemma ascii_compare_lt_trans (a b c : ascii) :
  Ascii.compare a b = Lt -> Ascii.compare b c = Lt -> Ascii.compare a c = Lt.
Proof. unfold Ascii.compare. rewrite !N.compare_lt_iff. lia. Qed.

Lemma string_compare_refl (s : string) : String.compare s s = Eq.
Proof. induction s as [|c s IH]; simpl; [reflexivity|]. now rewrite ascii_compare_refl. Qed.

Lemma string_compare_lt_trans (a b c : string) :
  String.compare a b = Lt -> String.compare b c = Lt -> String.compare a c = Lt.
Proof.
  revert b c. induction a as [|x a IH]; intros [|y b] [|z c]; simpl;
    try discriminate; try reflexivity.
  destruct (Ascii.compare x y) eqn:Exy; destruct (Ascii.compare y z) eqn:Eyz;
    try discriminate.
  - apply Ascii.compare_eq_iff in Exy, Eyz. subst. rewrite ascii_compare_refl. apply IH.
  - apply Ascii.compare_eq_iff in Exy. subst. now rewrite Eyz.
  - apply Ascii.compare_eq_iff in Eyz. subst. now rewrite Exy.
  - now rewrite (ascii_compare_lt_trans x y z Exy Eyz).
Qed.

Lemma string_leb_refl (s : string) : String.leb s s = true.
Proof. unfold String.leb. now rewrite string_compare_refl. Qed.

Lemma string_leb_trans (a b c : string) :
  String.leb a b = true -> String.leb b c = true -> String.leb a c = true.
Proof.
  unfold String.leb.
  destruct (String.compare a b) eqn:Eab; [|intros _|discriminate].
  - apply String.compare_eq_iff in Eab. now subst.
  - destruct (String.compare b c) eqn:Ebc; [|intros _|discriminate].
    + apply String.compare_eq_iff in Ebc. subst. now rewrite Eab.
    + now rewrite (string_compare_lt_trans a b c Eab Ebc).
Qed.

Section SortedItems.

Context {V : Type}.
Implicit Types (d : Dict.t V) (kv : string * V).

Lemma insert_sorted_sorted kv (l : list (string * V)) :
  StronglySorted Layout.key_le l -> StronglySorted Layout.key_le (Dict.insert_sorted kv l).
Proof.
  induction 1 as [|kv' l Hsorted IH Hall]; simpl; [repeat constructor|].
  destruct (String.leb (fst kv) (fst kv')) eqn:E.
  - constructor; [now constructor|].
    constructor; [exact E|].
    eapply Forall_impl; [|exact Hall].
    intros z Hz. unfold Layout.key_le in *. now apply string_leb_trans with (fst kv').
  - constructor; [exact IH|].
    eapply Permutation_Forall; [apply insert_sorted_perm|].
    constructor; [|exact Hall].
    unfold Layout.key_le. destruct (String.leb_total (fst kv) (fst kv')); congruence.
Qed.

(** The items come out in ascending order of their keys. *)
Lemma sorted_items_sorted d : StronglySorted Layout.key_le (Dict.sorted_items d).
Proof.
  unfold Dict.sorted_items. induction d as [|kv d IH]; simpl; [constructor|].
  now apply insert_sorted_sorted.
Qed.

Lemma key_determines (l : list (string * V)) (x y : string * V) :
  NoDup (map fst l) -> In x l -> In y l -> fst x = fst y -> x = y.
Proof.
  induction l as [|z l IH]; simpl; [contradiction|].
  intros Hnd Hx Hy Hkey. inversion Hnd as [|? ? Hnotin Hnd']; subst.
  destruct Hx as [-> | Hx], Hy as [-> | Hy].
  - reflexivity.
  - exfalso. apply Hnotin. rewrite Hkey. now apply in_map.
  - exfalso. apply Hnotin. rewrite <- Hkey. now apply in_map.
  - now apply IH.
Qed.

(** Two ascending lists with the same items, no key twice, are the same
    list. *)
Lemma sorted_unique (l1 l2 : list (string * V)) :
  StronglySorted Layout.key_le l1 -> StronglySorted Layout.key_le l2 ->
  Permutation l1 l2 -> NoDup (map fst l1) -> l1 = l2.
Proof.
  intros H1. revert l2. induction H1 as [|x l1 Hs1 IH Hall1]; intros l2 H2 Hperm Hnd.
  - now apply Permutation_nil in Hperm.
  - destruct H2 as [|y l2 Hs2 Hall2]; [now apply Permutation_sym, Permutation_nil in Hperm|].
    assert (Hxy : x = y).
    { assert (Hy : In y (x :: l1))
        by (eapply Permutation_in; [apply Permutation_sym, Hperm | now left]).
      assert (Hx : In x (y :: l2)) by (eapply Permutation_in; [exact Hperm | now left]).
      apply (key_determines (x :: l1)); [exact Hnd | now left | exact Hy |].
      apply String.leb_antisym.
      - destruct Hy as [<- | Hy]; [apply string_leb_refl|].
        rewrite Forall_forall in Hall1. now apply Hall1.
      - destruct Hx as [<- | Hx]; [apply string_leb_refl|].
        rewrite Forall_forall in Hall2. now apply Hall2. }
    subst y. f_equal. apply IH; [exact Hs2 | | now inversion Hnd].
    now apply Permutation_cons_inv in Hperm.
Qed.

(** [sorted] does not see the insertion order. *)
Lemma sorted_items_perm_eq d1 d2 :
  Dict.wf d1 -> Permutation d1 d2 -> Dict.sorted_items d1 = Dict.sorted_items d2.
Proof.
  intros Hwf Hperm. apply sorted_unique.
  - apply sorted_items_sorted.
  - apply sorted_items_sorted.
  - eapply perm_trans; [apply Permutation_sym, sorted_items_perm|].
    eapply perm_trans; [exact Hperm | apply sorted_items_perm].
  - eapply Permutation_NoDup; [apply Permutation_map, sorted_items_perm | exact Hwf].
Qed.

Lemma get_absent k d : Dict.get k d = None -> ~ In k (Dict.keys d).
Proof.
  induction d as [|[k' v'] d IH]; simpl; [tauto|].
  destruct (String.eqb_spec k k') as [-> | Hne]; [discriminate|].
  intros H [Heq | Hin]; [congruence | now apply IH].
Qed.

Lemma keys_remove k d : forall k', In k' (Dict.keys (Dict.remove k d)) -> k' <> k.
Proof.
  induction d as [|[k0 v0] d IH]; simpl; [contradiction|].
  intros k'. destruct (String.eqb_spec k k0) as [-> | Hne]; [apply IH|].
  simpl. intros [<- | Hin]; [congruence | now apply IH].
Qed.

End SortedItems.

(** X7.  requires.txt and entry_points.txt do not depend on the order in
    which the groups were inserted into their mappings, nor does a section
    of entry_points.txt depend on the order of the entries of its table. *)
Theorem sorted_files_ignore_insertion_order (m1 m2 : Metadata) :
  (Permutation (Builders.full_requires m1) (Builders.full_requires m2) ->
   Builders.requires_txt_builder m1 = Builders.requires_txt_builder m2)
  /\ (Permutation (Builders.collect_entry_points m1) (Builders.collect_entry_points m2) ->
      Builders.entry_points_builder m1 = Builders.entry_points_builder m2)
  /\ (forall group t1 t2,
        Dict.wf t1 -> Permutation t1 t2 ->
        Builders.entry_points_section (group, EPTable t1)
        = Builders.entry_points_section (group, EPTable t2)).
Proof.
  split; [|split].
  - intros H. unfold Builders.requires_txt_builder.
    now rewrite (sorted_items_perm_eq _ _ (wf_full_requires m1) H).
  - intros H. unfold Builders.entry_points_builder.
    now rewrite (sorted_items_perm_eq _ _ (wf_collect_entry_points m1) H).
  - intros group t1 t2 Hwf H. unfold Builders.entry_points_section.
    now rewrite (sorted_items_perm_eq _ _ Hwf H).
Qed.

Lemma sorted_files_ignore_insertion_order_witness :
  Builders.requires_txt_builder
    (mkMetadata (Some [("test", ["pytest"]); ("", ["six"]); ("doc", ["sphinx"])])
       None None None None None None)
  = Builders.requires_txt_builder
      (mkMetadata (Some [("doc", ["sphinx"]); ("test", ["pytest"])])
         None (Some ["six"]) None None None None).
Proof.
  apply (proj1 (sorted_files_ignore_insertion_order
                  (mkMetadata (Some [("test", ["pytest"]); ("", ["six"]); ("doc", ["sphinx"])])
                     None None None None None None)
                  (mkMetadata (Some [("doc", ["sphinx"]); ("test", ["pytest"])])
                     None (Some ["six"]) None None None None))).
  cbn. apply Permutation_sym.
  apply (Permutation_cons_app [("test", ["pytest"]); ("", ["six"])] []).
  apply Permutation_refl.
Defined.

Lemma sorted_items_base_split {V : Type} (d : Dict.t V) :
  Dict.wf d ->
  Dict.sorted_items d
  = (match Dict.get "" d with Some v => [("", v)] | None => [] end
     ++ Dict.sorted_items (Dict.remove "" d))%list.
Proof.
  intros Hwf. destruct (Dict.get "" d) as [v|] eqn:E.
  - now rewrite (sorted_items_base v d Hwf E).
  - now rewrite (remove_absent _ _ (get_absent _ _ E)).
Qed.

Lemma requires_txt_named (item : string * list string) :
  fst item <> "" -> Builders.requires_txt_group item = Layout.named_section item.
Proof.
  destruct item as [[|c group] deps]; [intros H; now elim H|]. intros _.
  unfold Builders.requires_txt_group, Layout.named_section, Layout.requirement_lines.
  cbn [PyStr.truthy fst snd]. now rewrite !append_assoc.
Qed.

(** X8.  requires.txt begins with the requirements of the group of the
    empty name, one per line and outside any section; every other group
    follows as a section of its own ("[name]" after an empty line), the
    sections in ascending order of their names. *)
Theorem requires_txt_layout (metadata : Metadata) :
  exists named : list (string * list string),
    named = Dict.sorted_items (Dict.remove "" (Builders.full_requires metadata))
    /\ Forall (fun item => fst item <> "") named
    /\ StronglySorted Layout.key_le named
    /\ Builders.requires_txt_builder metadata
       = Layout.base_lines (Builders.full_requires metadata)
         ++ String.concat "" (map Layout.named_section named).
Proof.
  set (full := Builders.full_requires metadata).
  exists (Dict.sorted_items (Dict.remove "" full)).
  assert (Hnamed : Forall (fun item : string * list string => fst item <> "")
                     (Dict.sorted_items (Dict.remove "" full))).
  { apply Forall_forall. intros item Hin.
    apply (keys_remove "" full). unfold Dict.keys. apply in_map.
    eapply Permutation_in; [apply Permutation_sym, sorted_items_perm | exact Hin]. }
  split; [reflexivity|]. split; [exact Hnamed|]. split; [apply sorted_items_sorted|].
  unfold Builders.requires_txt_builder. fold full.
  rewrite (sorted_items_base_split full (wf_full_requires metadata)).
  rewrite map_app, concat_app. f_equal.
  - unfold Layout.base_lines. destruct (Dict.get "" full); [|reflexivity].
    reflexivity.
  - f_equal. apply map_ext_in. intros item Hin.
    apply requires_txt_named. rewrite Forall_forall in Hnamed. now apply Hnamed.
Qed.

(* ================================================================== *)
(** * More on the wheel manifest *)
(* ================================================================== *)

(** A name of the archive can be read, and what is read is a member of
    that name. *)
Lemma read_listed (archive : ZipFile) (name : string) :
  In name (Zip.namelist archive) ->
  exists data, Zip.read archive name = Ok data /\ In (name, data) archive.
Proof.
  intros Hin. unfold Zip.read.
  destruct (find (fun m => String.eqb (fst m) name) (rev archive)) as [[n d]|] eqn:E.
  - apply find_some in E. destruct E as [Hm Hn]. simpl in Hn.
    apply String.eqb_eq in Hn. subst n. exists d. split; [reflexivity|].
    now apply in_rev.
  - exfalso. unfold Zip.namelist in Hin. apply in_map_iff in Hin.
    destruct Hin as [[n d] [Hn Hm]]. simpl in Hn. subst n.
    assert (Hf : String.eqb (fst (name, d)) name = false)
      by (apply (find_none _ _ E (name, d)); now apply in_rev in Hm).
    simpl in Hf. rewrite String.eqb_refl in Hf. discriminate Hf.
Qed.

Lemma content_lines_cons
    (sha256 : list byte -> list byte) (archive : ZipFile) (f : string) (rest : list string) :
  Manifest.content_lines sha256 archive (f :: rest)
  = bind (Zip.read archive f)
      (fun data =>
         bind (Manifest.content_lines sha256 archive rest)
           (fun more => Ok (Manifest.record_line sha256 f data :: more))).
Proof. reflexivity. Qed.

Lemma content_lines_listed
    (sha256 : list byte -> list byte) (archive : ZipFile) (names : list string) :
  incl names (Zip.namelist archive) ->
  exists lines,
    Manifest.content_lines sha256 archive names = Ok lines
    /\ List.length lines = List.length names
    /\ forall i name, nth_error names i = Some name ->
         exists data, Zip.read archive name = Ok data
                      /\ In (name, data) archive
                      /\ nth_error lines i = Some (Manifest.record_line sha256 name data).
Proof.
  induction names as [|f names IH]; intros Hincl.
  - exists []. split; [reflexivity|]. split; [reflexivity|]. now intros [|i].
  - destruct (read_listed archive f) as [data [Hread Hin]]; [apply Hincl; now left|].
    destruct IH as [lines [Hlines [Hlen Hnth]]]; [intros x Hx; apply Hincl; now right|].
    exists (Manifest.record_line sha256 f data :: lines).
    rewrite content_lines_cons, Hread, Hlines. split; [reflexivity|].
    split; [simpl; now rewrite Hlen|].
    intros [|i] name Hname; simpl in Hname.
    + inversion Hname; subst name. now exists data.
    + now apply Hnth.
Qed.

(** X9.  [add_manifest] reads no name but those [archive.namelist()]
    gives, so no read is refused for a missing name, also when names are
    repeated.  On an archive whose members read back (for a damaged or an
    encrypted member [archive.read] raises), it leaves the members as they
    are and appends RECORD, which has one line per member, in the order of
    the directory, and the line of RECORD itself; the line of a member
    gives the hash and the size of what [archive.read] returns for its
    name, which is a member of that name. *)
Theorem add_manifest_lists_every_member
    (sha256 : list byte -> list byte) (archive : ZipFile) (dist_info_path : string) :
  (forall name, In name (Zip.namelist archive) ->
     exists data, Zip.read archive name = Ok data /\ In (name, data) archive)
  /\ exists lines,
       Manifest.manifest_lines sha256 archive (dist_info_path ++ "/RECORD")
       = Ok (lines ++ [(dist_info_path ++ "/RECORD" ++ ",,")%string])%list
       /\ List.length lines = List.length archive
       /\ Manifest.add_manifest sha256 archive dist_info_path
          = Ok (archive
                ++ [((dist_info_path ++ "/RECORD")%string,
                     list_byte_of_string
                       (PyStr.join (String "010" "")
                          (lines ++ [(dist_info_path ++ "/RECORD" ++ ",,")%string])))])%list
       /\ forall i name data,
            nth_error archive i = Some (name, data) ->
            exists read, Zip.read archive name = Ok read
                         /\ In (name, read) archive
                         /\ nth_error lines i = Some (Manifest.record_line sha256 name read).
Proof.
  split; [intros name Hin; now apply read_listed|].
  destruct (content_lines_listed sha256 archive (Zip.namelist archive) (incl_refl _))
    as [lines [Hlines [Hlen Hnth]]].
  exists lines.
  assert (Hm : Manifest.manifest_lines sha256 archive (dist_info_path ++ "/RECORD")
               = Ok (lines ++ [(dist_info_path ++ "/RECORD" ++ ",,")%string])%list).
  { unfold Manifest.manifest_lines. rewrite Hlines. cbn [bind].
    now rewrite append_assoc. }
  split; [exact Hm|].
  split; [rewrite Hlen; unfold Zip.namelist; apply length_map|].
  split; [unfold Manifest.add_manifest; now rewrite Hm|].
  intros i name data Hi. apply Hnth.
  unfold Zip.namelist. now rewrite nth_error_map, Hi.
Qed.

Lemma find_skip {A : Type} (f : A -> bool) (skipped rest : list A) :
  (forall x, In x skipped -> f x = false) -> find f (skipped ++ rest) = find f rest.
Proof.
  intros H. induction skipped as [|x skipped IH]; simpl; [reflexivity|].
  rewrite (H x) by now left. apply IH. intros y Hy. apply H. now right.
Qed.

(** The member read under a name is the last one of that name. *)
Lemma read_last (before after : ZipFile) (name : string) (data : list byte) :
  ~ In name (Zip.namelist after) ->
  Zip.read (before ++ (name, data) :: after)%list name = Ok data.
Proof.
  intros Hnotin. unfold Zip.read.
  rewrite rev_app_distr. simpl. rewrite <- app_assoc. simpl.
  rewrite find_skip; [simpl; now rewrite String.eqb_refl|].
  intros [n d] Hin. simpl. destruct (String.eqb_spec n name) as [-> | _]; [|reflexivity].
  exfalso. apply Hnotin. apply in_rev in Hin. unfold Zip.namelist.
  apply in_map_iff. now exists (name, d).
Qed.

(** X10.  When two members of the archive have the same name, the line of
    the earlier one does not describe it: it carries the hash and the size
    of the last member of that name. *)
Theorem duplicate_names_record_last
    (sha256 : list byte -> list byte)
    (a b c : ZipFile) (name : string) (first last : list byte) (record_path : string)
    (lines : list string) :
  ~ In name (Zip.namelist c) ->
  Manifest.manifest_lines sha256 (a ++ (name, first) :: b ++ (name, last) :: c)%list
    record_path = Ok lines ->
  nth_error lines (List.length a) = Some (Manifest.record_line sha256 name last).
Proof.
  intros Hnotin Hlines. set (archive := (a ++ (name, first) :: b ++ (name, last) :: c)%list) in *.
  unfold Manifest.manifest_lines in Hlines. bind_inv Hlines. inversion Hlines; subst lines.
  destruct (content_lines_listed sha256 archive (Zip.namelist archive) (incl_refl _))
    as [lines' [Hlines' [Hlen Hnth]]].
  rewrite Hlines' in E. inversion E; subst x.
  destruct (Hnth (List.length a) name) as [data [Hread [_ Hline]]].
  { unfold archive, Zip.namelist. rewrite map_app, nth_error_app2; rewrite length_map; [|lia].
    now rewrite Nat.sub_diag. }
  assert (Hlast : Zip.read archive name = Ok last).
  { unfold archive.
    change (a ++ (name, first) :: b ++ (name, last) :: c)%list
      with (a ++ ((name, first) :: b) ++ (name, last) :: c)%list.
    rewrite app_assoc. now apply read_last. }
  rewrite Hlast in Hread. inversion Hread; subst data.
  rewrite nth_error_app1; [exact Hline|].
  rewrite Hlen. unfold archive, Zip.namelist. rewrite length_map, length_app. simpl. lia.
Qed.

Lemma duplicate_names_record_last_witness :
  nth_error
    ["a.py,sha256=ungWv48Bz-pBQUDeXa4iI7ADYaOWF3qctBD_YfIAFa0,3";
     "a.py,sha256=ungWv48Bz-pBQUDeXa4iI7ADYaOWF3qctBD_YfIAFa0,3";
     "d/RECORD,,"] 0
  = Some (Manifest.record_line SHA256.sha256 "a.py" (list_byte_of_string "abc")).
Proof.
  apply (duplicate_names_record_last SHA256.sha256 [] [] [] "a.py"
           [] (list_byte_of_string "abc") "d/RECORD").
  - simpl. tauto.
  - vm_compute. reflexivity.
Defined.

Lemma add_editable_appends (project_files : list (string * list byte)) (archive : ZipFile) :
  Editable.add_editable project_files archive = (archive ++ project_files)%list.
Proof.
  unfold Editable.add_editable. revert archive.
  induction project_files as [|[name data] files IH]; intros archive; simpl.
  - now rewrite app_nil_r.
  - rewrite IH. unfold Zip.writestr. now rewrite <- app_assoc.
Qed.

(** X11.  In an editable wheel the stub modules are in RECORD: after
    [add_editable] and then [add_manifest], with no name twice, RECORD has
    the lines of the members that were there, then those of the stubs in
    the order [project.files()] gave them, then its own line. *)
Theorem editable_stubs_recorded
    (sha256 : list byte -> list byte)
    (project_files : list (string * list byte)) (archive : ZipFile)
    (dist_info_path : string) :
  NoDup (Zip.namelist (archive ++ project_files)%list) ->
  Manifest.add_manifest sha256 (Editable.add_editable project_files archive) dist_info_path
  = Ok (archive ++ project_files
        ++ [((dist_info_path ++ "/RECORD")%string,
             list_byte_of_string
               (PyStr.join (String "010" "")
                  (map (fun m => Manifest.record_line sha256 (fst m) (snd m)) archive
                   ++ map (fun m => Manifest.record_line sha256 (fst m) (snd m)) project_files
                   ++ [(dist_info_path ++ "/RECORD" ++ ",,")%string])))])%list.
Proof.
  intros Hnd. rewrite add_editable_appends.
  unfold Manifest.add_manifest, Manifest.manifest_lines.
  rewrite (content_lines_members sha256 _ _ Hnd (incl_refl _)).
  cbn [bind]. unfold Zip.writestr.
  now rewrite map_app, <- !app_assoc, append_assoc.
Qed.

Lemma editable_stubs_recorded_witness :
  Manifest.add_manifest SHA256.sha256
    (Editable.add_editable [("sample.pth", list_byte_of_string "abc")]
       [("sample-0.1.dist-info/METADATA", [])])
    "sample-0.1.dist-info"
  = Ok [("sample-0.1.dist-info/METADATA", []);
        ("sample.pth", list_byte_of_string "abc");
        ("sample-0.1.dist-info/RECORD",
         list_byte_of_string
           ("sample-0.1.dist-info/METADATA,sha256=47DEQpj8HBSa-_TImW-5JCeuQeRkm5NMpJWZG3hSuFU,0"
            ++ String "010" ""
            ++ "sample.pth,sha256=ungWv48Bz-pBQUDeXa4iI7ADYaOWF3qctBD_YfIAFa0,3"
            ++ String "010" ""
            ++ "sample-0.1.dist-info/RECORD,,"))].
Proof.
  refine (eq_trans (editable_stubs_recorded SHA256.sha256
                      [("sample.pth", list_byte_of_string "abc")]
                      [("sample-0.1.dist-info/METADATA", [])]
                      "sample-0.1.dist-info" _) _).
  - repeat constructor; simpl; intuition discriminate.
  - vm_compute. reflexivity.
Defined.

(* ================================================================== *)
(** * The hash column *)
(* ================================================================== *)

Lemma list_ind3 {A : Type} (P : list A -> Prop) :
  P [] -> (forall a, P [a]) -> (forall a b, P [a; b]) ->
  (forall a b c l, P l -> P (a :: b :: c :: l)) ->
  forall l, P l.
Proof.
  intros H0 H1 H2 H3.
  assert (H : forall l, P l /\ (forall a, P (a :: l)) /\ (forall a b, P (a :: b :: l))).
  { induction l as [|x l [IH0 [IH1 IH2]]]; [repeat split; auto|].
    split; [apply IH1|]. split; [intros a; apply IH2|]. intros a b. now apply H3. }
  intros l. apply H.
Qed.

Lemma digit_mod (n : N) : Base64.digit n = Base64.digit (n mod 64).
Proof. unfold Base64.digit. now rewrite N.Div0.mod_mod. Qed.

Lemma digit_table (k : nat) :
  k < 64 ->
  B64.b64_char (Base64.digit (N.of_nat k)) = true
  /\ B64.value (Base64.digit (N.of_nat k)) = N.of_nat k.
Proof.
  intros Hk.
  assert (Hall : forallb
                   (fun i => B64.b64_char (Base64.digit (N.of_nat i))
                             && N.eqb (B64.value (Base64.digit (N.of_nat i))) (N.of_nat i))
                   (seq 0 64) = true) by (vm_compute; reflexivity).
  rewrite forallb_forall in Hall. specialize (Hall k).
  rewrite in_seq in Hall. destruct (andb_prop _ _ (Hall ltac:(lia))) as [H1 H2].
  split; [exact H1 | now apply N.eqb_eq].
Qed.

Lemma digit_b64 (n : N) : B64.b64_char (Base64.digit n) = true.
Proof.
  rewrite digit_mod. rewrite <- (N2Nat.id (n mod 64)).
  apply digit_table. pose proof (N.mod_upper_bound n 64). lia.
Qed.

Lemma value_digit (n : N) : B64.value (Base64.digit n) = (n mod 64)%N.
Proof.
  rewrite digit_mod. rewrite <- (N2Nat.id (n mod 64)) at 1.
  rewrite (proj2 (digit_table (N.to_nat (n mod 64))
                    ltac:(pose proof (N.mod_upper_bound n 64); lia))).
  apply N2Nat.id.
Qed.

Lemma b64_char_not_pad (c : ascii) : B64.b64_char c = true -> Ascii.eqb c "=" = false.
Proof. destruct c as [[] [] [] [] [] [] [] []]; intros H; solve [reflexivity | discriminate H]. Qed.

Lemma b64_char_plain (c : ascii) :
  B64.b64_char c = true ->
  Ascii.eqb c "," = false /\ Ascii.eqb c "010" = false /\ Ascii.eqb c "=" = false
  /\ Ascii.eqb c "+" = false /\ Ascii.eqb c "/" = false.
Proof.
  destruct c as [[] [] [] [] [] [] [] []]; intros H;
    solve [repeat split; reflexivity | discriminate H].
Qed.

Lemma rstrip_cons_ne (c a : ascii) (s : string) :
  Ascii.eqb a c = false ->
  PyStr.rstrip_char c (String a s) = String a (PyStr.rstrip_char c s).
Proof. intros H. simpl. destruct (PyStr.rstrip_char c s); now rewrite ?H. Qed.

Lemma rstrip_digit (n : N) (s : string) :
  PyStr.rstrip_char "=" (String (Base64.digit n) s)
  = String (Base64.digit n) (PyStr.rstrip_char "=" s).
Proof. apply rstrip_cons_ne, b64_char_not_pad, digit_b64. Qed.

Lemma urlsafe_one (a : byte) :
  Manifest.urlsafe_b64encode [a]
  = String (Base64.digit (Byte.to_N a * 65536 / 262144))
      (String (Base64.digit (Byte.to_N a * 65536 / 4096)) "").
Proof. unfold Manifest.urlsafe_b64encode. cbn [Base64.b64encode]. now rewrite !rstrip_digit. Qed.

Lemma urlsafe_two (a b : byte) :
  Manifest.urlsafe_b64encode [a; b]
  = String (Base64.digit ((Byte.to_N a * 65536 + Byte.to_N b * 256) / 262144))
      (String (Base64.digit ((Byte.to_N a * 65536 + Byte.to_N b * 256) / 4096))
         (String (Base64.digit ((Byte.to_N a * 65536 + Byte.to_N b * 256) / 64)) "")).
Proof. unfold Manifest.urlsafe_b64encode. cbn [Base64.b64encode]. now rewrite !rstrip_digit. Qed.

Lemma urlsafe_three (a b c : byte) (l : list byte) :
  Manifest.urlsafe_b64encode (a :: b :: c :: l)
  = String (Base64.digit (B64.group24 a b c / 262144))
      (String (Base64.digit (B64.group24 a b c / 4096))
         (String (Base64.digit (B64.group24 a b c / 64))
            (String (Base64.digit (B64.group24 a b c))
               (Manifest.urlsafe_b64encode l)))).
Proof. unfold Manifest.urlsafe_b64encode. cbn [Base64.b64encode]. now rewrite !rstrip_digit. Qed.

(** X12.  The unpadded encoding of [n] bytes has [(4n + 2) / 3]
    characters (43 for a SHA-256 digest), all of them letters, digits, '-'
    or '_': no '=', and nothing that would end a field or a line of
    RECORD. *)
Theorem urlsafe_b64encode_shape (data : list byte) :
  String.length (Manifest.urlsafe_b64encode data) = (4 * List.length data + 2) / 3
  /\ Charset.all_chars B64.b64_char (Manifest.urlsafe_b64encode data) = true
  /\ PyStr.contains_char "=" (Manifest.urlsafe_b64encode data) = false
  /\ PyStr.contains_char "," (Manifest.urlsafe_b64encode data) = false
  /\ PyStr.contains_char "010" (Manifest.urlsafe_b64encode data) = false.
Proof.
  assert (Hlen : String.length (Manifest.urlsafe_b64encode data)
                 = (4 * List.length data + 2) / 3).
  { induction data as [| a | a b | a b c l IH] using list_ind3.
    - reflexivity.
    - now rewrite urlsafe_one.
    - now rewrite urlsafe_two.
    - rewrite urlsafe_three. cbn [String.length List.length]. rewrite IH.
      replace (4 * S (S (S (List.length l))) + 2) with (4 * List.length l + 2 + 4 * 3) by lia.
      rewrite Nat.div_add by lia. lia. }
  assert (Hchars : Charset.all_chars B64.b64_char (Manifest.urlsafe_b64encode data) = true).
  { clear Hlen. induction data as [| a | a b | a b c l IH] using list_ind3.
    - reflexivity.
    - rewrite urlsafe_one. cbn [Charset.all_chars]. now rewrite !digit_b64.
    - rewrite urlsafe_two. cbn [Charset.all_chars]. now rewrite !digit_b64.
    - rewrite urlsafe_three. cbn [Charset.all_chars]. now rewrite !digit_b64, IH. }
  split; [exact Hlen|]. split; [exact Hchars|].
  assert (Hno : forall sep, (forall c, B64.b64_char c = true -> Ascii.eqb c sep = false) ->
                  PyStr.contains_char sep (Manifest.urlsafe_b64encode data) = false).
  { clear Hlen. intros sep Hsep.
    induction (Manifest.urlsafe_b64encode data) as [|c s IH]; [reflexivity|].
    cbn [Charset.all_chars] in Hchars. apply andb_true_iff in Hchars.
    destruct Hchars as [Hc Hs]. cbn [PyStr.contains_char].
    now rewrite (Hsep c Hc), IH. }
  repeat split; apply Hno; intros c Hc; apply (b64_char_plain c Hc).
Qed.

Lemma digit_eq (n m : N) : Base64.digit n = Base64.digit m -> (n mod 64 = m mod 64)%N.
Proof. intros H. rewrite <- !value_digit. now rewrite H. Qed.

Lemma sextets_determine (n m : N) :
  (n < 16777216)%N -> (m < 16777216)%N ->
  ((n / 262144) mod 64 = (m / 262144) mod 64)%N ->
  ((n / 4096) mod 64 = (m / 4096) mod 64)%N ->
  ((n / 64) mod 64 = (m / 64) mod 64)%N ->
  (n mod 64 = m mod 64)%N ->
  n = m.
Proof.
  intros Hn Hm H1 H2 H3 H4.
  assert (D : forall x : N,
             (x = 64 * (64 * (64 * (x / 262144) + (x / 4096) mod 64) + (x / 64) mod 64)
                  + x mod 64)%N).
  { intros x.
    assert (E2 : (x / 4096 = x / 64 / 64)%N) by (now rewrite N.Div0.div_div).
    assert (E3 : (x / 262144 = x / 64 / 64 / 64)%N) by (now rewrite !N.Div0.div_div).
    rewrite E3, E2.
    rewrite <- (N.div_mod (x / 64 / 64) 64) by discriminate.
    rewrite <- (N.div_mod (x / 64) 64) by discriminate.
    apply N.div_mod. discriminate. }
  assert (Q : forall x : N, (x < 16777216)%N -> ((x / 262144) mod 64 = x / 262144)%N).
  { intros x Hx. apply N.mod_small. apply N.Div0.div_lt_upper_bound. exact Hx. }
  rewrite (Q n Hn), (Q m Hm) in H1.
  rewrite (D n), (D m). now rewrite H1, H2, H3, H4.
Qed.

Lemma to_N_inj (a b : byte) : Byte.to_N a = Byte.to_N b -> a = b.
Proof.
  intros H. pose proof (Byte.of_to_N a) as Ea.
  rewrite H, Byte.of_to_N in Ea. now inversion Ea.
Qed.

(** A multiple of 64 has no low sextet. *)
Lemma low_sextet (k : N) : ((k * 64) mod 64 = 0)%N.
Proof. apply N.Div0.mod_mul. Qed.

Lemma sextets_one (a a' : byte) :
  Base64.digit (Byte.to_N a * 65536 / 262144) = Base64.digit (Byte.to_N a' * 65536 / 262144) ->
  Base64.digit (Byte.to_N a * 65536 / 4096) = Base64.digit (Byte.to_N a' * 65536 / 4096) ->
  a = a'.
Proof.
  intros H1 H2. apply digit_eq in H1, H2.
  pose proof (Byte.to_N_bounded a) as Ba. pose proof (Byte.to_N_bounded a') as Ba'.
  assert (L : forall x : N, ((x * 65536 / 64) mod 64 = 0 /\ (x * 65536) mod 64 = 0)%N).
  { intros x. split.
    - replace (x * 65536)%N with (x * 16 * 64 * 64)%N by lia.
      rewrite N.div_mul by discriminate. apply low_sextet.
    - replace (x * 65536)%N with (x * 1024 * 64)%N by lia. apply low_sextet. }
  assert (E : (Byte.to_N a * 65536 = Byte.to_N a' * 65536)%N).
  { apply sextets_determine; try lia; try assumption.
    - now rewrite (proj1 (L _)), (proj1 (L _)).
    - now rewrite (proj2 (L _)), (proj2 (L _)). }
  apply to_N_inj. lia.
Qed.

Lemma sextets_two (a b a' b' : byte) :
  Base64.digit ((Byte.to_N a * 65536 + Byte.to_N b * 256) / 262144)
  = Base64.digit ((Byte.to_N a' * 65536 + Byte.to_N b' * 256) / 262144) ->
  Base64.digit ((Byte.to_N a * 65536 + Byte.to_N b * 256) / 4096)
  = Base64.digit ((Byte.to_N a' * 65536 + Byte.to_N b' * 256) / 4096) ->
  Base64.digit ((Byte.to_N a * 65536 + Byte.to_N b * 256) / 64)
  = Base64.digit ((Byte.to_N a' * 65536 + Byte.to_N b' * 256) / 64) ->
  a = a' /\ b = b'.
Proof.
  intros H1 H2 H3. apply digit_eq in H1, H2, H3.
  pose proof (Byte.to_N_bounded a) as Ba. pose proof (Byte.to_N_bounded a') as Ba'.
  pose proof (Byte.to_N_bounded b) as Bb. pose proof (Byte.to_N_bounded b') as Bb'.
  assert (L : forall x y : N, ((x * 65536 + y * 256) mod 64 = 0)%N).
  { intros x y. replace (x * 65536 + y * 256)%N with ((x * 1024 + y * 4) * 64)%N by lia.
    apply low_sextet. }
  assert (E : (Byte.to_N a * 65536 + Byte.to_N b * 256
               = Byte.to_N a' * 65536 + Byte.to_N b' * 256)%N).
  { apply sextets_determine; try lia; try assumption. now rewrite !L. }
  split; apply to_N_inj; lia.
Qed.

Lemma sextets_three (a b c a' b' c' : byte) :
  Base64.digit (B64.group24 a b c / 262144) = Base64.digit (B64.group24 a' b' c' / 262144) ->
  Base64.digit (B64.group24 a b c / 4096) = Base64.digit (B64.group24 a' b' c' / 4096) ->
  Base64.digit (B64.group24 a b c / 64) = Base64.digit (B64.group24 a' b' c' / 64) ->
  Base64.digit (B64.group24 a b c) = Base64.digit (B64.group24 a' b' c') ->
  a = a' /\ b = b' /\ c = c'.
Proof.
  intros H1 H2 H3 H4. apply digit_eq in H1, H2, H3, H4.
  pose proof (Byte.to_N_bounded a) as Ba. pose proof (Byte.to_N_bounded a') as Ba'.
  pose proof (Byte.to_N_bounded b) as Bb. pose proof (Byte.to_N_bounded b') as Bb'.
  pose proof (Byte.to_N_bounded c) as Bc. pose proof (Byte.to_N_bounded c') as Bc'.
  assert (E : B64.group24 a b c = B64.group24 a' b' c').
  { apply sextets_determine; try assumption; unfold B64.group24; lia. }
  unfold B64.group24 in E. repeat split; apply to_N_inj; lia.
Qed.

(** X13.  The unpadded encoding loses nothing: different byte strings have
    different encodings, so that the hash column of RECORD determines the
    digest. *)
Theorem urlsafe_b64encode_injective (x y : list byte) :
  Manifest.urlsafe_b64encode x = Manifest.urlsafe_b64encode y -> x = y.
Proof.
  revert y. induction x as [| a | a b | a b c l IH] using list_ind3;
    intros [|a' [|b' [|c' l']]] H;
    rewrite ?urlsafe_one, ?urlsafe_two, ?urlsafe_three in H;
    try reflexivity; try discriminate H.
  - injection H as H1 H2. now rewrite (sextets_one a a' H1 H2).
  - injection H as H1 H2 H3.
    destruct (sextets_two a b a' b' H1 H2 H3) as [-> ->]. reflexivity.
  - injection H as H1 H2 H3 H4 H5.
    destruct (sextets_three a b c a' b' c' H1 H2 H3 H4) as [-> [-> ->]].
    now rewrite (IH l' H5).
Qed.

Lemma urlsafe_b64encode_injective_witness :
  SHA256.sha256 (list_byte_of_string "abc") = SHA256.sha256 (list_byte_of_string "abc").
Proof.
  apply (urlsafe_b64encode_injective
           (SHA256.sha256 (list_byte_of_string "abc"))
           (SHA256.sha256 (list_byte_of_string "abc"))).
  reflexivity.
Defined.

(* ================================================================== *)
(** * More on the compatibility tag *)
(* ================================================================== *)

Example wheelmeta_ex :
  Wheel.wheelmeta_builder (mkHost [] (fun _ => "linux_x86_64") "cp" "311" "cp311")
    (mkEnv true (Some true) (Some "py2.py3-none-any") None "build/wheel" "sample-0.1")
  = Ok ("Wheel-Version: 1.0" ++ String "010" ""
        ++ "Generator: enscons (0.0.1)" ++ String "010" ""
        ++ "Root-Is-Purelib: true" ++ String "010" ""
        ++ "Tag: py3-none-any" ++ String "010" "",
        mkEnv true (Some true) (Some "py3-none-any") None "build/wheel" "sample-0.1").
Proof. reflexivity. Qed.

Lemma set_WHEEL_TAG_twice (env : Env) (t tag : string) :
  Tags.set_WHEEL_TAG (Tags.set_WHEEL_TAG env t) tag = Tags.set_WHEEL_TAG env tag.
Proof. reflexivity. Qed.

(** [get_tag] reads no [WHEEL_TAG]. *)
Lemma get_tag_preset (h : Host) (env : Env) (t : string) :
  Tags.get_tag h (Tags.set_WHEEL_TAG env t) = Tags.get_tag h env.
Proof.
  unfold Tags.get_tag. cbn [ROOT_IS_PURELIB LIMITED_API_TARGET WHEEL_PATH Tags.set_WHEEL_TAG].
  destruct (Tags.getitem "ROOT_IS_PURELIB" (ROOT_IS_PURELIB env)) as [purelib|e];
    [|reflexivity].
  cbn [bind]. destruct (negb purelib); [|reflexivity].
  destruct (LIMITED_API_TARGET env) as [target|]; [|reflexivity].
  destruct (Tags.abi3_impl target); reflexivity.
Qed.

Lemma get_tag_env (h : Host) (env : Env) (tag : string) (env' : Env) :
  Tags.get_tag h env = Ok (tag, env') -> env' = Tags.set_WHEEL_TAG env tag.
Proof. unfold Tags.get_tag. intros H. bind_inv H. bind_inv H. now inversion H. Qed.

(** X14.  [get_tag] does not look at [WHEEL_TAG]: a preset tag changes
    neither the tag it returns nor the environment it leaves, and run again
    on the environment it left it returns the same tag and changes
    nothing.  Of the environment it changes [WHEEL_TAG] alone. *)
Theorem get_tag_overrides_wheel_tag (h : Host) (env : Env) (tag : string) (env' : Env) :
  Tags.get_tag h env = Ok (tag, env') ->
  (forall preset, Tags.get_tag h (Tags.set_WHEEL_TAG env preset) = Ok (tag, env'))
  /\ Tags.get_tag h env' = Ok (tag, env')
  /\ env' = Tags.set_WHEEL_TAG env tag.
Proof.
  intros H. pose proof (get_tag_env h env tag env' H) as Henv.
  split; [intros preset; now rewrite get_tag_preset|].
  split; [|exact Henv].
  rewrite Henv at 1. rewrite get_tag_preset. exact H.
Qed.

Lemma get_tag_overrides_wheel_tag_witness :
  let h := mkHost [] (fun _ => "linux_x86_64") "cp" "311" "cp311" in
  let env := mkEnv true (Some false) (Some "py3-none-any") None "build/wheel" "sample-0.1" in
  Tags.get_tag h (Tags.set_WHEEL_TAG env "cp311-cp311-linux_x86_64")
  = Ok ("cp311-cp311-linux_x86_64", Tags.set_WHEEL_TAG env "cp311-cp311-linux_x86_64").
Proof.
  intros h env.
  exact (proj1 (proj2 (get_tag_overrides_wheel_tag h env "cp311-cp311-linux_x86_64"
                         (Tags.set_WHEEL_TAG env "cp311-cp311-linux_x86_64") eq_refl))).
Defined.

(** X15.  The WHEEL file and the file name of the wheel agree: after
    [wheelmeta_builder] has written a tag, [correct_wheel_tags] renames the
    wheel to the name made of [PACKAGE_NAMEVER] and of that same tag, and
    leaves the environment as it is. *)
Theorem wheel_file_and_name_agree
    (h : Host) (env : Env) (content : string) (env1 : Env) (source : string) :
  Wheel.wheelmeta_builder h env = Ok (content, env1) ->
  exists (purelib : bool) (tag : string),
    ROOT_IS_PURELIB env = Some purelib
    /\ WHEEL_TAG env1 = Some tag
    /\ content
       = "Wheel-Version: 1.0" ++ String "010" ""
         ++ "Generator: enscons (0.0.1)" ++ String "010" ""
         ++ "Root-Is-Purelib: " ++ Wheel.str_lower_bool purelib ++ String "010" ""
         ++ "Tag: " ++ tag ++ String "010" ""
    /\ Tags.correct_wheel_tags h source env1
       = Ok (source,
             PosixPath.join (fst (PosixPath.split source))
               (PyStr.join "-" [PACKAGE_NAMEVER env; tag] ++ ".whl"),
             env1).
Proof.
  unfold Wheel.wheelmeta_builder. intros H. bind_inv H. bind_inv H.
  destruct x0 as [tag env']. inversion H; subst content env1. clear H.
  destruct (ROOT_IS_PURELIB env) as [purelib|] eqn:Hp; [|discriminate E].
  inversion E; subst x.
  pose proof (get_tag_env h env tag env' E0) as Henv.
  exists purelib, tag. split; [reflexivity|]. split; [now subst env'|].
  split; [reflexivity|].
  unfold Tags.correct_wheel_tags. destruct (PosixPath.split source) as [dir name].
  assert (Hagain : Tags.get_tag h env' = Ok (tag, env')).
  { rewrite Henv at 1. rewrite get_tag_preset. exact E0. }
  rewrite Hagain. cbn [bind fst]. now subst env'.
Qed.

Lemma wheel_file_and_name_agree_witness :
  let h := mkHost [] (fun _ => "linux_x86_64") "cp" "311" "cp311" in
  let env := mkEnv true (Some false) (Some "py3-none-any") (Some (PyTuple [3; 8]%Z))
               "build/wheel" "sample-0.1" in
  exists (purelib : bool) (tag : string),
    ROOT_IS_PURELIB env = Some purelib
    /\ WHEEL_TAG (Tags.set_WHEEL_TAG env "cp38-abi3-linux_x86_64") = Some tag
    /\ "Wheel-Version: 1.0" ++ String "010" ""
       ++ "Generator: enscons (0.0.1)" ++ String "010" ""
       ++ "Root-Is-Purelib: false" ++ String "010" ""
       ++ "Tag: cp38-abi3-linux_x86_64" ++ String "010" ""
       = "Wheel-Version: 1.0" ++ String "010" ""
         ++ "Generator: enscons (0.0.1)" ++ String "010" ""
         ++ "Root-Is-Purelib: " ++ Wheel.str_lower_bool purelib ++ String "010" ""
         ++ "Tag: " ++ tag ++ String "010" ""
    /\ Tags.correct_wheel_tags h "dist/sample-0.1.whl"
         (Tags.set_WHEEL_TAG env "cp38-abi3-linux_x86_64")
       = Ok ("dist/sample-0.1.whl",
             PosixPath.join (fst (PosixPath.split "dist/sample-0.1.whl"))
               (PyStr.join "-" [PACKAGE_NAMEVER env; tag] ++ ".whl"),
             Tags.set_WHEEL_TAG env "cp38-abi3-linux_x86_64").
Proof.
  intros h env.
  apply (wheel_file_and_name_agree h env _ _ "dist/sample-0.1.whl"). reflexivity.
Defined.

Lemma abi3_impl_raises (target : pyobj) :
  (exists e, Tags.abi3_impl target = Raise e) <-> Tags.unsupported_target target.
Proof.
  destruct target as [n | s | items | [|major [|minor [|third items]]]];
    cbn [Tags.abi3_impl Tags.unsupported_target];
    try (split; [intros _; exact I | intros _; eexists; reflexivity]).
  destruct (Z.eqb_spec major 3) as [-> | Hmajor]; cbn [negb orb].
  - destruct (Z.ltb_spec minor 2) as [Hminor | Hminor].
    + split; [intros _; now right | intros _; eexists; reflexivity].
    + split; [intros [e He]; discriminate He | intros [H | H]; [congruence | lia]].
  - split; [intros _; now left | intros _; eexists; reflexivity].
Qed.

(** X16.  In an environment that holds [WHEEL_PATH], with the [wheel]
    package at hand and a limited-API target that is no pair or a pair of
    integers, [get_tag] raises in two cases only: [ROOT_IS_PURELIB] is not
    set, which gives [KeyError], or the build is not purelib and its
    limited-API target is unsupported.  A purelib build gets
    "py3-none-any" without a look at the target, the path or the
    interpreter, and a platform build without a target gets the tag of the
    interpreter. *)
Theorem get_tag_raises_iff (h : Host) (env : Env) :
  ((exists e, Tags.get_tag h env = Raise e) <-> Wheel.get_tag_fails env)
  /\ (ROOT_IS_PURELIB env = None ->
      Tags.get_tag h env = Raise (KeyError "ROOT_IS_PURELIB"))
  /\ (ROOT_IS_PURELIB env = Some true ->
      Tags.get_tag h env = Ok ("py3-none-any", Tags.set_WHEEL_TAG env "py3-none-any"))
  /\ (ROOT_IS_PURELIB env = Some false -> LIMITED_API_TARGET env = None ->
      let tag :=
        PyStr.join "-" [interpreter_name h ++ interpreter_version h;
                        PyStr.lower (get_abi_tag h);
                        get_platform h (WHEEL_PATH env)] in
      Tags.get_tag h env = Ok (tag, Tags.set_WHEEL_TAG env tag)).
Proof.
  split; [|split; [|split]];
    try (unfold Tags.get_tag; intros ->; try intros ->; reflexivity).
  unfold Tags.get_tag, Wheel.get_tag_fails.
  destruct (ROOT_IS_PURELIB env) as [[|]|]; cbn [Tags.getitem bind negb].
  - split; [intros [e He]; discriminate He|].
    intros [H | [H _]]; discriminate H.
  - destruct (LIMITED_API_TARGET env) as [target|]; cbn [bind].
    + pose proof (abi3_impl_raises target) as Himpl.
      destruct (Tags.abi3_impl target) as [impl|e]; cbn [bind].
      * split; [intros [e He]; discriminate He|].
        intros [H | [_ [t [Ht Hu]]]]; [discriminate H|].
        inversion Ht; subst t. apply Himpl in Hu. destruct Hu as [e He]. discriminate He.
      * split; [|intros _; eexists; reflexivity].
        intros _. right. split; [reflexivity|]. exists target. split; [reflexivity|].
        apply Himpl. eexists; reflexivity.
    + split; [intros [e He]; discriminate He|].
      intros [H | [_ [t [Ht _]]]]; discriminate.
  - split; [intros _; now left | intros _; eexists; reflexivity].
Qed.

(** X17.  [enscons_defaults] works once: run again on the environment it
    left it changes nothing.  It never replaces a preset
    [ROOT_IS_PURELIB] or [WHEEL_TAG], and it leaves the target, the wheel
    path and the name alone. *)
Theorem enscons_defaults_once (h : Host) (env env1 : Env) :
  Tags.enscons_defaults h env = Ok env1 ->
  Tags.enscons_defaults h env1 = Ok env1
  /\ (forall b, ROOT_IS_PURELIB env = Some b -> ROOT_IS_PURELIB env1 = Some b)
  /\ (forall t, WHEEL_TAG env = Some t -> WHEEL_TAG env1 = Some t)
  /\ LIMITED_API_TARGET env1 = LIMITED_API_TARGET env
  /\ WHEEL_PATH env1 = WHEEL_PATH env
  /\ PACKAGE_NAMEVER env1 = PACKAGE_NAMEVER env.
Proof.
  destruct env as [once rip tag target path namever].
  unfold Tags.enscons_defaults at 1. cbn.
  destruct once.
  { intros H; inversion H; subst env1. cbn. repeat split; auto. }
  destruct rip as [b|], tag as [t|]; cbn; try discriminate.
  - intros H; inversion H; subst env1. cbn. repeat split; auto.
  - destruct (Tags.get_binary_tag h) as [t|e]; cbn; [|discriminate].
    intros H; inversion H; subst env1. cbn. repeat split; auto. discriminate.
  - intros H; inversion H; subst env1. cbn. repeat split; auto. discriminate.
Qed.

Lemma enscons_defaults_once_witness :
  let h := mkHost [] (fun _ => "linux_x86_64") "cp" "311" "cp311" in
  let env := mkEnv false None (Some "py2.py3-none-any") None "build/wheel" "sample-0.1" in
  Tags.enscons_defaults h (mkEnv true (Some true) (Some "py2.py3-none-any") None
                             "build/wheel" "sample-0.1")
  = Ok (mkEnv true (Some true) (Some "py2.py3-none-any") None "build/wheel" "sample-0.1").
Proof.
  intros h env.
  exact (proj1 (enscons_defaults_once h env _ eq_refl)).
Defined.

Lemma get_binary_tag_raises (h : Host) :
  (exists e, Tags.get_binary_tag h = Raise e)
  <-> Forall (fun tag => Wheel.usable tag = false) (sys_tags h).
Proof.
  unfold Tags.get_binary_tag. fold Wheel.usable.
  change (fun tag : Tag => negb (PyStr.contains "manylinux" (tag_platform tag)))
    with Wheel.usable.
  destruct (find Wheel.usable (sys_tags h)) as [tag|] eqn:E.
  - split; [intros [e He]; discriminate He|].
    intros Hall. apply find_some in E. destruct E as [Hin Hu].
    rewrite Forall_forall in Hall. rewrite (Hall tag Hin) in Hu. discriminate Hu.
  - split; [|intros _; eexists; reflexivity].
    intros _. apply Forall_forall. intros tag Hin. exact (find_none _ _ E tag Hin).
Qed.

(** X18.  On its first run [enscons_defaults] raises [KeyError] for
    [WHEEL_TAG] when neither [ROOT_IS_PURELIB] nor [WHEEL_TAG] is preset,
    whatever the interpreter offers: the binary tag that is the default of
    [WHEEL_TAG] is not reached, as the default of [ROOT_IS_PURELIB] asks
    for [WHEEL_TAG] first.  With [ROOT_IS_PURELIB] preset and no
    [WHEEL_TAG] it raises when the interpreter has none but manylinux
    tags.  Both happen before the function reads anything else.  On a
    later run it returns at once.  When the defaults of the two keys are
    through, both keys are set, and a [WHEEL_TAG] that was not preset is
    the binary tag, [ROOT_IS_PURELIB] having been preset. *)
Theorem enscons_defaults_missing_tag (h : Host) (env : Env) :
  (_ENSCONS_DEFAULTS env = false -> ROOT_IS_PURELIB env = None -> WHEEL_TAG env = None ->
   Tags.enscons_defaults h env = Raise (KeyError "WHEEL_TAG"))
  /\ (_ENSCONS_DEFAULTS env = false -> ROOT_IS_PURELIB env <> None -> WHEEL_TAG env = None ->
      Forall (fun tag => Wheel.usable tag = false) (sys_tags h) ->
      Tags.enscons_defaults h env = Raise (Exception "StopIteration"))
  /\ (_ENSCONS_DEFAULTS env = true -> Tags.enscons_defaults h env = Ok env)
  /\ (forall env1, _ENSCONS_DEFAULTS env = false ->
        Tags.enscons_defaults h env = Ok env1 ->
        _ENSCONS_DEFAULTS env1 = true
        /\ (exists b, ROOT_IS_PURELIB env1 = Some b)
        /\ (exists t, WHEEL_TAG env1 = Some t)
        /\ (WHEEL_TAG env = None ->
            ROOT_IS_PURELIB env1 = ROOT_IS_PURELIB env
            /\ exists t, Tags.get_binary_tag h = Ok t /\ WHEEL_TAG env1 = Some t)).
Proof.
  pose proof (get_binary_tag_raises h) as Hbin.
  destruct env as [once rip tag target path namever].
  unfold Tags.enscons_defaults. cbn.
  split; [intros -> -> ->; reflexivity|].
  split.
  { intros -> Hrip -> Hall. destruct rip as [b|]; [|congruence]. cbn.
    apply Hbin in Hall. destruct Hall as [e He].
    unfold Tags.get_binary_tag in He |- *.
    destruct (find _ (sys_tags h)); [discriminate He | reflexivity]. }
  split; [intros ->; reflexivity|].
  intros env1 ->.
  destruct rip as [b|], tag as [t|]; cbn; try discriminate.
  - intros H; inversion H; cbn.
    split; [reflexivity|]. split; [eauto|]. split; [eauto|]. discriminate.
  - destruct (Tags.get_binary_tag h) as [t|e]; cbn; [|discriminate].
    intros H; inversion H; cbn.
    split; [reflexivity|]. split; [eauto|]. split; [eauto|]. eauto.
  - intros H; inversion H; cbn.
    split; [reflexivity|]. split; [eauto|]. split; [eauto|]. discriminate.
Qed.

Lemma enscons_defaults_missing_tag_witness :
  Tags.enscons_defaults
    (mkHost [mkTag "cp311" "cp311" "linux_x86_64"] (fun _ => "linux_x86_64") "cp" "311" "cp311")
    (mkEnv false None None None "build/wheel" "sample-0.1")
  = Raise (KeyError "WHEEL_TAG")
  /\ Tags.enscons_defaults
       (mkHost [mkTag "cp311" "cp311" "manylinux_2_17_x86_64"] (fun _ => "linux_x86_64")
          "cp" "311" "cp311")
       (mkEnv false (Some false) None None "build/wheel" "sample-0.1")
     = Raise (Exception "StopIteration").
Proof.
  split.
  - apply (proj1 (enscons_defaults_missing_tag _ _)); reflexivity.
  - apply (proj1 (proj2 (enscons_defaults_missing_tag _ _)));
      [reflexivity | discriminate | reflexivity | repeat constructor].
Defined.

(** X19.  [get_abi3_tag] fails exactly when [get_binary_tag] does, that
    is when the interpreter has none but manylinux tags.  The tag it
    returns is one of the interpreter's, never a manylinux one, and it is an
    abi3 tag unless no usable abi3 tag exists. *)
Theorem get_abi3_tag_usable (h : Host) :
  ((exists e, Wheel.get_abi3_tag h = Raise e) <-> (exists e, Tags.get_binary_tag h = Raise e))
  /\ ((exists e, Wheel.get_abi3_tag h = Raise e) <->
      Forall (fun tag => Wheel.usable tag = false) (sys_tags h))
  /\ (forall text, Wheel.get_abi3_tag h = Ok text ->
        exists tag, In tag (sys_tags h) /\ text = Tags.str_Tag tag
                    /\ Wheel.usable tag = true
                    /\ (PyStr.contains "abi3" (tag_abi tag) = true
                        \/ Forall (fun t => PyStr.contains "abi3" (tag_abi t) && Wheel.usable t
                                            = false) (sys_tags h))).
Proof.
  pose proof (get_binary_tag_raises h) as Hbin.
  unfold Wheel.get_abi3_tag.
  destruct (find (fun tag => PyStr.contains "abi3" (tag_abi tag) && Wheel.usable tag)
              (sys_tags h)) as [tag|] eqn:E.
  - apply find_some in E. destruct E as [Hin Hab]. apply andb_true_iff in Hab.
    destruct Hab as [Habi Hus].
    assert (Hno : ~ Forall (fun tag => Wheel.usable tag = false) (sys_tags h)).
    { intros Hall. rewrite Forall_forall in Hall. rewrite (Hall tag Hin) in Hus.
      discriminate Hus. }
    split; [|split].
    + split; [intros [e He]; discriminate He | intros H; now apply Hbin in H].
    + split; [intros [e He]; discriminate He | intros H; now elim Hno].
    + intros text H. inversion H. exists tag. auto.
  - split; [tauto|]. split; [exact Hbin|].
    intros text H. unfold Tags.get_binary_tag in H.
    destruct (find (fun tag => negb (PyStr.contains "manylinux" (tag_platform tag)))
                (sys_tags h)) as [tag|] eqn:E2; [|discriminate H].
    inversion H. apply find_some in E2. destruct E2 as [Hin Hu].
    exists tag. repeat split; auto. right.
    apply Forall_forall. intros t Ht. exact (find_none _ _ E t Ht).
Qed.

(* ================================================================== *)
(** * The METADATA file *)
(* ================================================================== *)

Example splitlines_ex :
  Meta.splitlines ("a" ++ String "010" "" ++ String "010" "" ++ "b" ++ String "013" ""
                   ++ String "010" "" ++ "c" ++ String "010" "")
  = ["a"; ""; "b"; "c"]
  /\ Meta.splitlines "" = []
  /\ Meta.splitlines (String "010" "") = [""].
Proof. repeat split; reflexivity. Qed.

Example write_header_ex :
  Meta._write_header "Summary" ("one" ++ String "010" "" ++ "two")
  = "Summary: one" ++ String "010" "" ++ "  two" ++ String "010" ""
  /\ Meta._write_header "Summary" "" = "Summary: " ++ String "010" "".
Proof. split; reflexivity. Qed.

Example metadata_builder_ex :
  Meta.metadata_builder Packaging.sample Packaging.str_Requirement (fun _ _ => None)
    (mkProject (Some "sample") (Some "0.1") (Some "A sample") None
       (Some (LicenseStr "MIT"))
       (Some [mkContact (Some "Ann") (Some "ann@example.org")]) (Some "ignored") None
       None (Some (KeywordsList ["a"; "b"])) (Some ["Topic :: X"]) None
       (Some [("Source", "https://example.org")]) None
       (mkMetadata None (Some [("test", ["pytest"])]) None (Some ["six"]) None None None)
       (Some (ReadmeTable None (Some "Hello") (Some "text/plain") None)) None)
  = Ok ("Metadata-Version: 2.1" ++ String "010" ""
        ++ "Name: sample" ++ String "010" ""
        ++ "Version: 0.1" ++ String "010" ""
        ++ "Summary: A sample" ++ String "010" ""
        ++ "License: MIT" ++ String "010" ""
        ++ "Author: Ann" ++ String "010" ""
        ++ "Author-email: ann@example.org" ++ String "010" ""
        ++ "Keywords: a,b" ++ String "010" ""
        ++ "Classifier: Topic :: X" ++ String "010" ""
        ++ "Project-URL: Source, https://example.org" ++ String "010" ""
        ++ "Provides-Extra: test" ++ String "010" ""
        ++ "Requires-Dist: pytest; extra == 'test'" ++ String "010" ""
        ++ "Requires-Dist: six" ++ String "010" ""
        ++ "Description-Content-Type: text/plain" ++ String "010" ""
        ++ String "010" "" ++ String "010" "" ++ "Hello").
Proof. vm_compute. reflexivity. Qed.

Lemma all_chars_app (p : ascii -> bool) (a b : string) :
  Charset.all_chars p (a ++ b) = Charset.all_chars p a && Charset.all_chars p b.
Proof. induction a as [|c a IH]; simpl; [reflexivity|]. now rewrite IH, andb_assoc. Qed.

Lemma truthy_app_char (a : string) (c : ascii) : PyStr.truthy (a ++ String c "") = true.
Proof. now destruct a. Qed.

(** Reading up to a line feed closes the line. *)
Lemma splitlines_line (acc l rest : string) :
  Lines.one_line l = true ->
  Meta.splitlines_from acc (l ++ String "010" rest)
  = (acc ++ l) :: Meta.splitlines_from "" rest.
Proof.
  revert acc. induction l as [|c l IH]; intros acc Hl.
  - rewrite append_empty_r. cbn. now destruct rest.
  - cbn [Lines.one_line Charset.all_chars] in Hl. apply andb_true_iff in Hl.
    destruct Hl as [Hc Hl]. cbn [append Meta.splitlines_from].
    apply negb_true_iff in Hc. rewrite Hc.
    rewrite (IH _ Hl). now rewrite append_assoc.
Qed.

(** A string without boundaries is its own single line. *)
Lemma splitlines_one_line (acc l : string) :
  Lines.one_line l = true ->
  Meta.splitlines_from acc l = if PyStr.truthy (acc ++ l) then [acc ++ l] else [].
Proof.
  revert acc. induction l as [|c l IH]; intros acc Hl.
  - now rewrite append_empty_r.
  - cbn [Lines.one_line Charset.all_chars] in Hl. apply andb_true_iff in Hl.
    destruct Hl as [Hc Hl]. cbn [Meta.splitlines_from].
    apply negb_true_iff in Hc. rewrite Hc.
    rewrite (IH _ Hl). now rewrite append_assoc.
Qed.

(** The lines [splitlines] gives have no boundary in them. *)
Lemma splitlines_from_one_line (n : nat) :
  forall s line, String.length s <= n -> Lines.one_line line = true ->
  Forall (fun l => Lines.one_line l = true) (Meta.splitlines_from line s).
Proof.
  induction n as [|n IH]; intros s line Hlen Hline.
  - destruct s; [|simpl in Hlen; lia]. cbn. destruct (PyStr.truthy line); repeat constructor.
    exact Hline.
  - destruct s as [|c s]; [cbn; destruct (PyStr.truthy line); repeat constructor; exact Hline|].
    simpl in Hlen. cbn [Meta.splitlines_from].
    destruct (Meta.is_break c) eqn:Hc.
    + constructor; [exact Hline|].
      destruct s as [|c' s']; [constructor|].
      destruct (Ascii.eqb c "013" && Ascii.eqb c' "010").
      * apply IH; [simpl in Hlen; lia | reflexivity].
      * apply IH; [lia | reflexivity].
    + apply IH; [lia|].
      unfold Lines.one_line in *. rewrite all_chars_app, Hline.
      cbn [Charset.all_chars andb]. now rewrite Hc.
Qed.

Lemma header_lines_one_line (value : string) :
  Forall (fun l => Lines.one_line l = true) (Meta.header_lines value).
Proof.
  unfold Meta.header_lines, Meta.splitlines.
  pose proof (splitlines_from_one_line (String.length value) value "" (le_n _) eq_refl) as H.
  destruct (Meta.splitlines_from "" value); [repeat constructor | exact H].
Qed.

Lemma splitlines_folded (lines : list string) :
  Forall (fun l => Lines.one_line l = true) lines ->
  Meta.splitlines
    (String.concat "" (map (fun line => "  " ++ line ++ String "010" "") lines))
  = map (fun line => "  " ++ line) lines.
Proof.
  unfold Meta.splitlines. induction 1 as [|l lines Hl _ IH]; [reflexivity|].
  cbn [map]. rewrite concat_cons.
  set (R := String.concat "" (map (fun line => "  " ++ line ++ String "010" "") lines)) in *.
  replace (("  " ++ l ++ String "010" "") ++ R) with (("  " ++ l) ++ String "010" R)
    by (now rewrite !append_assoc).
  rewrite splitlines_line; [now rewrite IH|].
  unfold Lines.one_line in *. rewrite all_chars_app, Hl. reflexivity.
Qed.

Lemma write_header_text (name first rest : string) :
  name ++ ": " ++ first ++ String "010" "" ++ rest
  = (name ++ ": " ++ first) ++ String "010" rest.
Proof. now rewrite !append_assoc. Qed.

(** X20.  [_write_header] folds its value: when the header name has no
    line boundary, the text written, read back line by line, is the name
    with the first line of the value and then every further line of the
    value behind two spaces.  No line of a value can pass for another
    header.  A value without line boundaries is written on one line as it
    is. *)
Theorem write_header_folds (name value : string) :
  Lines.one_line name = true ->
  Forall (fun l => Lines.one_line l = true) (Meta.header_lines value)
  /\ Meta.splitlines (Meta._write_header name value)
     = (name ++ ": " ++ hd "" (Meta.header_lines value))
       :: map (fun line => "  " ++ line) (tl (Meta.header_lines value))
  /\ (Lines.one_line value = true ->
      Meta._write_header name value = name ++ ": " ++ value ++ String "010" "").
Proof.
  intros Hname. pose proof (header_lines_one_line value) as Hlines.
  split; [exact Hlines|]. split.
  - assert (Hfirst : Lines.one_line (hd "" (Meta.header_lines value)) = true)
      by (destruct Hlines; [reflexivity | assumption]).
    assert (Hrest : Forall (fun l => Lines.one_line l = true) (tl (Meta.header_lines value)))
      by (destruct Hlines; [constructor | assumption]).
    unfold Meta._write_header. cbv zeta. rewrite write_header_text.
    unfold Meta.splitlines. rewrite splitlines_line.
    + f_equal. apply (splitlines_folded _ Hrest).
    + unfold Lines.one_line in *. now rewrite !all_chars_app, Hname, Hfirst.
  - intros Hvalue. unfold Meta._write_header, Meta.header_lines, Meta.splitlines.
    rewrite (splitlines_one_line "" value Hvalue). cbn [append].
    destruct value as [|c value]; reflexivity.
Qed.

Lemma write_header_folds_witness :
  Meta.splitlines (Meta._write_header "Summary"
                     ("one" ++ String "010" "" ++ "Name: forged"))
  = ["Summary: one"; "  Name: forged"].
Proof.
  exact (proj1 (proj2 (write_header_folds "Summary"
                         ("one" ++ String "010" "" ++ "Name: forged") eq_refl))).
Defined.

Lemma sequence_contacts (contacts : list contact) :
  if existsb Meta.anonymous contacts
  then Meta.sequence (map Meta.contact_text contacts) = Raise (KeyError "email")
  else exists texts, Meta.sequence (map Meta.contact_text contacts) = Ok texts.
Proof.
  induction contacts as [|[[name|] [email|]] contacts IH];
    cbn [existsb map Meta.sequence Meta.anonymous Meta.contact_text contact_name
         contact_email Tags.getitem bind orb];
    try reflexivity; eauto;
    destruct (existsb Meta.anonymous contacts);
    solve [now rewrite IH | destruct IH as [texts ->]; cbn [bind]; eauto].
Qed.

(** X21.  [_write_contacts] raises for one reason only: the list does not
    have exactly one contact and one of its contacts has neither a name nor
    an email; the error is [KeyError] for "email".  A single contact never
    fails, and one with neither key writes nothing.  An empty list writes
    the name header with an empty value.  When the list does not have
    exactly one contact and some contact has an email, the one header
    written is the email header, also for the contacts that only have a
    name. *)
Theorem write_contacts_errors (header_name header_email : string) (contacts : list contact) :
  (List.length contacts <> 1 -> existsb Meta.anonymous contacts = true ->
   Meta._write_contacts header_name header_email contacts = Raise (KeyError "email"))
  /\ ((List.length contacts = 1 \/ existsb Meta.anonymous contacts = false) ->
      exists text, Meta._write_contacts header_name header_email contacts = Ok text)
  /\ Meta._write_contacts header_name header_email [mkContact None None] = Ok ""
  /\ Meta._write_contacts header_name header_email []
     = Ok (header_name ++ ": " ++ String "010" "")
  /\ (List.length contacts <> 1 -> existsb Meta.has_email contacts = true ->
      forall text,
        Meta._write_contacts header_name header_email contacts = Ok text ->
        exists texts,
          Meta.sequence (map Meta.contact_text contacts) = Ok texts
          /\ text = Meta._write_header header_email (PyStr.join ", " texts)).
Proof.
  pose proof (sequence_contacts contacts) as Hseq.
  assert (Hmany : List.length contacts <> 1 ->
                  Meta._write_contacts header_name header_email contacts
                  = bind (Meta.sequence (map Meta.contact_text contacts))
                      (fun texts =>
                         Ok (Meta._write_header
                               (if existsb Meta.has_email contacts
                                then header_email else header_name)
                               (PyStr.join ", " texts)))).
  { intros Hlen. destruct contacts as [|c [|c' contacts]]; try reflexivity.
    now elim Hlen. }
  split; [|split; [|split; [|split]]].
  - intros Hlen Hanon. rewrite (Hmany Hlen). rewrite Hanon in Hseq. now rewrite Hseq.
  - intros [Hlen | Hanon].
    + destruct contacts as [|c [|c' contacts]]; try discriminate Hlen.
      cbn [Meta._write_contacts]. eauto.
    + rewrite Hanon in Hseq. destruct Hseq as [texts Htexts].
      destruct contacts as [|c [|c' contacts]].
      * cbn. eauto.
      * cbn [Meta._write_contacts]. eauto.
      * rewrite Hmany by (simpl; lia). rewrite Htexts. cbn [bind]. eauto.
  - reflexivity.
  - reflexivity.
  - intros Hlen Hemail text H. rewrite (Hmany Hlen), Hemail in H.
    destruct (Meta.sequence (map Meta.contact_text contacts)) as [texts|e];
      [|discriminate H].
    cbn [bind] in H. inversion H. now exists texts.
Qed.

Lemma write_contacts_errors_witness :
  Meta._write_contacts "Author" "Author-email"
    [mkContact (Some "Ann") None; mkContact None None]
  = Raise (KeyError "email").
Proof.
  apply (proj1 (write_contacts_errors "Author" "Author-email"
                  [mkContact (Some "Ann") None; mkContact None None])).
  - discriminate.
  - reflexivity.
Defined.

Lemma sequence_ok {A : Type} (l : list (result A)) (xs : list A) :
  Meta.sequence l = Ok xs -> Forall2 (fun m a => m = Ok a) l xs.
Proof.
  revert xs. induction l as [|m l IH]; intros xs H.
  - inversion H. constructor.
  - cbn [Meta.sequence] in H. bind_inv H. bind_inv H. inversion H; subst xs.
    constructor; [exact E | now apply IH].
Qed.

Lemma sequence_raise_in {A : Type} (l : list (result A)) (e : exn) :
  In (Raise e) l -> exists e', Meta.sequence l = Raise e'.
Proof.
  induction l as [|m l IH]; simpl; [contradiction|].
  destruct m as [a|e0]; cbn [bind]; [|eauto].
  intros [Heq | Hin]; [discriminate Heq|].
  destruct (IH Hin) as [e' ->]. cbn [bind]. eauto.
Qed.

(** X22.  [metadata_builder] needs a name and a version: without "name" it
    raises [KeyError] for it, with a name and without "version" [KeyError]
    for that, whatever else the metadata holds; and a METADATA it returns
    begins with the version of the format, the name and the version, in
    this order. *)
Theorem metadata_builder_required_keys
    (Requirement : string -> option requirement)
    (str_Requirement : requirement -> string)
    (read : string -> string -> option string)
    (metadata : Project) :
  (md_name metadata = None -> Meta.metadata_builder Requirement str_Requirement read metadata = Raise (KeyError "name"))
  /\ (forall name, md_name metadata = Some name -> md_version metadata = None ->
        Meta.metadata_builder Requirement str_Requirement read metadata = Raise (KeyError "version"))
  /\ (forall text, Meta.metadata_builder Requirement str_Requirement read metadata = Ok text ->
        exists name version rest,
          md_name metadata = Some name /\ md_version metadata = Some version
          /\ text = "Metadata-Version: 2.1" ++ String "010" ""
                    ++ "Name: " ++ name ++ String "010" ""
                    ++ "Version: " ++ version ++ String "010" "" ++ rest).
Proof.
  split; [|split].
  - intros Hname. unfold Meta.metadata_builder. cbn [Meta.sequence bind].
    now rewrite Hname.
  - intros name Hname Hversion. unfold Meta.metadata_builder. cbn [Meta.sequence bind].
    now rewrite Hname, Hversion.
  - intros text H. unfold Meta.metadata_builder in H. bind_inv H.
    inversion H; subst text. clear H.
    apply sequence_ok in E.
    inversion E as [|m1 a1 l1 x1 H1 E1]; subst. clear E.
    inversion E1 as [|m2 a2 l2 x2 H2 E2]; subst. clear E1.
    inversion E2 as [|m3 a3 l3 x3 H3 E3]; subst. clear E2 E3.
    destruct (md_name metadata) as [name|]; [|discriminate H2].
    destruct (md_version metadata) as [version|]; [|discriminate H3].
    cbn in H1, H2, H3. inversion H1. inversion H2. inversion H3.
    exists name, version, (String.concat "" x3).
    split; [reflexivity|]. split; [reflexivity|].
    rewrite !concat_cons. cbn [append]. now rewrite ?append_assoc.
Qed.

Lemma metadata_builder_required_keys_witness :
  Meta.metadata_builder Packaging.sample Packaging.str_Requirement (fun _ _ => None)
    (mkProject None (Some "0.1") None None None None None None None None None None
       None None (mkMetadata None None None None None None None) None None)
  = Raise (KeyError "name").
Proof.
  apply (proj1 (metadata_builder_required_keys Packaging.sample Packaging.str_Requirement
                  (fun _ _ => None) _)).
  reflexivity.
Defined.

Lemma read_file_agree (read1 read2 : string -> string -> option string)
    (filename encoding : string) :
  read1 filename encoding = read2 filename encoding ->
  Meta._read_file read1 filename encoding = Meta._read_file read2 filename encoding.
Proof. unfold Meta._read_file. now intros ->. Qed.

(** X23.  [metadata_source] lists each file of the metadata with the
    project directory in front; [metadata_builder] opens the files by the
    names the metadata gives, without that directory, and opens no other
    file: when two states of the files agree on every name whose path is in
    the list of [metadata_source], it gives the same result in both.  And
    when [metadata_source] raises, which it does for a license table
    without "text" and without "file", [metadata_builder] raises as
    well. *)
Theorem metadata_builder_reads_listed_names
    (Requirement : string -> option requirement)
    (str_Requirement : requirement -> string)
    (pyproject_dir : string) (metadata : Project) :
  (forall sources read1 read2,
      Meta.metadata_source pyproject_dir metadata = Ok sources ->
      (forall filename encoding,
         In (PosixPath.join pyproject_dir filename) sources ->
         read1 filename encoding = read2 filename encoding) ->
      Meta.metadata_builder Requirement str_Requirement read1 metadata = Meta.metadata_builder Requirement str_Requirement read2 metadata)
  /\ (forall e read,
        Meta.metadata_source pyproject_dir metadata = Raise e ->
        e = KeyError "file" /\ exists e', Meta.metadata_builder Requirement str_Requirement read metadata = Raise e').
Proof.
  split.
  - intros sources read1 read2 Hsources Hlisted.
    unfold Meta.metadata_source in Hsources. bind_inv Hsources.
    inversion Hsources; subst sources. clear Hsources.
    rename x into names. rename E into Hnames.
    assert (Hagree : forall filename encoding, In filename names ->
                       read1 filename encoding = read2 filename encoding).
    { intros filename encoding Hin. apply Hlisted. now apply in_map. }
    clear Hlisted.
    unfold Meta.metadata_source_names in Hnames. bind_inv Hnames.
    inversion Hnames; subst names. clear Hnames.
    assert (Hlicense : Meta.license_header read1 (md_license metadata)
                       = Meta.license_header read2 (md_license metadata)).
    { unfold Meta.license_header. unfold Meta.license_source in E.
      destruct (md_license metadata) as [[text | [text|] [file|]]|]; try reflexivity.
      cbn in E. inversion E; subst x. cbn [Tags.getitem bind].
      rewrite (read_file_agree read1 read2 file "utf-8"); [reflexivity|].
      apply Hagree. right. apply in_or_app. left. now left. }
    assert (Hdescription : Meta.description_part read1 metadata
                           = Meta.description_part read2 metadata).
    { assert (Hin : forall f, In f (Meta.readme_source metadata) ->
                      forall enc, read1 f enc = read2 f enc).
      { intros f Hf enc. apply Hagree. right. apply in_or_app. now right. }
      unfold Meta.description_part. unfold Meta.readme_source in Hin.
      destruct (md_readme metadata) as [[filename | [filename|] text ct enc]|].
      - rewrite (read_file_agree read1 read2 filename "utf-8"); [reflexivity|].
        apply Hin. now left.
      - rewrite (read_file_agree read1 read2 filename
                   (match enc with Some e => e | None => "utf-8" end)); [reflexivity|].
        apply Hin. now left.
      - reflexivity.
      - destruct (md_description_file metadata) as [filename|]; [|reflexivity].
        rewrite (read_file_agree read1 read2 filename "utf-8"); [reflexivity|].
        apply Hin. now left. }
    unfold Meta.metadata_builder. now rewrite Hlicense, Hdescription.
  - intros e read Hraise.
    unfold Meta.metadata_source in Hraise.
    destruct (Meta.metadata_source_names metadata) as [names|e0] eqn:Hnames;
      [discriminate Hraise|].
    cbn [bind] in Hraise. inversion Hraise; subst e0. clear Hraise.
    rename Hnames into Hraise.
    unfold Meta.metadata_source_names, Meta.license_source in Hraise.
    destruct (md_license metadata) as [[text | [text|] [file|]]|] eqn:Hl;
      try discriminate Hraise.
    cbn in Hraise. inversion Hraise. split; [reflexivity|].
    unfold Meta.metadata_builder.
    destruct (sequence_raise_in
                [ Ok ("Metadata-Version: 2.1" ++ String "010" "");
                  bind (Tags.getitem "name" (md_name metadata))
                    (fun name => Ok ("Name: " ++ name ++ String "010" ""));
                  bind (Tags.getitem "version" (md_version metadata))
                    (fun version => Ok ("Version: " ++ version ++ String "010" ""));
                  Ok (Meta.optional_header "Summary" (md_description metadata));
                  Ok (Meta.optional_header "Requires-Python" (md_requires_python metadata));
                  Meta.license_header read (md_license metadata);
                  Meta.author_headers metadata;
                  Meta.maintainer_headers metadata;
                  Ok (Meta.keywords_header (md_keywords metadata));
                  Ok (Meta.classifier_headers (md_classifiers metadata));
                  Ok (Meta.optional_header "Home-Page" (md_url metadata));
                  Ok (Meta.url_headers (md_urls metadata));
                  Ok (Meta.optional_header "Platform" (md_platform metadata));
                  Builders.metadata_builder_requires Requirement str_Requirement
                    (md_requires metadata);
                  Meta.description_part read metadata ]
                (KeyError "file")) as [e' He'].
    { rewrite Hl. cbn. tauto. }
    exists e'. now rewrite He'.
Qed.

Lemma metadata_builder_reads_listed_names_witness :
  let metadata :=
    mkProject (Some "sample") (Some "0.1") None None
      (Some (LicenseTable None (Some "LICENSE"))) None None None None None None None
      None None (mkMetadata None None None None None None None)
      (Some (ReadmeStr "README.md")) None in
  let files (other : option string) (filename encoding : string) :=
    if String.eqb filename "setup.py" then other
    else if String.eqb filename "LICENSE" then Some "MIT"
    else Some "Hello" in
  Meta.metadata_source "/home/dev/sample" metadata
  = Ok ["/home/dev/sample/pyproject.toml"; "/home/dev/sample/LICENSE";
        "/home/dev/sample/README.md"]
  /\ Meta.metadata_builder Packaging.sample Packaging.str_Requirement (files None) metadata
     = Meta.metadata_builder Packaging.sample Packaging.str_Requirement
         (files (Some "something else")) metadata.
Proof.
  intros metadata files. split; [reflexivity|].
  apply (proj1 (metadata_builder_reads_listed_names Packaging.sample
                  Packaging.str_Requirement "/home/dev/sample" metadata)
           ["/home/dev/sample/pyproject.toml"; "/home/dev/sample/LICENSE";
            "/home/dev/sample/README.md"]); [reflexivity|].
  intros filename encoding Hin. unfold files.
  destruct (String.eqb filename "setup.py") eqn:E; [|reflexivity].
  apply String.eqb_eq in E. subst filename. exfalso.
  vm_compute in Hin. destruct Hin as [H | [H | [H | []]]]; discriminate H.
Defined.

(** X24.  The table "authors" hides the keys "author" and "author_email",
    and "readme" hides "description_file": METADATA, and for the readme
    also the list of [metadata_source], are what they would be without the
    hidden keys. *)
Theorem newer_keys_hide_older
    (Requirement : string -> option requirement)
    (str_Requirement : requirement -> string)
    (read : string -> string -> option string)
    (metadata : Project) :
  (md_authors metadata <> None ->
   Meta.metadata_builder Requirement str_Requirement read metadata = Meta.metadata_builder Requirement str_Requirement read (Meta.without_legacy_author metadata))
  /\ (md_readme metadata <> None ->
      Meta.metadata_builder Requirement str_Requirement read metadata = Meta.metadata_builder Requirement str_Requirement read (Meta.without_description_file metadata)
      /\ Meta.metadata_source_names metadata
         = Meta.metadata_source_names (Meta.without_description_file metadata)).
Proof.
  split.
  - intros H. unfold Meta.metadata_builder, Meta.author_headers, Meta.maintainer_headers,
      Meta.description_part.
    cbn [Meta.without_legacy_author md_name md_version md_description md_requires_python
         md_license md_authors md_author md_author_email md_maintainers md_keywords
         md_classifiers md_url md_urls md_platform md_requires md_readme
         md_description_file].
    destruct (md_authors metadata); [reflexivity | now elim H].
  - intros H. unfold Meta.metadata_builder, Meta.metadata_source_names, Meta.readme_source,
      Meta.author_headers, Meta.maintainer_headers, Meta.description_part.
    cbn [Meta.without_description_file md_name md_version md_description
         md_requires_python md_license md_authors md_author md_author_email
         md_maintainers md_keywords md_classifiers md_url md_urls md_platform
         md_requires md_readme md_description_file].
    destruct (md_readme metadata); [split; reflexivity | now elim H].
Qed.

Lemma newer_keys_hide_older_witness :
  let metadata :=
    mkProject (Some "sample") (Some "0.1") None None None
      (Some [mkContact (Some "Ann") None]) (Some "Bob") (Some "bob@example.org")
      None None None None None None (mkMetadata None None None None None None None)
      None None in
  Meta.metadata_builder Packaging.sample Packaging.str_Requirement (fun _ _ => None) metadata
  = Meta.metadata_builder Packaging.sample Packaging.str_Requirement (fun _ _ => None)
      (Meta.without_legacy_author metadata).
Proof.
  intros metadata.
  apply (proj1 (newer_keys_hide_older Packaging.sample Packaging.str_Requirement
                  (fun _ _ => None) metadata)).
  discriminate.
Defined.

(* ================================================================== *)
(** * The legacy version specifier and the names of the wheel *)
(* ================================================================== *)

Lemma insert_string_perm (x : string) (l : list string) :
  Permutation (x :: l) (Legacy.insert_string x l).
Proof.
  induction l as [|y l IH]; simpl; [apply Permutation_refl|].
  destruct (String.leb x y); [apply Permutation_refl|].
  eapply perm_trans; [apply perm_swap|]. now apply perm_skip.
Qed.

Lemma sorted_strings_perm (l : list string) : Permutation l (Legacy.sorted_strings l).
Proof.
  unfold Legacy.sorted_strings. induction l as [|x l IH]; simpl; [constructor|].
  eapply perm_trans; [apply perm_skip, IH | apply insert_string_perm].
Qed.

Lemma insert_string_sorted (x : string) (l : list string) :
  StronglySorted (fun a b => String.leb a b = true) l ->
  StronglySorted (fun a b => String.leb a b = true) (Legacy.insert_string x l).
Proof.
  induction 1 as [|y l Hsorted IH Hall]; simpl; [repeat constructor|].
  destruct (String.leb x y) eqn:E.
  - constructor; [now constructor|].
    constructor; [exact E|].
    eapply Forall_impl; [|exact Hall].
    intros z Hz. now apply string_leb_trans with y.
  - constructor; [exact IH|].
    eapply Permutation_Forall; [apply insert_string_perm|].
    constructor; [|exact Hall].
    destruct (String.leb_total x y); congruence.
Qed.

Lemma sorted_strings_sorted (l : list string) :
  StronglySorted (fun a b => String.leb a b = true) (Legacy.sorted_strings l).
Proof.
  unfold Legacy.sorted_strings. induction l as [|x l IH]; simpl; [constructor|].
  now apply insert_string_sorted.
Qed.

Lemma sorted_strings_unique (l1 l2 : list string) :
  StronglySorted (fun a b => String.leb a b = true) l1 ->
  StronglySorted (fun a b => String.leb a b = true) l2 ->
  Permutation l1 l2 -> l1 = l2.
Proof.
  intros H1. revert l2. induction H1 as [|x l1 Hs1 IH Hall1]; intros l2 H2 Hperm.
  - now apply Permutation_nil in Hperm.
  - destruct H2 as [|y l2 Hs2 Hall2]; [now apply Permutation_sym, Permutation_nil in Hperm|].
    assert (Hxy : x = y).
    { assert (Hy : In y (x :: l1))
        by (eapply Permutation_in; [apply Permutation_sym, Hperm | now left]).
      assert (Hx : In x (y :: l2)) by (eapply Permutation_in; [exact Hperm | now left]).
      apply String.leb_antisym.
      - destruct Hy as [<- | Hy]; [apply string_leb_refl|].
        rewrite Forall_forall in Hall1. now apply Hall1.
      - destruct Hx as [<- | Hx]; [apply string_leb_refl|].
        rewrite Forall_forall in Hall2. now apply Hall2. }
    subst y. f_equal. apply IH; [exact Hs2|].
    now apply Permutation_cons_inv in Hperm.
Qed.

(** X25.  [requires_to_requires_dist] gives " @ " and the URL for a
    requirement with a URL, whatever its version specifiers; without a URL
    it gives the empty string when there is no specifier, and otherwise a
    text that does not depend on the order of the specifiers. *)
Theorem requires_to_requires_dist_cases (requirement : legacy_requirement) :
  (forall url, legacy_url requirement = Some url -> url <> "" ->
     Legacy.requires_to_requires_dist requirement = " @ " ++ url)
  /\ (Legacy.url_given requirement = None -> legacy_specs requirement = [] ->
      Legacy.requires_to_requires_dist requirement = "")
  /\ (forall specs,
        Permutation (legacy_specs requirement) specs ->
        Legacy.requires_to_requires_dist requirement
        = Legacy.requires_to_requires_dist (mkLegacy (legacy_url requirement) specs)).
Proof.
  split; [|split].
  - intros url Hurl Hne. unfold Legacy.requires_to_requires_dist, Legacy.url_given.
    rewrite Hurl. destruct url; [now elim Hne | reflexivity].
  - intros Hurl Hspecs. unfold Legacy.requires_to_requires_dist. now rewrite Hurl, Hspecs.
  - intros specs Hperm. unfold Legacy.requires_to_requires_dist, Legacy.url_given.
    cbn [legacy_url legacy_specs].
    destruct (match legacy_url requirement with
              | Some url => if PyStr.truthy url then Some url else None
              | None => None
              end); [reflexivity|].
    assert (Hmap : Permutation
                     (map (fun spec => fst spec ++ snd spec) (legacy_specs requirement))
                     (map (fun spec => fst spec ++ snd spec) specs))
      by (now apply Permutation_map).
    assert (Hsorted : Legacy.sorted_strings
                        (map (fun spec => fst spec ++ snd spec) (legacy_specs requirement))
                      = Legacy.sorted_strings (map (fun spec => fst spec ++ snd spec) specs)).
    { apply sorted_strings_unique; try apply sorted_strings_sorted.
      eapply perm_trans; [apply Permutation_sym, sorted_strings_perm|].
      eapply perm_trans; [exact Hmap | apply sorted_strings_perm]. }
    destruct (map (fun spec => fst spec ++ snd spec) (legacy_specs requirement)) as [|a l] eqn:E1;
      destruct (map (fun spec => fst spec ++ snd spec) specs) as [|b l'] eqn:E2.
    + reflexivity.
    + now apply Permutation_nil in Hmap.
    + now apply Permutation_sym, Permutation_nil in Hmap.
    + now rewrite Hsorted.
Qed.

Lemma requires_to_requires_dist_cases_witness :
  Legacy.requires_to_requires_dist (mkLegacy None [(">=", "1.0"); ("<", "2.0")])
  = Legacy.requires_to_requires_dist (mkLegacy None [("<", "2.0"); (">=", "1.0")])
  /\ Legacy.requires_to_requires_dist (mkLegacy None [(">=", "1.0"); ("<", "2.0")])
     = " (<2.0,>=1.0)".
Proof.
  split; [|reflexivity].
  apply (proj2 (proj2 (requires_to_requires_dist_cases
                         (mkLegacy None [(">=", "1.0"); ("<", "2.0")])))).
  apply perm_swap.
Defined.

Lemma length_append (a b : string) :
  String.length (a ++ b) = String.length a + String.length b.
Proof. induction a as [|c a IH]; simpl; congruence. Qed.

(** X26.  The names [init_wheel] makes fit together: whatever the name,
    the version and the tag, the editable wheel never has the file name of
    the wheel, and [DIST_INFO_NAME] is the name of the directory
    [DIST_INFO_PATH]. *)
Theorem init_wheel_names (name version wheel_tag : string) :
  let name_safe := Tags.normalize_package name in
  let namever := Tags.init_wheel_namever name_safe version in
  InitWheel.editable_filename namever wheel_tag <> Tags.init_wheel_filename namever wheel_tag
  /\ InitWheel.DIST_INFO_NAME namever = InitWheel.dist_info_dir name_safe version.
Proof.
  intros name_safe namever. split.
  - intros H. apply (f_equal String.length) in H.
    unfold InitWheel.editable_filename, Tags.init_wheel_filename in H.
    cbn [PyStr.join] in H. rewrite !length_append in H. simpl in H. lia.
  - unfold InitWheel.DIST_INFO_NAME, InitWheel.dist_info_dir, namever,
      Tags.init_wheel_namever. cbn [PyStr.join]. now rewrite !append_assoc.
Qed.
